(** * Batch pipeline of the synthetic clinical-dialogue dataset

    A shallow embedding of the repository's scripts

      - generate_complaints.py            ([GenerateComplaints])
      - generate_transcriptions_batch.py  ([GenerateTranscriptionsBatch])
      - generate_transcriptions.py        ([GenerateTranscriptions])
      - generate_soap_notes.py            ([GenerateSoapNotes])
      - merge_soap_clean.py               ([MergeSoapClean])
      - generate_soap_sections.py         ([GenerateSoapSections])

    and the properties of their request building, polling, extraction and
    correlation-id join.

    Conventions of the embedding.
      - A Python [str] is a [string]; a character is a code point below 256.
      - A Python [dict] is an association list in insertion order ([PyDict]).
      - A Python [set] is a [gset].
      - A script that stops early does so through an [exn]; a block of a
        script is a function into [result].
      - The language-model service and the batch facility are outside the
        repository: their answers are inputs of the model (scripted status
        lists, response lines, a facility record). So are [json.loads],
        the prompt texts and the state of [random], which the script
        modules take as Section variables.
      - Reading the API key, creating the client and the directories, and
        the progress lines printed on the way are left out. *)

From Stdlib Require Import String Ascii List ZArith Lia Bool.
From Stdlib Require Import Decimal DecimalNat DecimalPos DecimalString.
From stdpp Require Import base gmap sets list strings.

Local Open Scope string_scope.
Local Open Scope list_scope.
Local Open Scope nat_scope.

(* ===================================================================== *)
(** * Part I. The embedding                                               *)
(* ===================================================================== *)

(** ** Python built-ins used by the scripts *)

Module Py.

(** Characters that cannot stand in a literal here. *)
Definition dquote : ascii := "034"%char.
Definition newline : ascii := "010"%char.
Definition backtick : ascii := "096"%char.

(** [str.isspace] on code points below 256: TAB..CR, FS..US, space,
    NEL (0x85) and NBSP (0xA0). The same class is [\s] of a [str] pattern. *)
Definition isspace (c : ascii) : bool :=
  let n := nat_of_ascii c in
  (((9 <=? n) && (n <=? 13)) || ((28 <=? n) && (n <=? 32))
   || (n =? 133) || (n =? 160))%nat.

(** The explicit class [[a-zA-Z]]. *)
Definition is_ascii_letter (c : ascii) : bool :=
  let n := nat_of_ascii c in
  (((65 <=? n) && (n <=? 90)) || ((97 <=? n) && (n <=? 122)))%nat.

(** [\d] of a [str] pattern, on code points below 256. *)
Definition is_digit (c : ascii) : bool :=
  let n := nat_of_ascii c in ((48 <=? n) && (n <=? 57))%nat.

(** [\w] of a [str] pattern, on code points below 256: what [str.isalnum]
    accepts there, and the underscore. *)
Definition is_word (c : ascii) : bool :=
  let n := nat_of_ascii c in
  (is_digit c || is_ascii_letter c || (n =? 95)
   || (n =? 170) || (n =? 178) || (n =? 179) || (n =? 181) || (n =? 185)
   || (n =? 186) || ((188 <=? n) && (n <=? 190))
   || ((192 <=? n) && (n <=? 214)) || ((216 <=? n) && (n <=? 246))
   || (248 <=? n))%nat.

(** Lower case of an ASCII letter; re.I compares the letters of a pattern
    through it. *)
Definition lower (c : ascii) : ascii :=
  let n := nat_of_ascii c in
  if ((65 <=? n) && (n <=? 90))%nat then ascii_of_nat (n + 32) else c.

Definition eqb_nocase (a b : ascii) : bool := Ascii.eqb (lower a) (lower b).

(** A symbol beyond code point 255, by its UTF-8 bytes; such symbols only
    occur in texts the scripts print. *)
Definition utf8 (bytes : list nat) : string :=
  string_of_list_ascii (map ascii_of_nat bytes).
Definition cross_mark : string := utf8 [226; 157; 140].   (* U+274C *)
Definition check_mark : string := utf8 [226; 156; 147].   (* U+2713 *)

(** [s.lstrip()], [s.rstrip()], [s.strip()]. *)
Fixpoint lstrip (s : string) : string :=
  match s with
  | String c s' => if isspace c then lstrip s' else s
  | EmptyString => EmptyString
  end.

Fixpoint rstrip (s : string) : string :=
  match s with
  | String c s' =>
      match rstrip s' with
      | EmptyString => if isspace c then EmptyString else String c EmptyString
      | r => String c r
      end
  | EmptyString => EmptyString
  end.

Definition strip (s : string) : string := rstrip (lstrip s).

(** [s.startswith(p)]. *)
Definition startswith (s p : string) : bool := String.prefix p s.

(** The exceptions and exits the scripts end with. [SystemExit msg] is
    [sys.exit(msg)] with a string: the message goes to stderr and the exit
    status is 1. Every other constructor is an exception nobody catches:
    traceback, exit status 1. *)
Inductive exn :=
| ValueError (msg : string)
| RuntimeError (msg : string)
| KeyError (key : string)
| IndexError
| TypeError
| AttributeError
| JSONDecodeError
| SystemExit (msg : string)
| APIError (msg : string).

(** A block of a script: its value, or the exception that ended the run. *)
Definition result (A : Type) : Type := exn + A.
Definition Ok {A} (a : A) : result A := inr a.
Definition Raise {A} (e : exn) : result A := inl e.
Definition bind {A B} (m : result A) (k : A -> result B) : result B :=
  match m with
  | inl e => inl e
  | inr a => k a
  end.

(** The exit status of a finished run. *)
Definition exit_status {A} (r : result A) : Z :=
  match r with
  | inr _ => 0
  | inl _ => 1
  end.

(** JSON values as [json.loads] returns them (floats apart, which no
    property below reads). *)
#[warnings="-register-all"]
Inductive json :=
| JNull
| JBool (b : bool)
| JInt (n : Z)
| JStr (s : string)
| JList (l : list json)
| JDict (d : list (string * json)).

(** [str(n)] of a non-negative [int] and of any [int]. *)
Definition str_of_nat (n : nat) : string :=
  NilEmpty.string_of_uint (Nat.to_uint n).

Definition str_of_int (z : Z) : string :=
  NilEmpty.string_of_int (Z.to_int z).

(** [int(s)] on a text of decimal digits, which is what the pattern
    [\d+] captures. *)
Definition int_of_digits (s : string) : result Z :=
  match s, NilEmpty.uint_of_string s with
  | String _ _, Some d => Ok (Z.of_uint d)
  | _, _ => Raise (ValueError "invalid literal for int()")
  end.

(** [f"{i:0wd}"] for [i >= 0]: the decimal digits, zeros in front up to
    width [w], no digit cut. *)
Fixpoint zeros (n : nat) : string :=
  match n with
  | 0 => EmptyString
  | S n' => String "0" (zeros n')
  end.

Definition format_0d (w i : nat) : string :=
  let digits := str_of_nat i in
  zeros (w - String.length digits) +:+ digits.

(** [s.partition(sep)] for a one-character separator: the text before the
    first [sep] and the text after it. *)
Fixpoint cut (sep : ascii) (s : string) : option (string * string) :=
  match s with
  | EmptyString => None
  | String c s' =>
      if Ascii.eqb c sep then Some (EmptyString, s')
      else match cut sep s' with
           | Some (before, after) => Some (String c before, after)
           | None => None
           end
  end.

(** [s.split(sep, maxsplit)] for a one-character separator. *)
Fixpoint split (sep : ascii) (maxsplit : nat) (s : string) : list string :=
  match maxsplit with
  | 0 => [s]
  | S n =>
      match cut sep s with
      | Some (before, after) => before :: split sep n after
      | None => [s]
      end
  end.

(** [sep in s] for a one-character [sep]. *)
Fixpoint has_char (sep : ascii) (s : string) : bool :=
  match s with
  | EmptyString => false
  | String c s' => Ascii.eqb c sep || has_char sep s'
  end.

(** [s[:n]] and [s[-n:]] for [n > 0]. *)
Definition slice_to (n : nat) (s : string) : string :=
  String.substring 0 n s.

Definition slice_last (n : nat) (s : string) : string :=
  String.substring (String.length s - n) n s.

(** [NEWLINE.join(l)]. *)
Definition join_lines (l : list string) : string :=
  String.concat (String newline EmptyString) l.

(** More symbols beyond code point 255 that the texts of the scripts hold. *)
Definition ellipsis : string := utf8 [226; 128; 166].      (* U+2026 *)
Definition bullet : string := utf8 [226; 128; 162].        (* U+2022 *)
Definition en_dash : string := utf8 [226; 128; 147].       (* U+2013 *)
Definition left_quote : string := utf8 [226; 128; 156].    (* U+201C *)
Definition right_quote : string := utf8 [226; 128; 157].   (* U+201D *)

End Py.

Notation "x <~ m ;; k" := (Py.bind m (fun x => k))
  (at level 100, m at next level, right associativity).

(** ** Python dictionaries, in insertion order *)

Module PyDict.

Definition dict (V : Type) : Type := list (string * V).

Definition empty {V} : dict V := [].

(** [d.get(k)]; [d[k]] raises [KeyError] where this is [None]. *)
Fixpoint get {V} (d : dict V) (k : string) : option V :=
  match d with
  | [] => None
  | (k', v) :: d' => if String.eqb k' k then Some v else get d' k
  end.

(** [k in d]. *)
Definition contains {V} (d : dict V) (k : string) : bool :=
  match get d k with
  | Some _ => true
  | None => false
  end.

(** [d[k] = v]: a present key keeps its place and takes the new value, a
    new key goes to the end. *)
Fixpoint set {V} (d : dict V) (k : string) (v : V) : dict V :=
  match d with
  | [] => [(k, v)]
  | (k', v') :: d' =>
      if String.eqb k' k then (k', v) :: d' else (k', v') :: set d' k v
  end.

(** [{**d, **e}] and [d.update(e)]. *)
Definition update {V} (d e : dict V) : dict V :=
  fold_left (fun acc kv => set acc kv.1 kv.2) e d.

(** [list(d)], [d.keys()]. *)
Definition keys {V} (d : dict V) : list string := map fst d.

(** [set(d)]. *)
Definition keyset {V} (d : dict V) : gset string := list_to_set (keys d).

(** [d[k]]. *)
Definition getitem {V} (d : dict V) (k : string) : Py.result V :=
  match get d k with
  | Some v => Py.Ok v
  | None => Py.Raise (Py.KeyError k)
  end.

(** The invariant of every dictionary: no key twice. *)
Definition wf {V} (d : dict V) : Prop := NoDup (keys d).

End PyDict.

(** ** The fragment of [re] the scripts use *)

Module Re.

(** A pattern is a sequence of atoms. *)
Inductive atom :=
| Chr (p : ascii -> bool)      (* one character of a class; a literal *)
| Star (p : ascii -> bool)     (* class*, greedy; [.*] under re.S *)
| Caret                        (* ^ without re.M: the start of the text *)
| Dollar                       (* $ without re.M: the end, or before a last newline *)
| GroupOpen                    (* ( *)
| GroupClose                   (* ) *)
| AltNoCase (alts : list string).  (* a|b|... of literal texts, under re.I *)

Definition pattern := list atom.

(** The literal text [s]. *)
Definition lit (s : string) : pattern :=
  map (fun c => Chr (Ascii.eqb c)) (list_ascii_of_string s).

(** The literal text [s] under re.I. *)
Definition lit_nocase (s : string) : pattern :=
  map (fun c => Chr (Py.eqb_nocase c)) (list_ascii_of_string s).

Definition any (_ : ascii) : bool := true.

(** [s] without the prefix [a], letters compared in either case. *)
Fixpoint after_nocase (a s : string) : option string :=
  match a, s with
  | EmptyString, _ => Some s
  | String x a', String c s' =>
      if Py.eqb_nocase x c then after_nocase a' s' else None
  | String _ _, EmptyString => None
  end.

(** Capture state: where group 1 opened, and its span once closed. *)
Record caps := { g_open : option nat; g_span : option (nat * nat) }.
Definition no_caps : caps := {| g_open := None; g_span := None |}.

Definition at_dollar (s : string) : bool :=
  match s with
  | EmptyString => true
  | String c EmptyString => Ascii.eqb c Py.newline
  | _ => false
  end.

(** [exec pat pos s g]: match [pat] against [s], the text from position
    [pos] on, by backtracking; the first match found is the one [re]
    returns. The answer is the end position and the captures. *)
Fixpoint exec (pat : pattern) : nat -> string -> caps -> option (nat * caps) :=
  match pat with
  | [] => fun pos _ g => Some (pos, g)
  | a :: rest =>
      match a with
      | Chr p => fun pos s g =>
          match s with
          | String c s' => if p c then exec rest (S pos) s' g else None
          | EmptyString => None
          end
      | Star p =>
          fix star (pos : nat) (s : string) (g : caps) : option (nat * caps) :=
            match s with
            | String c s' =>
                if p c then
                  match star (S pos) s' g with
                  | Some r => Some r
                  | None => exec rest pos s g
                  end
                else exec rest pos s g
            | EmptyString => exec rest pos s g
            end
      | Caret => fun pos s g =>
          if (pos =? 0)%nat then exec rest pos s g else None
      | Dollar => fun pos s g =>
          if at_dollar s then exec rest pos s g else None
      | GroupOpen => fun pos s g =>
          exec rest pos s {| g_open := Some pos; g_span := g_span g |}
      | GroupClose => fun pos s g =>
          exec rest pos s
            {| g_open := g_open g;
               g_span := match g_open g with
                         | Some o => Some (o, pos)
                         | None => g_span g
                         end |}
      | AltNoCase alts => fun pos s g =>
          (fix try (alts : list string) : option (nat * caps) :=
             match alts with
             | [] => None
             | a :: alts' =>
                 match after_nocase a s with
                 | Some s' =>
                     match exec rest (pos + String.length a) s' g with
                     | Some r => Some r
                     | None => try alts'
                     end
                 | None => try alts'
                 end
             end) alts
      end
  end.

(** A match object: the span of group 0 and of group 1. *)
Record match_obj := { m_start : nat; m_end : nat; m_group1 : option (nat * nat) }.

Definition slice (s : string) (span : nat * nat) : string :=
  String.substring span.1 (span.2 - span.1) s.

(** [m.group(0)] and [m.group(1)] on the text [s] that was matched. *)
Definition group0 (s : string) (m : match_obj) : string :=
  slice s (m_start m, m_end m).
Definition group1 (s : string) (m : match_obj) : option string :=
  slice s <$> m_group1 m.

(** [pat.match(s)]: at position 0 only. *)
Definition re_match (pat : pattern) (s : string) : option match_obj :=
  match exec pat 0 s no_caps with
  | Some (e, g) => Some {| m_start := 0; m_end := e; m_group1 := g_span g |}
  | None => None
  end.

(** [pat.search(s)]: the leftmost position where the pattern matches. *)
Fixpoint search_from (pat : pattern) (pos : nat) (s : string) : option match_obj :=
  match exec pat pos s no_caps with
  | Some (e, g) => Some {| m_start := pos; m_end := e; m_group1 := g_span g |}
  | None =>
      match s with
      | String _ s' => search_from pat (S pos) s'
      | EmptyString => None
      end
  end.

Definition re_search (pat : pattern) (s : string) : option match_obj :=
  search_from pat 0 s.

(** [re.sub(pat, "", s)] for a pattern that matches no empty text (both
    patterns of [clean_json] hold three backticks): every match, leftmost
    first and without overlap, is cut out. [skip] counts the characters of
    the current match still to drop. *)
Fixpoint sub_loop (pat : pattern) (pos skip : nat) (s : string) : string :=
  match s with
  | EmptyString => EmptyString
  | String c s' =>
      match skip with
      | S k => sub_loop pat (S pos) k s'
      | 0 =>
          match exec pat pos s no_caps with
          | Some (e, _) =>
              if (pos <? e)%nat then sub_loop pat (S pos) (e - pos - 1) s'
              else String c (sub_loop pat (S pos) 0 s')
          | None => String c (sub_loop pat (S pos) 0 s')
          end
      end
  end.

Definition re_sub_delete (pat : pattern) (s : string) : string :=
  sub_loop pat 0 0 s.

End Re.

(** ** generate_complaints.py *)

Module GenerateComplaints.

Definition fence : Re.pattern :=
  [Re.Chr (Ascii.eqb Py.backtick); Re.Chr (Ascii.eqb Py.backtick);
   Re.Chr (Ascii.eqb Py.backtick)].

(** [^```[a-zA-Z]*\s*] *)
Definition opening_fence : Re.pattern :=
  Re.Caret :: fence ++ [Re.Star Py.is_ascii_letter; Re.Star Py.isspace].

(** [\s*```$] *)
Definition closing_fence : Re.pattern :=
  Re.Star Py.isspace :: fence ++ [Re.Dollar].

(** [\[.*\]] with re.S *)
Definition first_array : Re.pattern :=
  Re.lit "[" ++ [Re.Star Re.any] ++ Re.lit "]".

(** [clean_json(raw)]. *)
Definition clean_json (raw : string) : string :=
  let raw := Py.strip raw in
  let raw :=
    if Py.startswith raw "```" then
      Re.re_sub_delete closing_fence (Re.re_sub_delete opening_fence raw)
    else raw in
  match Re.re_search first_array raw with
  | Some m => Re.group0 raw m
  | None => ""
  end.

(** One attempt of [fetch_complaints] on the text [content] the model
    returned: [json.loads(clean_json(content))]. *)
Definition fetch_complaints (json_loads : string -> Py.result Py.json)
    (content : string) : Py.result Py.json :=
  let cleaned := clean_json content in
  json_loads cleaned.

End GenerateComplaints.


(** ** The batch files: what the scripts read of each JSON line *)

Module Batch.

(** A line of a request file: [custom_id] and the prompt,
    [body.messages[0].content]. *)
Record request_line := { req_id : string; req_prompt : string }.

(** A line of a response file: [custom_id], [response.status_code] and the
    model's text, [response.body.choices[0].message.content]
    (generate_transcriptions_batch.py decodes the body with json.loads
    before it reads the text; the other scripts take it as an object). *)
Record response_line := {
  custom_id : string;
  status_code : Z;
  content : string
}.

(** The facility behind [client.files.create] and [client.batches.create]:
    each either answers with an id or raises. *)
Record facility := {
  files_create : list request_line -> Py.result string;
  batches_create : string -> Py.result string
}.

(** Upload the request file and launch the batch. *)
Definition submit (fac : facility) (input : list request_line) : Py.result string :=
  file_id <~ files_create fac input;;
  batches_create fac file_id.

(** What a polling loop does, in order. *)
Inductive event :=
| Retrieve                 (* client.batches.retrieve(batch.id) *)
| Sleep (seconds : nat).   (* time.sleep(seconds) *)

(** How a polling loop stands when the scripted answers are used up. *)
Inductive poll_end :=
| Completed                (* break: the script goes on to the download *)
| Stopped (e : Py.exn)     (* the script ends here *)
| Waiting.                 (* still in the loop, about to retrieve again *)

Definition is_retrieve (e : event) : bool :=
  match e with
  | Retrieve => true
  | Sleep _ => false
  end.

(** The number of status queries in a trace. *)
Definition polls (trace : list event) : nat :=
  length (List.filter is_retrieve trace).

End Batch.

(** The polling loop that three scripts share word for word, up to how they
    stop on a failed batch and how long they sleep:

      while True:
          batch = client.batches.retrieve(batch.id)
          if batch.status in {failed, expired}: stop
          if batch.status == completed: break
          sleep

    [answers] are the batch objects the facility returns, query after
    query. *)

Module Poller.

Import Batch.

(** A batch object as the loop reads it: its status and its printed form. *)
Record job := { status : string; shown : string }.

Fixpoint poll_loop (on_failure : job -> Py.exn) (seconds : nat)
    (answers : list job) : list event * poll_end :=
  match answers with
  | [] => ([], Waiting)
  | batch :: rest =>
      if String.eqb (status batch) "failed" || String.eqb (status batch) "expired"
      then ([Retrieve], Stopped (on_failure batch))
      else if String.eqb (status batch) "completed"
      then ([Retrieve], Completed)
      else
        let (trace, e) := poll_loop on_failure seconds rest in
        (Retrieve :: Sleep seconds :: trace, e)
  end.

End Poller.

(** ** The six fact patterns, the same in generate_soap_notes.py and
    merge_soap_clean.py *)

Module Facts.

Import Re.

Definition one_or_more (p : ascii -> bool) : pattern := [Chr p; Star p].

(** [gender:\s*(\w+)], re.I *)
Definition re_gender : pattern :=
  lit_nocase "gender:" ++ [Star Py.isspace; GroupOpen]
  ++ one_or_more Py.is_word ++ [GroupClose].

(** [age:\s*(\d+)], re.I *)
Definition re_age : pattern :=
  lit_nocase "age:" ++ [Star Py.isspace; GroupOpen]
  ++ one_or_more Py.is_digit ++ [GroupClose].

(** [smoker:\s*(Yes|No)], re.I *)
Definition re_smoker : pattern :=
  lit_nocase "smoker:" ++ [Star Py.isspace; GroupOpen; AltNoCase ["Yes"; "No"]; GroupClose].

(** [drinker:\s*(Yes|No)], re.I *)
Definition re_drinker : pattern :=
  lit_nocase "drinker:" ++ [Star Py.isspace; GroupOpen; AltNoCase ["Yes"; "No"]; GroupClose].

(** [BP:\s*([\d/]+)], re.I *)
Definition re_bp : pattern :=
  lit_nocase "BP:" ++ [Star Py.isspace; GroupOpen]
  ++ one_or_more (fun c => Py.is_digit c || Ascii.eqb c "/") ++ [GroupClose].

(** [chief complaint:\s*QUOTE([^QUOTE]+)QUOTE], re.I *)
Definition re_cc : pattern :=
  lit_nocase "chief complaint:" ++ [Star Py.isspace; Chr (Ascii.eqb Py.dquote); GroupOpen]
  ++ one_or_more (fun c => negb (Ascii.eqb c Py.dquote))
  ++ [GroupClose; Chr (Ascii.eqb Py.dquote)].

(** [rx.search(prompt).group(1)]: a pattern that is not found gives [None],
    whose [.group] raises AttributeError. *)
Definition search_group1 (rx : pattern) (prompt : string) : Py.result string :=
  match re_search rx prompt with
  | Some m => Py.Ok (default EmptyString (group1 prompt m))
  | None => Py.Raise Py.AttributeError
  end.

(** The dictionary both scripts build from a prompt, keys in this order. *)
Definition facts_of (prompt : string) : Py.result (PyDict.dict string) :=
  gender <~ search_group1 re_gender prompt;;
  age <~ search_group1 re_age prompt;;
  smoker <~ search_group1 re_smoker prompt;;
  drinker <~ search_group1 re_drinker prompt;;
  bp <~ search_group1 re_bp prompt;;
  cc <~ search_group1 re_cc prompt;;
  Py.Ok [("gender", gender); ("age", age); ("smoker", smoker);
         ("drinker", drinker); ("bp", bp); ("cc", cc)].

Definition fact_keys : list string :=
  ["gender"; "age"; "smoker"; "drinker"; "bp"; "cc"].

End Facts.

(** ** generate_soap_sections.py *)

Module GenerateSoapSections.

Import Batch.

(** The slugs and instructions of the paraphrase formats (in the
    instructions the sign for at-most is spelled out). *)
Definition FORMAT_VARIANTS : list (string * string) :=
  [("simple",    "Rephrase in plain prose; keep structure similar.");
   ("bullets",   "Rewrite as bullet points (-). Each line <= 20 words.");
   ("narrative", "Expand into a brief narrative paragraph (3-4 sentences).");
   ("brev_bp",   "Bullet list, line <= 70 characters; be concise.");
   ("detailed",  "Add clinical nuance and detail while preserving facts.")].

(** The request's id: the note's id, the section label and the slug,
    joined by underscores. *)
Definition composite_id (cid label slug : string) : string :=
  cid +:+ "_" +:+ label +:+ "_" +:+ slug.

(** [cid, section, slug = custom_id.split(UNDERSCORE, 2)]: unpacking anything
    but three parts raises ValueError. *)
Definition split_custom_id (id : string) : Py.result (string * string * string) :=
  match Py.split "_" 2 id with
  | [cid; section; slug] => Py.Ok (cid, section, slug)
  | _ => Py.Raise (Py.ValueError "not enough values to unpack")
  end.

Section Stage.

(** [json.loads], and the prompt text
    [template.format(k, label.capitalize(), text) + extra]. *)
Variable json_loads : string -> Py.result Py.json.
Variable prompt_of : string -> Py.json -> string -> string.

(** 1. load SOAP sections *)
Fixpoint load_sections (lines : list response_line) (sections : PyDict.dict Py.json)
    : Py.result (PyDict.dict Py.json) :=
  match lines with
  | [] => Py.Ok sections
  | j :: lines' =>
      if (status_code j =? 200)%Z then
        soap <~ json_loads (content j);;
        load_sections lines' (PyDict.set sections (custom_id j) soap)
      else load_sections lines' sections
  end.

(** 2. build the batch input: one request per note, section and format.
    [soap.items()] needs a JSON object. *)
Definition requests_of_section (cid label : string) (text : Py.json) : list request_line :=
  map (fun '(slug, extra) =>
         {| req_id := composite_id cid label slug;
            req_prompt := prompt_of label text extra |}) FORMAT_VARIANTS.

Definition requests_of_note (cid : string) (soap : Py.json) : Py.result (list request_line) :=
  match soap with
  | Py.JDict d => Py.Ok (flat_map (fun '(label, text) => requests_of_section cid label text) d)
  | _ => Py.Raise Py.AttributeError
  end.

Fixpoint build_input (sections : PyDict.dict Py.json) : Py.result (list request_line) :=
  match sections with
  | [] => Py.Ok []
  | (cid, soap) :: sections' =>
      reqs <~ requests_of_note cid soap;;
      more <~ build_input sections';;
      Py.Ok (reqs ++ more)
  end.

(** 6. flatten: the rows one response line gives. [enumerate(paras, 1)]
    walks a list's items, an object's keys or a text's characters. *)
Record aug_row := {
  row_id : string; section : string; format : string;
  alt_idx : string; text : string
}.

Fixpoint rows_of_paras (cid section slug : string) (i : nat) (paras : list Py.json)
    : Py.result (list aug_row) :=
  match paras with
  | [] => Py.Ok []
  | Py.JStr alt :: paras' =>
      more <~ rows_of_paras cid section slug (S i) paras';;
      Py.Ok ({| row_id := cid; section := section; format := slug;
                alt_idx := Py.format_0d 2 i; text := Py.strip alt |} :: more)
  | _ :: _ => Py.Raise Py.AttributeError
  end.

Definition flatten_line (j : response_line) : Py.result (list aug_row) :=
  if (status_code j =? 200)%Z then
    parts <~ split_custom_id (custom_id j);;
    let '(cid, section, slug) := parts in
    paras <~ json_loads (content j);;
    match paras with
    | Py.JList l => rows_of_paras cid section slug 1 l
    | Py.JDict d => rows_of_paras cid section slug 1 (map (fun kv => Py.JStr kv.1) d)
    | Py.JStr s =>
        rows_of_paras cid section slug 1
          (map (fun c => Py.JStr (String c EmptyString)) (list_ascii_of_string s))
    | _ => Py.Raise Py.TypeError
    end
  else Py.Ok [].

Fixpoint flatten_lines (lines : list response_line) : Py.result (list aug_row) :=
  match lines with
  | [] => Py.Ok []
  | j :: lines' =>
      rows <~ flatten_line j;;
      more <~ flatten_lines lines';;
      Py.Ok (rows ++ more)
  end.

(** The with statement of step 6 opens both files before the loop, the
    second through [CONFIG[FINAL_DATA].open(...)]. CONFIG[FINAL_DATA] is a
    str, and a str has no attribute open. *)
Definition open_final_data : Py.result unit := Py.Raise Py.AttributeError.

Definition flatten (lines : list response_line) : Py.result (list aug_row) :=
  _ <~ open_final_data;;
  flatten_lines lines.

End Stage.

(** 4. poll, with [CONFIG[POLL_SEC]] seconds of sleep *)
Definition POLL_SEC : nat := 30.

Definition poll (answers : list Poller.job) : list event * poll_end :=
  Poller.poll_loop
    (fun batch => Py.SystemExit (Py.cross_mark +:+ " batch " +:+ Poller.status batch))
    POLL_SEC answers.

End GenerateSoapSections.

(** ** generate_soap_notes.py *)

Module GenerateSoapNotes.

Import Batch.

(** 2. regex helpers *)
Definition parse_facts (prompt : string) : Py.result (PyDict.dict string) :=
  Facts.facts_of prompt.

(** 3. load original facts/prompts *)
Fixpoint load_facts (lines : list request_line) (facts_map : PyDict.dict (PyDict.dict string))
    : Py.result (PyDict.dict (PyDict.dict string)) :=
  match lines with
  | [] => Py.Ok facts_map
  | j :: lines' =>
      facts <~ parse_facts (req_prompt j);;
      load_facts lines' (PyDict.set facts_map (req_id j) facts)
  end.

(** The pattern  {QUOTE transcription QUOTE \s* : \s* QUOTE ( .* ) QUOTE}
    with re.S, where QUOTE is the double quote. *)
Definition grab_tx : Re.pattern :=
  Re.lit "{" ++ [Re.Chr (Ascii.eqb Py.dquote)] ++ Re.lit "transcription"
  ++ [Re.Chr (Ascii.eqb Py.dquote); Re.Star Py.isspace] ++ Re.lit ":"
  ++ [Re.Star Py.isspace; Re.Chr (Ascii.eqb Py.dquote);
      Re.GroupOpen; Re.Star Re.any; Re.GroupClose;
      Re.Chr (Ascii.eqb Py.dquote)] ++ Re.lit "}".

(** 4. load transcriptions: a successful line whose text the pattern does
    not match raises, and the script ends there. *)
Fixpoint load_transcriptions (lines : list response_line) (tx_map : PyDict.dict string)
    : Py.result (PyDict.dict string) :=
  match lines with
  | [] => Py.Ok tx_map
  | j :: lines' =>
      if (status_code j =? 200)%Z then
        match Re.re_match grab_tx (content j) with
        | None =>
            Py.Raise (Py.ValueError ("Bad JSON in transcription for " +:+ custom_id j))
        | Some m =>
            load_transcriptions lines'
              (PyDict.set tx_map (custom_id j) (default EmptyString (Re.group1 (content j) m)))
        end
      else load_transcriptions lines' tx_map
  end.

(** [missing = set(facts_map) - set(tx_map)] *)
Definition missing (facts_map : PyDict.dict (PyDict.dict string))
    (tx_map : PyDict.dict string) : gset string :=
  PyDict.keyset facts_map ∖ PyDict.keyset tx_map.

(** [if missing: sys.exit(...)] *)
Definition check_missing (facts_map : PyDict.dict (PyDict.dict string))
    (tx_map : PyDict.dict string) : Py.result unit :=
  let missing := missing facts_map tx_map in
  if decide (missing = ∅) then Py.Ok tt
  else Py.Raise (Py.SystemExit
         (Py.cross_mark +:+ " " +:+ Py.str_of_nat (size missing)
          +:+ " transcriptions missing, cannot proceed")).

(** The four keys the SOAP prompt asks for. *)
Definition SOAP_KEYS : list string :=
  ["subjective"; "objective"; "assessment"; "plan"].

Section Stage.

(** [json.loads], and the prompt [template.format(tx=..., **facts)]. *)
Variable json_loads : string -> Py.result Py.json.
Variable template_format : string -> PyDict.dict string -> string.

(** 5. build soap_input.jsonl *)
Fixpoint build_soap_input (items : list (string * PyDict.dict string))
    (tx_map : PyDict.dict string) : Py.result (list request_line) :=
  match items with
  | [] => Py.Ok []
  | (cid, facts) :: items' =>
      tx <~ PyDict.getitem tx_map cid;;
      more <~ build_soap_input items' tx_map;;
      Py.Ok ({| req_id := cid; req_prompt := template_format tx facts |} :: more)
  end.

(** The pairing phase, steps 3 to 5, up to the request file. *)
Definition pair (input_tx : list request_line) (output_tx : list response_line)
    : Py.result (PyDict.dict (PyDict.dict string) * PyDict.dict string * list request_line) :=
  facts_map <~ load_facts input_tx PyDict.empty;;
  tx_map <~ load_transcriptions output_tx PyDict.empty;;
  _ <~ check_missing facts_map tx_map;;
  soap_in <~ build_soap_input facts_map tx_map;;
  Py.Ok (facts_map, tx_map, soap_in).

(** 7. poll *)
Definition poll (answers : list Poller.job) : list event * poll_end :=
  Poller.poll_loop
    (fun batch => Py.SystemExit (Py.cross_mark +:+ " batch " +:+ Poller.status batch))
    30 answers.

(** The record of one SOAP answer:
    [{**facts_map[cid], transcription: tx_map[cid], **soap, row_id: cid}]. *)
Definition master_record (cid : string) (facts : PyDict.dict string) (tx : string)
    (soap : PyDict.dict Py.json) : PyDict.dict Py.json :=
  PyDict.set
    (PyDict.update
       (PyDict.set (map (fun kv => (kv.1, Py.JStr kv.2)) facts) "transcription" (Py.JStr tx))
       soap)
    "row_id" (Py.JStr cid).

Definition master_line (facts_map : PyDict.dict (PyDict.dict string))
    (tx_map : PyDict.dict string) (j : response_line) : Py.result (PyDict.dict Py.json) :=
  soap <~ json_loads (content j);;
  facts <~ PyDict.getitem facts_map (custom_id j);;
  tx <~ PyDict.getitem tx_map (custom_id j);;
  match soap with
  | Py.JDict soap => Py.Ok (master_record (custom_id j) facts tx soap)
  | _ => Py.Raise Py.TypeError
  end.

(** 9. merge and save master: the records written, in order, paired with
    the id each belongs to, and the exception that cut the loop short. *)
Fixpoint merge_master (lines : list response_line)
    (facts_map : PyDict.dict (PyDict.dict string)) (tx_map : PyDict.dict string)
    : list (string * PyDict.dict Py.json) * option Py.exn :=
  match lines with
  | [] => ([], None)
  | j :: lines' =>
      if (status_code j =? 200)%Z then
        match master_line facts_map tx_map j with
        | inl e => ([], Some e)
        | inr record =>
            let (out, e) := merge_master lines' facts_map tx_map in
            ((custom_id j, record) :: out, e)
        end
      else merge_master lines' facts_map tx_map
  end.

End Stage.

End GenerateSoapNotes.

(** ** merge_soap_clean.py *)

Module MergeSoapClean.

Import Batch.

Definition extract_facts (prompt : string) : Py.result (PyDict.dict string) :=
  Facts.facts_of prompt.

(** The entry of [req_facts] for one request. *)
Definition request_record (cid : string) (facts : PyDict.dict string)
    : Py.result (PyDict.dict Py.json) :=
  gender <~ PyDict.getitem facts "gender";;
  age <~ PyDict.getitem facts "age";;
  age <~ Py.int_of_digits age;;
  smoker <~ PyDict.getitem facts "smoker";;
  drinker <~ PyDict.getitem facts "drinker";;
  bp <~ PyDict.getitem facts "bp";;
  cc <~ PyDict.getitem facts "cc";;
  Py.Ok [("row_id", Py.JStr cid); ("gender", Py.JStr gender); ("age", Py.JInt age);
         ("smoker", Py.JStr smoker); ("drinker", Py.JStr drinker);
         ("blood_pressure", Py.JStr bp); ("chief_complaint", Py.JStr cc)].

(** load requests *)
Fixpoint load_requests (lines : list request_line)
    (req_facts : PyDict.dict (PyDict.dict Py.json))
    : Py.result (PyDict.dict (PyDict.dict Py.json)) :=
  match lines with
  | [] => Py.Ok req_facts
  | j :: lines' =>
      facts <~ extract_facts (req_prompt j);;
      record <~ request_record (req_id j) facts;;
      load_requests lines' (PyDict.set req_facts (req_id j) record)
  end.

(** [record = {**base, **soap}] *)
Definition merge_record (base soap : PyDict.dict Py.json) : PyDict.dict Py.json :=
  PyDict.update base soap.

(** merge + write: the records written, in order, each paired with its id,
    and the exception that cut the loop short. An id without an entry in
    [soap_map] is passed over. *)
Fixpoint merge_write (items : list (string * PyDict.dict Py.json))
    (soap_map : PyDict.dict Py.json)
    : list (string * PyDict.dict Py.json) * option Py.exn :=
  match items with
  | [] => ([], None)
  | (cid, base) :: items' =>
      match PyDict.get soap_map cid with
      | None => merge_write items' soap_map
      | Some (Py.JDict soap) =>
          let (out, e) := merge_write items' soap_map in
          ((cid, merge_record base soap) :: out, e)
      | Some _ => ([], Some Py.TypeError)
      end
  end.

(** What a run leaves: the lines of the output file, what it printed and
    the exception it died of, if any. *)
Record run := {
  outfile : list (PyDict.dict Py.json);
  stdout : list string;
  ended : option Py.exn
}.

(** The exit status of a run. *)
Definition exit_status (r : run) : Z :=
  match ended r with
  | None => 0
  | Some _ => 1
  end.

Definition wrote_message (lines : nat) : string :=
  Py.check_mark +:+ " wrote data/synthetic_patients_with_soap.jsonl  ("
  +:+ Py.str_of_nat lines +:+ " lines)".

(** The merge, the write and the final print, from the two dictionaries. *)
Definition merge_and_report (req_facts : PyDict.dict (PyDict.dict Py.json))
    (soap_map : PyDict.dict Py.json) : run :=
  let (merged, e) := merge_write req_facts soap_map in
  match e with
  | Some e => {| outfile := map snd merged; stdout := []; ended := Some e |}
  | None =>
      {| outfile := map snd merged;
         stdout := [wrote_message (length merged)];
         ended := None |}
  end.

Section Script.

Variable json_loads : string -> Py.result Py.json.

(** load responses *)
Fixpoint load_responses (lines : list response_line) (soap_map : PyDict.dict Py.json)
    : Py.result (PyDict.dict Py.json) :=
  match lines with
  | [] => Py.Ok soap_map
  | j :: lines' =>
      if (status_code j =? 200)%Z then
        soap <~ json_loads (content j);;
        load_responses lines' (PyDict.set soap_map (custom_id j) soap)
      else load_responses lines' soap_map
  end.

(** The whole script. *)
Definition main (requests : list request_line) (responses : list response_line) : run :=
  match load_requests requests PyDict.empty with
  | inl e => {| outfile := []; stdout := []; ended := Some e |}
  | inr req_facts =>
      match load_responses responses PyDict.empty with
      | inl e => {| outfile := []; stdout := []; ended := Some e |}
      | inr soap_map => merge_and_report req_facts soap_map
      end
  end.

End Script.

End MergeSoapClean.

(** ** generate_transcriptions_batch.py *)

Module GenerateTranscriptionsBatch.

Import Batch.

(** The settings the code below reads (the model name and temperature only
    go into the request bodies). *)
Record config := {
  TARGET_ROWS : nat;
  TX_MIN_WORDS : nat;
  TX_MAX_WORDS : nat;
  BATCH_POLL_SEC : nat;
  COMPLETION_WIN : string;
  OUT_DIR : string
}.

Definition CONFIG : config := {|
  TARGET_ROWS := 1032;
  TX_MIN_WORDS := 600;
  TX_MAX_WORDS := 1200;
  BATCH_POLL_SEC := 30;
  COMPLETION_WIN := "24h";
  OUT_DIR := "batch_files"
|}.

(** A demographic row. *)
Record row := {
  row_id : string;
  gender : string;
  age : Z;
  smoker : string;
  drinker : string;
  blood_pressure : string;
  chief_complaint : string
}.

Section Script.

(** The state of [random] and its generator: a raw draw and the next
    state. *)
Variable rng : Type.
Variable next : rng -> nat * rng.

(** The complaints read from chief_complaints.json. *)
Variable BASE_CC : list string.

(** [json.loads], and the prompt [_PROMPT_TX_TEMPLATE.format(...)]. *)
Variable json_loads : string -> Py.result Py.json.
Variable prompt_of : row -> string.

Definition randbelow (n : nat) (g : rng) : nat * rng :=
  let (r, g') := next g in (r mod n, g').

(** [random.randint(a, b)], for [a <= b]. *)
Definition randint (a b : Z) (g : rng) : Z * rng :=
  let (k, g') := randbelow (Z.to_nat (b - a + 1)) g in
  ((a + Z.of_nat k)%Z, g').

(** [random.choice(seq)]: IndexError on an empty sequence. *)
Definition choice {A} (seq : list A) (g : rng) : Py.result (A * rng) :=
  match seq with
  | [] => Py.Raise Py.IndexError
  | _ :: _ =>
      let (k, g') := randbelow (length seq) g in
      match seq !! k with
      | Some x => Py.Ok (x, g')
      | None => Py.Raise Py.IndexError
      end
  end.

(** quick random helpers *)
Definition rand_bp (g : rng) : string * rng :=
  let (systolic, g) := randint 100 180 g in
  let (diastolic, g) := randint 60 110 g in
  (Py.str_of_int systolic +:+ "/" +:+ Py.str_of_int diastolic, g).
Definition rand_age (g : rng) : Z * rng := randint 18 90 g.
Definition rand_gen (g : rng) : Py.result (string * rng) :=
  choice ["Male"; "Female"; "Non-binary"] g.
Definition rand_yn (g : rng) : Py.result (string * rng) :=
  choice ["Yes"; "No"] g.
Definition rand_cc (g : rng) : Py.result (string * rng) :=
  choice BASE_CC g.

(** The body of the loop of [build_rows] for index [i]. *)
Definition draw_row (i : nat) (g : rng) : Py.result (row * rng) :=
  gender <~ rand_gen g;;
  let (age, g) := rand_age gender.2 in
  smoker <~ rand_yn g;;
  drinker <~ rand_yn smoker.2;;
  let (bp, g) := rand_bp drinker.2 in
  cc <~ rand_cc g;;
  Py.Ok ({| row_id := "row" +:+ Py.format_0d 4 i;
            gender := gender.1;
            age := age;
            smoker := smoker.1;
            drinker := drinker.1;
            blood_pressure := bp;
            chief_complaint := cc.1 |}, cc.2).

Fixpoint rows_loop (indices : list nat) (rows : list row) (g : rng)
    : Py.result (list row * rng) :=
  match indices with
  | [] => Py.Ok (rows, g)
  | i :: indices' =>
      r <~ draw_row i g;;
      rows_loop indices' (rows ++ [r.1]) r.2
  end.

(** 1. build local demographic rows. The argument is not read: the loop
    runs over [range(CONFIG[TARGET_ROWS])]. *)
Definition build_rows (cfg : config) (_n : nat) (g : rng) : Py.result (list row * rng) :=
  rows_loop (seq 0 (TARGET_ROWS cfg)) [] g.

(** 2. write batch_input.jsonl *)
Definition batch_input (df : list row) : list request_line :=
  map (fun r => {| req_id := row_id r; req_prompt := prompt_of r |}) df.

(** 4. poll until completed *)
Definition poll (cfg : config) (answers : list Poller.job) : list event * poll_end :=
  Poller.poll_loop
    (fun batch_job =>
       Py.RuntimeError ("Batch " +:+ Poller.status batch_job +:+ ": " +:+ Poller.shown batch_job))
    (BATCH_POLL_SEC cfg) answers.

(** 5. download output + merge *)
Definition transcription_of (raw_json : string) : Py.result Py.json :=
  v <~ json_loads raw_json;;
  match v with
  | Py.JDict d => PyDict.getitem d "transcription"
  | _ => Py.Raise Py.TypeError
  end.

Fixpoint load_tx_map (lines : list response_line) (tx_map : PyDict.dict Py.json)
    : Py.result (PyDict.dict Py.json) :=
  match lines with
  | [] => Py.Ok tx_map
  | obj :: lines' =>
      if (status_code obj =? 200)%Z then
        tx <~ transcription_of (content obj);;
        load_tx_map lines' (PyDict.set tx_map (custom_id obj) tx)
      else load_tx_map lines' tx_map
  end.

(** [if len(tx_map) != TARGET_ROWS: raise RuntimeError(...)] *)
Definition check_rows (cfg : config) (tx_map : PyDict.dict Py.json) : Py.result unit :=
  if length tx_map =? TARGET_ROWS cfg then Py.Ok tt
  else
    let missing := (Z.of_nat (TARGET_ROWS cfg) - Z.of_nat (length tx_map))%Z in
    Py.Raise (Py.RuntimeError (Py.str_of_int missing +:+ " rows missing in batch output")).

(** [df[transcription] = df[row_id].map(tx_map)]: a row whose id is not a
    key gets no value (NaN). *)
Definition with_transcriptions (df : list row) (tx_map : PyDict.dict Py.json)
    : list (row * option Py.json) :=
  map (fun r => (r, PyDict.get tx_map (row_id r))) df.

Definition merge_output (cfg : config) (df : list row) (lines : list response_line)
    : Py.result (list (row * option Py.json)) :=
  tx_map <~ load_tx_map lines PyDict.empty;;
  _ <~ check_rows cfg tx_map;;
  Py.Ok (with_transcriptions df tx_map).

End Script.

(** The key as the script shows it at start-up:
    [openai_key[:6] + ELLIPSIS + openai_key[-4:]]. *)
Definition masked (openai_key : string) : string :=
  Py.slice_to 6 openai_key +:+ Py.ellipsis +:+ Py.slice_last 4 openai_key.

(** _PROMPT_TX_TEMPLATE, after its own [format(min_w=..., max_w=...)]: the
    text before the facts, the four lines of facts as [format] fills them
    for a row, and the text after. The bullets, the dash and the curly
    quotes of the text before the facts stand as their UTF-8 bytes; no
    pattern of the scripts matches inside them, so the texts the patterns
    capture are those of the real prompt (positions count bytes there). *)
Definition PROMPT_HEAD (cfg : config) : string :=
  Py.join_lines
    ["You are transcribing a 1-mic recording of a family-practice visit.";
     "";
     "Guidelines:";
     Py.bullet +:+ " Continuous dialogue, no speaker labels.";
     Py.bullet +:+ " Natural English; occasional fillers (" +:+ Py.left_quote +:+ "uh-huh"
       +:+ Py.right_quote +:+ ", " +:+ Py.left_quote +:+ "okay" +:+ Py.right_quote +:+ ").";
     Py.bullet +:+ " " +:+ Py.str_of_nat (TX_MIN_WORDS cfg) +:+ " " +:+ Py.en_dash +:+ " "
       +:+ Py.str_of_nat (TX_MAX_WORDS cfg) +:+ " words total.";
     Py.bullet +:+ " Include history-taking, brief exam cues, initial plan.";
     Py.bullet +:+ " No PHI, no brand drug names, no mention of this being synthetic.";
     "";
     "Facts you MUST weave in naturally:";
     ""].

Definition facts_lines (r : row) : string :=
  Py.join_lines
    ["- gender: " +:+ gender r;
     "- age: " +:+ Py.str_of_int (age r);
     "- chief complaint: " +:+ String Py.dquote (chief_complaint r +:+ String Py.dquote EmptyString);
     "- smoker: " +:+ smoker r +:+ ", drinker: " +:+ drinker r +:+ ", BP: " +:+ blood_pressure r].

Definition PROMPT_TAIL : string :=
  Py.join_lines
    ["";
     "";
     "Important: You will be creative, producing a unique narrative based on the facts presented, ";
     "you will work hard on your best to create a natural encounter that no one never heard about before.";
     "";
     "Return ONLY a JSON object on ONE line:";
     "{" +:+ String Py.dquote ("transcription" +:+ String Py.dquote (": "
       +:+ String Py.dquote ("full text here" +:+ String Py.dquote "}")));
     "!Return rule important: You will not use facing and closing like ``` JSON or anything similar, ";
     "in your response, only a valid plain JSON."].

(** [_PROMPT_TX_TEMPLATE.format(gender=..., age=..., cc=..., ...)] *)
Definition prompt_tx (cfg : config) (r : row) : string :=
  PROMPT_HEAD cfg +:+ facts_lines r +:+ PROMPT_TAIL.

End GenerateTranscriptionsBatch.

(** ** generate_transcriptions.py *)

Module GenerateTranscriptions.

Record config := {
  TARGET_ROWS : nat;
  BATCH_SIZE : nat;
  CHECKPOINT_ROWS : nat
}.

Definition CONFIG : config := {|
  TARGET_ROWS := 1032;
  BATCH_SIZE := 10;
  CHECKPOINT_ROWS := 100
|}.

(** A record as [generate_one] returns it: the seven FIELDS. *)
Record rec := {
  gender : string;
  age : Z;
  smoker : string;
  drinker : string;
  blood_pressure : string;
  chief_complaint : string;
  transcription : string
}.

(** [tuple(rec[f] for f in UNIQUE_KEY)] *)
Definition key : Type := string * Z * string * string * string * string * string.

Definition unique_key (r : rec) : key :=
  (gender r, age r, smoker r, drinker r, blood_pressure r,
   chief_complaint r, transcription r).

(** The variables of [main]. *)
Record state := {
  rows : list rec;
  seen : gset key;
  chunk_idx : nat;
  checkpoints : list (nat * list rec)   (* the patients_NNN.jsonl files written *)
}.

Definition start : state :=
  {| rows := []; seen := ∅; chunk_idx := 0; checkpoints := [] |}.

(** The body of [for rec in await asyncio.gather(...)]. *)
Definition absorb (st : state) (r : rec) : state :=
  let key := unique_key r in
  if decide (key ∈ seen st) then st
  else {| rows := rows st ++ [r];
          seen := seen st ∪ {[ key ]};
          chunk_idx := chunk_idx st;
          checkpoints := checkpoints st |}.

(** [rows[-n:]] *)
Definition last_rows (n : nat) (l : list rec) : list rec :=
  if n =? 0 then l else drop (length l - n) l.

(** checkpoint logic, for a positive CHECKPOINT_ROWS (100 in CONFIG) *)
Definition checkpoint (cfg : config) (st : state) : state :=
  if chunk_idx st <? length (rows st) / CHECKPOINT_ROWS cfg then
    {| rows := rows st;
       seen := seen st;
       chunk_idx := S (chunk_idx st);
       checkpoints := checkpoints st
                      ++ [(S (chunk_idx st), last_rows (CHECKPOINT_ROWS cfg) (rows st))] |}
  else st.

(** The number of jobs the next round starts. *)
Definition batch_size (cfg : config) (st : state) : nat :=
  BATCH_SIZE cfg `min` (TARGET_ROWS cfg - length (rows st)).

(** One round of the [while] loop on the records [gathered] that the
    round's jobs returned. *)
Definition round (cfg : config) (st : state) (gathered : list rec) : state :=
  checkpoint cfg (fold_left absorb gathered st).

(** How [main] stands when the scripted rounds are used up. *)
Inductive progress :=
| Written (master : list rec) (st : state)   (* synthetic_patients.jsonl *)
| Generating (st : state).                   (* still in the loop *)

(** The main loop. [rounds] holds what [asyncio.gather] returned, round
    after round, each in the order of its jobs (a round whose job fails for
    good, after the retries, ends the script with that exception). *)
Fixpoint main_loop (cfg : config) (rounds : list (list rec)) (st : state) : progress :=
  if length (rows st) <? TARGET_ROWS cfg then
    match rounds with
    | [] => Generating st
    | gathered :: rounds' => main_loop cfg rounds' (round cfg st gathered)
    end
  else Written (rows st) st.

Definition main (cfg : config) (rounds : list (list rec)) : progress :=
  main_loop cfg rounds start.

(** The state a progress report carries. *)
Definition state_of (p : progress) : state :=
  match p with
  | Written _ st => st
  | Generating st => st
  end.

End GenerateTranscriptions.

(* ===================================================================== *)
(** * Part II. Predicates and sample inputs of the properties             *)
(* ===================================================================== *)

(** ** Predicates *)

(** The ids of the work items that have no payload: the specification's
    missingIds. No script computes it for the SOAP merge. *)
Definition missingIds {A B} (workItems : PyDict.dict A) (payloads : PyDict.dict B)
    : gset string :=
  PyDict.keyset workItems ∖ PyDict.keyset payloads.

Definition is_object (v : Py.json) : bool :=
  match v with
  | Py.JDict _ => true
  | _ => false
  end.

(** Every payload is a JSON object, as the SOAP prompt asks. *)
Definition objects (soap_map : PyDict.dict Py.json) : Prop :=
  Forall (fun kv => is_object kv.2 = true) soap_map.

(** A status on which the polling loop sleeps and asks again. *)
Definition in_progress (status : string) : Prop :=
  status <> "failed" /\ status <> "expired" /\ status <> "completed".

(** A response line the transcription loader gets past: a failed request,
    or a text the pattern matches. *)
Definition loadable (j : Batch.response_line) : bool :=
  negb (Batch.status_code j =? 200)%Z
  || bool_decide (is_Some (Re.re_match GenerateSoapNotes.grab_tx (Batch.content j))).

Definition succeeded (j : Batch.response_line) : bool :=
  (Batch.status_code j =? 200)%Z.

(** A response line the final merge of generate_soap_notes.py can serve:
    if the request succeeded, its id has facts and a transcription and its
    text decodes to a JSON object. *)
Definition answered (json_loads : string -> Py.result Py.json)
    (facts_map : PyDict.dict (PyDict.dict string))
    (tx_map : PyDict.dict string) (j : Batch.response_line) : Prop :=
  Batch.status_code j = 200%Z ->
  exists facts tx soap,
    PyDict.get facts_map (Batch.custom_id j) = Some facts
    /\ PyDict.get tx_map (Batch.custom_id j) = Some tx
    /\ json_loads (Batch.content j) = Py.Ok (Py.JDict soap).

(** The ids of the notes and the labels of their sections hold no
    underscore. *)
Definition plain_sections (sections : PyDict.dict Py.json) : Prop :=
  Forall (fun cs =>
            Py.has_char "_" cs.1 = false
            /\ forall d, cs.2 = Py.JDict d ->
                 Forall (fun lt => Py.has_char "_" lt.1 = false) d) sections.

(** The message of the exit on missing transcriptions. *)
Definition missing_message (n : nat) : string :=
  Py.cross_mark +:+ " " +:+ Py.str_of_nat n +:+ " transcriptions missing, cannot proceed".

(** Reading a zero-padded decimal back: the padding changes nothing. *)
Definition read_decimal (s : string) : option nat :=
  Nat.of_uint <$> NilEmpty.uint_of_string s.

(** The id of the row of index [i]. *)
Definition row_id_of (i : nat) : string := "row" +:+ Py.format_0d 4 i.

(** The invariant of the loop of generate_transcriptions.py: no two rows
    with the same seven-field key, and [seen] holds exactly the keys of the
    rows. *)
Definition unique_rows (st : GenerateTranscriptions.state) : Prop :=
  NoDup (map GenerateTranscriptions.unique_key (GenerateTranscriptions.rows st))
  /\ GenerateTranscriptions.seen st
     = list_to_set (map GenerateTranscriptions.unique_key (GenerateTranscriptions.rows st)).

(** Every round of generate_transcriptions.py gathers exactly [batch_size]
    records. *)
Fixpoint well_sized (cfg : GenerateTranscriptions.config)
    (st : GenerateTranscriptions.state) (rounds : list (list GenerateTranscriptions.rec))
    : Prop :=
  match rounds with
  | [] => True
  | gathered :: rounds' =>
      length gathered = GenerateTranscriptions.batch_size cfg st
      /\ well_sized cfg (GenerateTranscriptions.round cfg st gathered) rounds'
  end.

(** ** Sample inputs *)

(** The two contents of the specification's examples: an array inside a
    json fence, and an object inside prose. *)
Definition fenced_array : string :=
  "```json" +:+ String Py.newline ("[1,2,3]" +:+ String Py.newline "```").

Definition object_text : string :=
  "{" +:+ String Py.dquote ("a" +:+ String Py.dquote ":1}").

Definition prose_object : string :=
  "Sure! " +:+ object_text +:+ " Hope that helps!".

(** The facts of one patient, as request record and as captured texts, and
    a SOAP payload that also holds the key gender. *)
Definition sample_base : PyDict.dict Py.json :=
  [("row_id", Py.JStr "row0007"); ("gender", Py.JStr "Male"); ("age", Py.JInt 41);
   ("smoker", Py.JStr "No"); ("drinker", Py.JStr "Yes");
   ("blood_pressure", Py.JStr "120/80"); ("chief_complaint", Py.JStr "cough")].

Definition sample_facts : PyDict.dict string :=
  [("gender", "Male"); ("age", "41"); ("smoker", "No");
   ("drinker", "Yes"); ("bp", "120/80"); ("cc", "cough")].

Definition sample_soap : PyDict.dict Py.json :=
  [("subjective", Py.JStr "Reports a dry cough."); ("gender", Py.JStr "Female")].

(** A request of batch_input.jsonl with those facts in its prompt. *)
Definition sample_prompt : string :=
  "Facts you MUST weave in naturally:" +:+ String Py.newline
  ("- gender: Male" +:+ String Py.newline
  ("- age: 41" +:+ String Py.newline
  ("- chief complaint: " +:+ String Py.dquote ("cough" +:+ String Py.dquote (String Py.newline
  "- smoker: No, drinker: Yes, BP: 120/80"))))).

Definition request_of (cid : string) : Batch.request_line :=
  {| Batch.req_id := cid; Batch.req_prompt := sample_prompt |}.

(** Answers of the transcription batch: the object alone, and the object
    after a word of prose. *)
Definition transcription_json (tx : string) : string :=
  "{" +:+ String Py.dquote ("transcription" +:+ String Py.dquote (": "
  +:+ String Py.dquote (tx +:+ String Py.dquote "}"))).

Definition good_line (cid : string) : Batch.response_line :=
  {| Batch.custom_id := cid; Batch.status_code := 200;
     Batch.content := transcription_json "Good morning." |}.

Definition noisy_line (cid : string) : Batch.response_line :=
  {| Batch.custom_id := cid; Batch.status_code := 200;
     Batch.content := "Sure! " +:+ transcription_json "Good morning." |}.

(** A stand-in for the SOAP prompt template. *)
Definition show_tx (tx : string) (facts : PyDict.dict string) : string := tx.

(** The request records of the given ids, and SOAP payloads for the given
    ids. *)
Definition facts_of_ids (ids : list string) : PyDict.dict (PyDict.dict Py.json) :=
  map (fun cid => (cid, PyDict.set sample_base "row_id" (Py.JStr cid))) ids.

Definition soap_of_ids (ids : list string) : PyDict.dict Py.json :=
  map (fun cid => (cid, Py.JDict [("subjective", Py.JStr ("Note of " +:+ cid))])) ids.

(** An answer of the SOAP batch and a decoder that knows it. *)
Definition soap_answer : string :=
  "{" +:+ String Py.dquote ("plan" +:+ String Py.dquote (": "
  +:+ String Py.dquote ("Rest." +:+ String Py.dquote "}"))).

Definition loads_soap_answer (s : string) : Py.result Py.json :=
  if String.eqb s soap_answer then Py.Ok (Py.JDict [("plan", Py.JStr "Rest.")])
  else Py.Raise Py.JSONDecodeError.

Definition soap_line (cid : string) (status : Z) : Batch.response_line :=
  {| Batch.custom_id := cid; Batch.status_code := status; Batch.content := soap_answer |}.

(** One loaded note, and a stand-in for the paraphrase prompt. *)
Definition sample_sections : PyDict.dict Py.json :=
  [("row0007", Py.JDict [("subjective", Py.JStr "Dry cough."); ("plan", Py.JStr "Rest.")])].

Definition plain_prompt (label : string) (text : Py.json) (extra : string) : string :=
  label +:+ ": " +:+ extra.

(** Batch objects in the four states the examples need. *)
Definition job_validating : Poller.job :=
  {| Poller.status := "validating"; Poller.shown := "Batch(id=b1, status=validating)" |}.

Definition job_in_progress : Poller.job :=
  {| Poller.status := "in_progress"; Poller.shown := "Batch(id=b1, status=in_progress)" |}.

Definition job_completed : Poller.job :=
  {| Poller.status := "completed"; Poller.shown := "Batch(id=b1, status=completed)" |}.

Definition job_failed : Poller.job :=
  {| Poller.status := "failed"; Poller.shown := "Batch(id=b1, status=failed)" |}.

(** A facility that takes every file. *)
Definition accepting : Batch.facility :=
  {| Batch.files_create := fun _ => Py.Ok "file-1";
     Batch.batches_create := fun _ => Py.Ok "batch-1" |}.

(** A generator of random draws that counts, and a configuration of three
    rows. *)
Definition counting (g : nat) : nat * nat := (g, S g).

Definition small_config : GenerateTranscriptionsBatch.config :=
  {| GenerateTranscriptionsBatch.TARGET_ROWS := 3;
     GenerateTranscriptionsBatch.TX_MIN_WORDS := 600;
     GenerateTranscriptionsBatch.TX_MAX_WORDS := 1200;
     GenerateTranscriptionsBatch.BATCH_POLL_SEC := 30;
     GenerateTranscriptionsBatch.COMPLETION_WIN := "24h";
     GenerateTranscriptionsBatch.OUT_DIR := "batch_files" |}.

(** Generated records that differ in the transcription only, a
    configuration of three rows in rounds of two, and three rounds: two with
    a repeated record, then one that fills the gap. *)
Definition rec_of (tx : string) : GenerateTranscriptions.rec :=
  {| GenerateTranscriptions.gender := "Male"; GenerateTranscriptions.age := 41;
     GenerateTranscriptions.smoker := "No"; GenerateTranscriptions.drinker := "Yes";
     GenerateTranscriptions.blood_pressure := "120/80";
     GenerateTranscriptions.chief_complaint := "cough";
     GenerateTranscriptions.transcription := tx |}.

Definition tiny_config : GenerateTranscriptions.config :=
  {| GenerateTranscriptions.TARGET_ROWS := 3;
     GenerateTranscriptions.BATCH_SIZE := 2;
     GenerateTranscriptions.CHECKPOINT_ROWS := 2 |}.

Definition tiny_rounds : list (list GenerateTranscriptions.rec) :=
  [[rec_of "a"; rec_of "a"]; [rec_of "b"; rec_of "a"]; [rec_of "c"]].

(** The values [build_rows] can give a row, for the complaints [cc]. *)
Definition row_in_range (cc : list string) (r : GenerateTranscriptionsBatch.row) : Prop :=
  GenerateTranscriptionsBatch.gender r ∈ ["Male"; "Female"; "Non-binary"]
  /\ (18 <= GenerateTranscriptionsBatch.age r <= 90)%Z
  /\ GenerateTranscriptionsBatch.smoker r ∈ ["Yes"; "No"]
  /\ GenerateTranscriptionsBatch.drinker r ∈ ["Yes"; "No"]
  /\ GenerateTranscriptionsBatch.chief_complaint r ∈ cc
  /\ exists systolic diastolic : Z,
       (100 <= systolic <= 180)%Z /\ (60 <= diastolic <= 110)%Z
       /\ GenerateTranscriptionsBatch.blood_pressure r
          = Py.str_of_int systolic +:+ "/" +:+ Py.str_of_int diastolic.

(** A decoder that knows the answer of [good_line], and a demographic row
    of a given id. *)
Definition loads_transcription (s : string) : Py.result Py.json :=
  if String.eqb s (transcription_json "Good morning.")
  then Py.Ok (Py.JDict [("transcription", Py.JStr "Good morning.")])
  else Py.Raise Py.JSONDecodeError.

Definition row_of (cid : string) : GenerateTranscriptionsBatch.row :=
  {| GenerateTranscriptionsBatch.row_id := cid;
     GenerateTranscriptionsBatch.gender := "Male";
     GenerateTranscriptionsBatch.age := 41;
     GenerateTranscriptionsBatch.smoker := "No";
     GenerateTranscriptionsBatch.drinker := "Yes";
     GenerateTranscriptionsBatch.blood_pressure := "120/80";
     GenerateTranscriptionsBatch.chief_complaint := "cough" |}.

(** ** Searching a prompt *)

(** [clash L s]: the literal [L], letters in either case, fails against
    the text [s] at a character of [s]; false when [s] ends first. *)
Fixpoint clash (L s : string) : bool :=
  match L, s with
  | String x L', String c s' => if Py.eqb_nocase x c then clash L' s' else true
  | _, _ => false
  end.

(** [free L a]: at every position of [a] the literal [L] fails before [a]
    ends, whatever follows [a]. *)
Fixpoint free (L a : string) : bool :=
  match a with
  | EmptyString => true
  | String _ a' => clash L a && free L a'
  end.

(** [mentions L s]: [L] stands somewhere in [s], letters in either case. *)
Fixpoint mentions (L s : string) : bool :=
  match Re.after_nocase L s with
  | Some _ => true
  | None =>
      match s with
      | String _ s' => mentions L s'
      | EmptyString => false
      end
  end.

(** Every character of [s] is of the class [p]; the first character of [s],
    if any, is not. *)
Fixpoint string_forall (p : ascii -> bool) (s : string) : bool :=
  match s with
  | EmptyString => true
  | String c s' => p c && string_forall p s'
  end.

Definition stops (p : ascii -> bool) (s : string) : bool :=
  match s with
  | EmptyString => true
  | String c _ => negb (p c)
  end.

(** The longest prefix of word characters. *)
Fixpoint word_prefix (s : string) : string :=
  match s with
  | String c s' => if Py.is_word c then String c (word_prefix s') else EmptyString
  | EmptyString => EmptyString
  end.

(** A complaint the prompt can carry: not empty, no double quote, and none
    of the labels that follow it on the facts lines. *)
Definition plain_complaint (cc : string) : Prop :=
  cc <> EmptyString
  /\ Py.has_char Py.dquote cc = false
  /\ mentions "smoker:" cc = false
  /\ mentions "drinker:" cc = false
  /\ mentions "BP:" cc = false.

(** Patterns without [^], and a match moved [k] characters to the right. *)
Definition caret_free (pat : Re.pattern) : bool :=
  forallb (fun a => match a with Re.Caret => false | _ => true end) pat.

Definition shift_span (k : nat) (oe : nat * nat) : nat * nat := (k + oe.1, k + oe.2).

Definition shift_caps (k : nat) (g : Re.caps) : Re.caps :=
  {| Re.g_open := Nat.add k <$> Re.g_open g;
     Re.g_span := shift_span k <$> Re.g_span g |}.

Definition shift_match (k : nat) (m : Re.match_obj) : Re.match_obj :=
  {| Re.m_start := k + Re.m_start m;
     Re.m_end := k + Re.m_end m;
     Re.m_group1 := shift_span k <$> Re.m_group1 m |}.

(** The 256 characters. *)
Definition all_ascii : list ascii := map ascii_of_nat (seq 0 256).

(** ** The facts lines of a transcript prompt *)

(** The line break, and the four lines of facts followed by [t], piece by
    piece. *)
Definition nl : string := String Py.newline EmptyString.

Definition facts_text (G N cc S D bp t : string) : string :=
  "- gender: " +:+ G +:+ nl +:+ "- age: " +:+ N +:+ nl
  +:+ "- chief complaint: " +:+ String Py.dquote (cc +:+ String Py.dquote (nl
  +:+ "- smoker: " +:+ S +:+ ", drinker: " +:+ D +:+ ", BP: " +:+ bp +:+ t)).

(** The labels the six patterns open with. *)
Definition labels : list string :=
  ["gender:"; "age:"; "smoker:"; "drinker:"; "BP:"; "chief complaint:"].

(** What the patterns read back from the prompt of a row: the fields as
    texts, the gender cut at its first character that is no word
    character. *)
Definition facts_of_row (r : GenerateTranscriptionsBatch.row) : PyDict.dict string :=
  [("gender", word_prefix (GenerateTranscriptionsBatch.gender r));
   ("age", Py.str_of_int (GenerateTranscriptionsBatch.age r));
   ("smoker", GenerateTranscriptionsBatch.smoker r);
   ("drinker", GenerateTranscriptionsBatch.drinker r);
   ("bp", GenerateTranscriptionsBatch.blood_pressure r);
   ("cc", GenerateTranscriptionsBatch.chief_complaint r)].

(** The entry of [req_facts] for a row. *)
Definition record_of_row (r : GenerateTranscriptionsBatch.row) : PyDict.dict Py.json :=
  [("row_id", Py.JStr (GenerateTranscriptionsBatch.row_id r));
   ("gender", Py.JStr (word_prefix (GenerateTranscriptionsBatch.gender r)));
   ("age", Py.JInt (GenerateTranscriptionsBatch.age r));
   ("smoker", Py.JStr (GenerateTranscriptionsBatch.smoker r));
   ("drinker", Py.JStr (GenerateTranscriptionsBatch.drinker r));
   ("blood_pressure", Py.JStr (GenerateTranscriptionsBatch.blood_pressure r));
   ("chief_complaint", Py.JStr (GenerateTranscriptionsBatch.chief_complaint r))].

(** A row [build_rows] can return whose complaint the prompt can carry. *)
Definition readable (cc : list string) (r : GenerateTranscriptionsBatch.row) : Prop :=
  row_in_range cc r /\ plain_complaint (GenerateTranscriptionsBatch.chief_complaint r).

(** ** Answers of the transcription batch *)

(** What follows the group of [grab_tx], the opening of an answer, and an
    answer: the object with blanks [ws1], [ws2] around the colon, the text
    [tx] between the quotes, and [c] after the closing brace. *)
Definition tx_close : Re.pattern :=
  [Re.GroupClose; Re.Chr (Ascii.eqb Py.dquote); Re.Chr (Ascii.eqb "}")].

Definition tx_open : string :=
  "{" +:+ String Py.dquote ("transcription" +:+ String Py.dquote EmptyString).

Definition tx_answer (ws1 ws2 tx c : string) : string :=
  tx_open +:+ ws1 +:+ ":" +:+ ws2 +:+ String Py.dquote (tx +:+ String Py.dquote (String "}" c)).

(** A text as a model writes it inside a JSON string: escaped quotes, an
    escaped line break, and a quote before a brace. *)
Definition escaped_text : string :=
  "She said \" +:+ String Py.dquote ("ah\" +:+ String Py.dquote (" {"
  +:+ String Py.dquote ("x" +:+ String Py.dquote "}, twice\n"))).

(** ** The requests of the augmentation stage *)

(** The sections of the loaded notes as (note id, label), in the order of
    the requests, and the (note id, label, slug) of the requests they
    give. *)
Definition all_sections (sections : PyDict.dict Py.json) : list (string * string) :=
  flat_map (fun cs => match cs.2 with
                      | Py.JDict d => map (fun lt => (cs.1, lt.1)) d
                      | _ => []
                      end) sections.

Definition triples_of (pairs : list (string * string)) : list (string * string * string) :=
  flat_map (fun cl => map (fun slug => (cl.1, cl.2, slug))
                        GenerateSoapSections.FORMAT_VARIANTS.*1) pairs.

(** No note holds a label twice. *)
Definition distinct_labels (sections : PyDict.dict Py.json) : Prop :=
  Forall (fun cs => forall d, cs.2 = Py.JDict d -> NoDup d.*1) sections.

(** ** The checkpoint files of generate_transcriptions.py *)

(** The files are numbered 1, 2, ... up to [chunk_idx]; there are at least
    [chunk_idx] times CHECKPOINT_ROWS rows; every file holds exactly
    CHECKPOINT_ROWS rows, which stand side by side in [rows]. *)
Definition checkpoints_ok (cfg : GenerateTranscriptions.config)
    (st : GenerateTranscriptions.state) : Prop :=
  map fst (GenerateTranscriptions.checkpoints st)
  = seq 1 (GenerateTranscriptions.chunk_idx st)
  /\ GenerateTranscriptions.chunk_idx st * GenerateTranscriptions.CHECKPOINT_ROWS cfg
     <= length (GenerateTranscriptions.rows st)
  /\ Forall (fun f => length f.2 = GenerateTranscriptions.CHECKPOINT_ROWS cfg
                      /\ exists pre post,
                           GenerateTranscriptions.rows st = pre ++ f.2 ++ post)
       (GenerateTranscriptions.checkpoints st).

(* ===================================================================== *)
(** * Part III. Properties                                                *)
(* ===================================================================== *)

Local Set Warnings "-clear-no-such-hyp".

(** ** Dictionaries *)

Section DictFacts.

Context {V : Type}.
Implicit Types (d e : PyDict.dict V) (k : string) (v : V).

Lemma dict_get_set d k v k' :
  PyDict.get (PyDict.set d k v) k' =
  if String.eqb k k' then Some v else PyDict.get d k'.
Proof.
  induction d as [|[k0 v0] d IH]; simpl.
  - reflexivity.
  - destruct (String.eqb_spec k0 k) as [->|Hne]; simpl.
    + destruct (String.eqb_spec k k'); reflexivity.
    + rewrite IH. destruct (String.eqb_spec k0 k') as [->|]; [|reflexivity].
      destruct (String.eqb_spec k k'); congruence.
Qed.

Lemma dict_get_None d k : PyDict.get d k = None <-> k ∉ PyDict.keys d.
Proof.
  induction d as [|[k0 v0] d IH]; simpl.
  - split; [intros _; apply not_elem_of_nil | reflexivity].
  - rewrite not_elem_of_cons. destruct (String.eqb_spec k0 k) as [->|Hne].
    + split; [discriminate | intros [? _]; congruence].
    + rewrite IH. split; [intros ?; split; congruence | intros [_ ?]; assumption].
Qed.

Lemma dict_get_Some_key d k v : PyDict.get d k = Some v -> k ∈ PyDict.keys d.
Proof.
  intros H. destruct (decide (k ∈ PyDict.keys d)) as [|Hn]; [assumption|].
  apply dict_get_None in Hn. congruence.
Qed.

Lemma dict_contains_keys d k : PyDict.contains d k = true <-> k ∈ PyDict.keys d.
Proof.
  unfold PyDict.contains. destruct (PyDict.get d k) eqn:E.
  - split; [intros _; eapply dict_get_Some_key, E | reflexivity].
  - apply dict_get_None in E. split; [discriminate | contradiction].
Qed.

(** Assignment keeps the keys of a dictionary in place and adds a new one
    at the end. *)
Lemma dict_keys_set d k v :
  PyDict.keys (PyDict.set d k v) =
  if PyDict.contains d k then PyDict.keys d else PyDict.keys d ++ [k].
Proof.
  unfold PyDict.contains, PyDict.keys.
  induction d as [|[k0 v0] d IH]; simpl; [reflexivity|].
  destruct (String.eqb_spec k0 k) as [->|Hne]; simpl; [reflexivity|].
  rewrite IH. destruct (PyDict.get d k); reflexivity.
Qed.

Lemma dict_wf_set d k v : PyDict.wf d -> PyDict.wf (PyDict.set d k v).
Proof.
  unfold PyDict.wf. intros Hd. rewrite dict_keys_set.
  destruct (PyDict.contains d k) eqn:E; [assumption|].
  apply NoDup_app. split; [assumption|]. split.
  - intros x Hx Hx'. apply list_elem_of_singleton in Hx'. subst x.
    apply dict_contains_keys in Hx. congruence.
  - apply NoDup_singleton.
Qed.

(** [{**d, **e}]: the value of [e] where [e] has the key, that of [d]
    elsewhere. *)
Lemma dict_get_update d e k :
  PyDict.wf e ->
  PyDict.get (PyDict.update d e) k =
  match PyDict.get e k with
  | Some v => Some v
  | None => PyDict.get d k
  end.
Proof.
  unfold PyDict.update, PyDict.wf. revert d.
  induction e as [|[k0 v0] e IH]; intros d Hwf; simpl; [reflexivity|].
  simpl in Hwf. apply NoDup_cons in Hwf as [Hk0 Hwf].
  rewrite IH by assumption. rewrite dict_get_set.
  destruct (String.eqb_spec k0 k) as [->|Hne]; [|reflexivity].
  apply dict_get_None in Hk0. rewrite Hk0. reflexivity.
Qed.

Lemma dict_wf_update d e : PyDict.wf d -> PyDict.wf (PyDict.update d e).
Proof.
  unfold PyDict.update. revert d.
  induction e as [|[k0 v0] e IH]; intros d Hd; simpl; [assumption|].
  apply IH, dict_wf_set, Hd.
Qed.

Lemma dict_wf_empty : PyDict.wf (@PyDict.empty V).
Proof. apply NoDup_nil_2. Qed.

Lemma dict_elem_get d k v : PyDict.wf d -> (k, v) ∈ d -> PyDict.get d k = Some v.
Proof.
  unfold PyDict.wf. induction d as [|[k0 v0] d IH]; simpl; intros Hwf Hin.
  - apply elem_of_nil in Hin. contradiction.
  - simpl in Hwf. apply NoDup_cons in Hwf as [Hk0 Hwf].
    apply elem_of_cons in Hin as [Heq|Hin].
    + injection Heq as <- <-. rewrite String.eqb_refl. reflexivity.
    + destruct (String.eqb_spec k0 k) as [->|Hne]; [|auto].
      exfalso. apply Hk0. apply list_elem_of_fmap. exists (k, v). auto.
Qed.

End DictFacts.

(** ** Merged records: which side wins a key *)

Lemma dict_get_map_values {A B} (f : A -> B) (d : PyDict.dict A) k :
  PyDict.get (map (fun kv => (kv.1, f kv.2)) d) k = f <$> PyDict.get d k.
Proof.
  induction d as [|[k0 v0] d IH]; simpl; [reflexivity|].
  destruct (String.eqb k0 k); [reflexivity | exact IH].
Qed.

Lemma fact_key_not_reserved k :
  k ∈ Facts.fact_keys ->
  String.eqb "row_id" k = false /\ String.eqb "transcription" k = false.
Proof.
  unfold Facts.fact_keys. intros H.
  repeat (apply elem_of_cons in H as [->|H]; [split; reflexivity|]).
  apply elem_of_nil in H. contradiction.
Qed.

(** C9. In the merged record the payload's value stands under every key
    the payload has, a fact key such as gender or age included; the value
    that came from the request stands only under keys the payload lacks.
    This holds for the record of merge_soap_clean.py and, on the fact keys,
    for the record of generate_soap_notes.py. *)
Theorem payload_wins_on_collision (soap : PyDict.dict Py.json) :
  PyDict.wf soap ->
  (forall base k,
     PyDict.get (MergeSoapClean.merge_record base soap) k =
     match PyDict.get soap k with
     | Some v => Some v
     | None => PyDict.get base k
     end)
  /\
  (forall cid facts tx k,
     k ∈ Facts.fact_keys ->
     PyDict.get (GenerateSoapNotes.master_record cid facts tx soap) k =
     match PyDict.get soap k with
     | Some v => Some v
     | None => Py.JStr <$> PyDict.get facts k
     end).
Proof.
  intros Hwf. split.
  - intros base k. unfold MergeSoapClean.merge_record.
    apply dict_get_update, Hwf.
  - intros cid facts tx k Hk.
    destruct (fact_key_not_reserved k Hk) as [Hrow Htx].
    unfold GenerateSoapNotes.master_record.
    rewrite dict_get_set, Hrow, dict_get_update by exact Hwf.
    destruct (PyDict.get soap k); [reflexivity|].
    rewrite dict_get_set, Htx. apply dict_get_map_values.
Qed.

(** In generate_soap_notes.py the key row_id is written last: it always
    holds the correlation id. *)
Lemma master_record_row_id cid facts tx soap :
  PyDict.get (GenerateSoapNotes.master_record cid facts tx soap) "row_id"
  = Some (Py.JStr cid).
Proof.
  unfold GenerateSoapNotes.master_record. rewrite dict_get_set. reflexivity.
Qed.

Lemma sample_soap_wf : PyDict.wf sample_soap.
Proof.
  unfold PyDict.wf, sample_soap. simpl.
  apply NoDup_cons. split; [|apply NoDup_singleton].
  intros H. apply list_elem_of_singleton in H. discriminate H.
Defined.

Lemma payload_wins_on_collision_witness :
  PyDict.wf sample_soap
  /\ PyDict.get (MergeSoapClean.merge_record sample_base sample_soap) "gender"
     = Some (Py.JStr "Female")
  /\ PyDict.get (MergeSoapClean.merge_record sample_base sample_soap) "age"
     = Some (Py.JInt 41)
  /\ PyDict.get (GenerateSoapNotes.master_record "row0007" sample_facts "Hello." sample_soap)
       "gender" = Some (Py.JStr "Female")
  /\ PyDict.get (GenerateSoapNotes.master_record "row0007" sample_facts "Hello." sample_soap)
       "age" = Some (Py.JStr "41").
Proof.
  split; [exact sample_soap_wf|].
  destruct (payload_wins_on_collision sample_soap sample_soap_wf) as [Hclean Hnotes].
  split; [|split; [|split]].
  - rewrite Hclean. reflexivity.
  - rewrite Hclean. reflexivity.
  - rewrite Hnotes; [reflexivity | unfold Facts.fact_keys; repeat constructor].
  - rewrite Hnotes; [reflexivity | unfold Facts.fact_keys; repeat constructor].
Defined.

(** ** Composite correlation ids *)

Lemma cut_append sep a b :
  Py.has_char sep a = false ->
  Py.cut sep (a +:+ String sep b) = Some (a, b).
Proof.
  induction a as [|c a IH]; simpl; intros H.
  - rewrite Ascii.eqb_refl. reflexivity.
  - apply orb_false_iff in H as [Hc Ha].
    rewrite Hc, (IH Ha). reflexivity.
Qed.

Lemma split_append sep n a b :
  Py.has_char sep a = false ->
  Py.split sep (S n) (a +:+ String sep b) = a :: Py.split sep n b.
Proof.
  intros H. cbn [Py.split]. rewrite (cut_append sep a b H). reflexivity.
Qed.

(** Splitting at most twice takes the id apart at its first two
    underscores: the slug may hold underscores of its own. *)
Lemma split_composite_id cid label slug :
  Py.has_char "_" cid = false ->
  Py.has_char "_" label = false ->
  Py.split "_" 2 (GenerateSoapSections.composite_id cid label slug)
  = [cid; label; slug].
Proof.
  intros Hcid Hlabel. unfold GenerateSoapSections.composite_id.
  change (cid +:+ "_" +:+ label +:+ "_" +:+ slug)
    with (cid +:+ String "_" (label +:+ String "_" slug)).
  rewrite (split_append "_" 1 cid _ Hcid), (split_append "_" 0 label _ Hlabel).
  reflexivity.
Qed.

Lemma soap_key_no_underscore label :
  label ∈ GenerateSoapNotes.SOAP_KEYS -> Py.has_char "_" label = false.
Proof.
  unfold GenerateSoapNotes.SOAP_KEYS. intros H.
  repeat (apply elem_of_cons in H as [->|H]; [reflexivity|]).
  apply elem_of_nil in H. contradiction.
Qed.

(** C2. For a parent id without underscore, a section label of the SOAP
    note and a slug of FORMAT_VARIANTS, splitting the encoded id at most
    twice on the underscore gives back exactly (parent, label, slug). *)
Theorem composite_id_round_trip cid label slug :
  Py.has_char "_" cid = false ->
  label ∈ GenerateSoapNotes.SOAP_KEYS ->
  slug ∈ GenerateSoapSections.FORMAT_VARIANTS.*1 ->
  GenerateSoapSections.split_custom_id
    (GenerateSoapSections.composite_id cid label slug)
  = Py.Ok (cid, label, slug).
Proof.
  intros Hcid Hlabel _. unfold GenerateSoapSections.split_custom_id.
  rewrite split_composite_id; [reflexivity | exact Hcid |].
  apply soap_key_no_underscore, Hlabel.
Qed.

Lemma composite_id_round_trip_witness :
  Py.has_char "_" "row0007" = false
  /\ "plan" ∈ GenerateSoapNotes.SOAP_KEYS
  /\ "brev_bp" ∈ GenerateSoapSections.FORMAT_VARIANTS.*1
  /\ GenerateSoapSections.split_custom_id "row0007_plan_brev_bp"
     = Py.Ok ("row0007", "plan", "brev_bp").
Proof.
  assert (H1 : Py.has_char "_" "row0007" = false) by reflexivity.
  assert (H2 : "plan" ∈ GenerateSoapNotes.SOAP_KEYS)
    by (unfold GenerateSoapNotes.SOAP_KEYS; repeat constructor).
  assert (H3 : "brev_bp" ∈ GenerateSoapSections.FORMAT_VARIANTS.*1)
    by (simpl; repeat constructor).
  split; [exact H1|]. split; [exact H2|]. split; [exact H3|].
  exact (composite_id_round_trip "row0007" "plan" "brev_bp" H1 H2 H3).
Defined.

(** ** Extraction of the complaints array *)

Lemma lstrip_has_char sep s :
  Py.has_char sep s = false -> Py.has_char sep (Py.lstrip s) = false.
Proof.
  induction s as [|c s IH]; simpl; [reflexivity|]. intros H.
  destruct (Py.isspace c); [|exact H].
  apply orb_false_iff in H as [_ H]. exact (IH H).
Qed.

Lemma rstrip_has_char sep s :
  Py.has_char sep s = false -> Py.has_char sep (Py.rstrip s) = false.
Proof.
  induction s as [|c s IH]; simpl; [reflexivity|]. intros H.
  apply orb_false_iff in H as [Hc H]. specialize (IH H).
  destruct (Py.rstrip s) as [|c' r].
  - destruct (Py.isspace c); simpl; [reflexivity|]. rewrite Hc. reflexivity.
  - cbn [Py.has_char]. rewrite Hc. exact IH.
Qed.

(** Cutting matches out of a text brings no new character into it. *)
Lemma sub_loop_has_char sep pat s : forall pos skip,
  Py.has_char sep s = false ->
  Py.has_char sep (Re.sub_loop pat pos skip s) = false.
Proof.
  induction s as [|c s IH]; intros pos skip H; simpl; [reflexivity|].
  simpl in H. apply orb_false_iff in H as [Hc H].
  destruct skip as [|k]; [|apply IH, H].
  destruct (Re.exec pat pos (String c s) Re.no_caps) as [[e g]|].
  - destruct (pos <? e); [apply IH, H|].
    simpl. rewrite Hc. apply IH, H.
  - simpl. rewrite Hc. apply IH, H.
Qed.

Lemma exec_chr p rest pos c s g :
  Re.exec (Re.Chr p :: rest) pos (String c s) g =
  if p c then Re.exec rest (S pos) s g else None.
Proof. reflexivity. Qed.

(** A text without an opening bracket holds no array. *)
Lemma search_first_array_none s : forall pos,
  Py.has_char "[" s = false ->
  Re.search_from GenerateComplaints.first_array pos s = None.
Proof.
  induction s as [|c s IH]; intros pos H; [reflexivity|].
  simpl in H. apply orb_false_iff in H as [Hc H].
  cbn [Re.search_from].
  assert (E : Re.exec GenerateComplaints.first_array pos (String c s) Re.no_caps = None).
  { unfold GenerateComplaints.first_array.
    change (Re.lit "[" ++ [Re.Star Re.any] ++ Re.lit "]")
      with (Re.Chr (Ascii.eqb "[") :: Re.Star Re.any :: Re.lit "]").
    rewrite exec_chr, Ascii.eqb_sym, Hc. reflexivity. }
  rewrite E. apply IH, H.
Qed.

Lemma clean_json_without_bracket raw :
  Py.has_char "[" raw = false -> GenerateComplaints.clean_json raw = EmptyString.
Proof.
  intros H. unfold GenerateComplaints.clean_json, Re.re_search.
  assert (Hs : Py.has_char "[" (Py.strip raw) = false)
    by (apply rstrip_has_char, lstrip_has_char, H).
  destruct (Py.startswith (Py.strip raw) "```").
  - rewrite search_first_array_none; [reflexivity|].
    unfold Re.re_sub_delete. apply sub_loop_has_char, sub_loop_has_char, Hs.
  - rewrite search_first_array_none; [reflexivity | exact Hs].
Qed.

(** C3, as the code has it. [clean_json] recovers an array: from the
    fenced content it yields the text [1,2,3], and so it does from an array
    inside prose. It recovers nothing else: a content without an opening
    square bracket, the object inside prose among them, yields the empty
    text. *)
Theorem clean_json_recovers_arrays_only :
  GenerateComplaints.clean_json fenced_array = "[1,2,3]"
  /\ GenerateComplaints.clean_json "Sure! [1,2,3] Hope that helps!" = "[1,2,3]"
  /\ (forall raw, Py.has_char "[" raw = false ->
        GenerateComplaints.clean_json raw = EmptyString).
Proof.
  split; [vm_compute; reflexivity|].
  split; [vm_compute; reflexivity|].
  exact clean_json_without_bracket.
Qed.

Lemma clean_json_recovers_arrays_only_witness :
  Py.has_char "[" prose_object = false
  /\ GenerateComplaints.clean_json prose_object = EmptyString.
Proof.
  split; [reflexivity|].
  apply (proj2 (proj2 clean_json_recovers_arrays_only)). reflexivity.
Defined.

(** C3 as stated fails on its second example: the object inside prose is
    not recovered, the result is the empty text. *)
Lemma clean_json_drops_object :
  GenerateComplaints.clean_json prose_object = EmptyString
  /\ GenerateComplaints.clean_json prose_object <> object_text.
Proof.
  split; [vm_compute; reflexivity|].
  vm_compute. discriminate.
Qed.

(** ** The job poller *)

Lemma poll_loop_in_progress on_failure seconds batch rest :
  in_progress (Poller.status batch) ->
  Poller.poll_loop on_failure seconds (batch :: rest) =
  (Batch.Retrieve :: Batch.Sleep seconds :: (Poller.poll_loop on_failure seconds rest).1,
   (Poller.poll_loop on_failure seconds rest).2).
Proof.
  intros (Hf & He & Hc). cbn [Poller.poll_loop].
  apply String.eqb_neq in Hf, He, Hc. rewrite Hf, He, Hc. simpl.
  destruct (Poller.poll_loop on_failure seconds rest). reflexivity.
Qed.

Lemma poll_loop_completed on_failure seconds batch rest :
  Poller.status batch = "completed" ->
  Poller.poll_loop on_failure seconds (batch :: rest) = ([Batch.Retrieve], Batch.Completed).
Proof. intros H. cbn [Poller.poll_loop]. rewrite H. reflexivity. Qed.

Lemma poll_loop_failed on_failure seconds batch rest :
  Poller.status batch = "failed" \/ Poller.status batch = "expired" ->
  Poller.poll_loop on_failure seconds (batch :: rest)
  = ([Batch.Retrieve], Batch.Stopped (on_failure batch)).
Proof. intros [H|H]; cbn [Poller.poll_loop]; rewrite H; reflexivity. Qed.

(** C5. On the scripted answers pending, running, completed the loop
    ends with success after exactly three status queries, whatever answers
    would follow; on pending, failed it ends with the job-failed error
    after exactly two, and asks no more. This holds for the loop of
    generate_transcriptions_batch.py (RuntimeError) and the loop of
    generate_soap_notes.py (sys.exit). *)
Theorem poller_scripted_sequences (pending running completed failed : Poller.job)
    (rest : list Poller.job) :
  in_progress (Poller.status pending) ->
  in_progress (Poller.status running) ->
  Poller.status completed = "completed" ->
  Poller.status failed = "failed" ->
  (GenerateTranscriptionsBatch.poll GenerateTranscriptionsBatch.CONFIG
     (pending :: running :: completed :: rest)
   = ([Batch.Retrieve; Batch.Sleep 30; Batch.Retrieve; Batch.Sleep 30; Batch.Retrieve],
      Batch.Completed)
   /\ Batch.polls (GenerateTranscriptionsBatch.poll GenerateTranscriptionsBatch.CONFIG
                     (pending :: running :: completed :: rest)).1 = 3)
  /\ (GenerateTranscriptionsBatch.poll GenerateTranscriptionsBatch.CONFIG
        (pending :: failed :: rest)
      = ([Batch.Retrieve; Batch.Sleep 30; Batch.Retrieve],
         Batch.Stopped (Py.RuntimeError ("Batch failed: " +:+ Poller.shown failed)))
      /\ Batch.polls (GenerateTranscriptionsBatch.poll GenerateTranscriptionsBatch.CONFIG
                        (pending :: failed :: rest)).1 = 2)
  /\ (GenerateSoapNotes.poll (pending :: running :: completed :: rest)
      = ([Batch.Retrieve; Batch.Sleep 30; Batch.Retrieve; Batch.Sleep 30; Batch.Retrieve],
         Batch.Completed)
      /\ Batch.polls (GenerateSoapNotes.poll (pending :: running :: completed :: rest)).1 = 3)
  /\ (GenerateSoapNotes.poll (pending :: failed :: rest)
      = ([Batch.Retrieve; Batch.Sleep 30; Batch.Retrieve],
         Batch.Stopped (Py.SystemExit (Py.cross_mark +:+ " batch failed")))
      /\ Batch.polls (GenerateSoapNotes.poll (pending :: failed :: rest)).1 = 2).
Proof.
  intros Hp Hr Hc Hf.
  unfold GenerateTranscriptionsBatch.poll, GenerateSoapNotes.poll.
  rewrite !(poll_loop_in_progress _ _ pending) by exact Hp.
  rewrite !(poll_loop_in_progress _ _ running) by exact Hr.
  rewrite !(poll_loop_completed _ _ completed) by exact Hc.
  rewrite !(poll_loop_failed _ _ failed) by (left; exact Hf).
  rewrite Hf. repeat split.
Qed.

Lemma in_progress_validating : in_progress (Poller.status job_validating).
Proof. repeat split; discriminate. Defined.

Lemma in_progress_in_progress : in_progress (Poller.status job_in_progress).
Proof. repeat split; discriminate. Defined.

Lemma poller_scripted_sequences_witness :
  in_progress (Poller.status job_validating)
  /\ in_progress (Poller.status job_in_progress)
  /\ Poller.status job_completed = "completed"
  /\ Poller.status job_failed = "failed"
  /\ GenerateSoapNotes.poll [job_validating; job_in_progress; job_completed; job_failed]
     = ([Batch.Retrieve; Batch.Sleep 30; Batch.Retrieve; Batch.Sleep 30; Batch.Retrieve],
        Batch.Completed)
  /\ GenerateTranscriptionsBatch.poll GenerateTranscriptionsBatch.CONFIG
       [job_validating; job_failed; job_completed]
     = ([Batch.Retrieve; Batch.Sleep 30; Batch.Retrieve],
        Batch.Stopped (Py.RuntimeError "Batch failed: Batch(id=b1, status=failed)")).
Proof.
  split; [exact in_progress_validating|].
  split; [exact in_progress_in_progress|].
  split; [reflexivity|]. split; [reflexivity|].
  pose proof (poller_scripted_sequences job_validating job_in_progress job_completed
                job_failed [job_failed] in_progress_validating in_progress_in_progress
                eq_refl eq_refl) as (_ & _ & [H3 _] & _).
  pose proof (poller_scripted_sequences job_validating job_in_progress job_completed
                job_failed [job_completed] in_progress_validating in_progress_in_progress
                eq_refl eq_refl) as (_ & [H2 _] & _).
  split; [exact H3 | exact H2].
Defined.

(** ** Loading the transcriptions in generate_soap_notes.py *)

Lemma load_transcriptions_prefix pre : forall tx_map,
  Forall (fun j => loadable j = true) pre ->
  exists tx_map',
    forall rest,
      GenerateSoapNotes.load_transcriptions (pre ++ rest) tx_map
      = GenerateSoapNotes.load_transcriptions rest tx_map'.
Proof.
  induction pre as [|j pre IH]; intros tx_map Hpre.
  - exists tx_map. reflexivity.
  - apply Forall_cons in Hpre as [Hj Hpre]. unfold loadable in Hj.
    cbn [app GenerateSoapNotes.load_transcriptions].
    destruct (Batch.status_code j =? 200)%Z.
    + simpl in Hj. apply bool_decide_eq_true in Hj as [m Hm]. rewrite Hm.
      apply IH, Hpre.
    + apply IH, Hpre.
Qed.

Lemma load_transcriptions_bad j post tx_map :
  Batch.status_code j = 200%Z ->
  Re.re_match GenerateSoapNotes.grab_tx (Batch.content j) = None ->
  GenerateSoapNotes.load_transcriptions (j :: post) tx_map
  = Py.Raise (Py.ValueError ("Bad JSON in transcription for " +:+ Batch.custom_id j)).
Proof.
  intros Hs Hm. cbn [GenerateSoapNotes.load_transcriptions].
  rewrite Hs, Hm. reflexivity.
Qed.

(** C4, as the code has it. When the pattern does not match the text of a
    successful response line, the loader raises ValueError with that
    line's correlation id in the message, at the first such line. Nobody
    catches it: the pairing phase, and with it the stage, ends there with
    exit status 1 and no output, whatever lines follow. *)
Theorem extraction_failure_ends_the_stage
    (template_format : string -> PyDict.dict string -> string)
    (input_tx : list Batch.request_line)
    (facts_map : PyDict.dict (PyDict.dict string))
    (pre post : list Batch.response_line) (j : Batch.response_line) :
  GenerateSoapNotes.load_facts input_tx PyDict.empty = Py.Ok facts_map ->
  Forall (fun l => loadable l = true) pre ->
  Batch.status_code j = 200%Z ->
  Re.re_match GenerateSoapNotes.grab_tx (Batch.content j) = None ->
  GenerateSoapNotes.load_transcriptions (pre ++ j :: post) PyDict.empty
  = Py.Raise (Py.ValueError ("Bad JSON in transcription for " +:+ Batch.custom_id j))
  /\ GenerateSoapNotes.pair template_format input_tx (pre ++ j :: post)
     = Py.Raise (Py.ValueError ("Bad JSON in transcription for " +:+ Batch.custom_id j))
  /\ Py.exit_status (GenerateSoapNotes.pair template_format input_tx (pre ++ j :: post)) = 1%Z.
Proof.
  intros Hfacts Hpre Hs Hm.
  destruct (load_transcriptions_prefix pre PyDict.empty Hpre) as [tx_map' Hrest].
  assert (Hload : GenerateSoapNotes.load_transcriptions (pre ++ j :: post) PyDict.empty
          = Py.Raise (Py.ValueError ("Bad JSON in transcription for " +:+ Batch.custom_id j))).
  { rewrite Hrest. apply load_transcriptions_bad; assumption. }
  assert (Hpair : GenerateSoapNotes.pair template_format input_tx (pre ++ j :: post)
          = Py.Raise (Py.ValueError ("Bad JSON in transcription for " +:+ Batch.custom_id j))).
  { unfold GenerateSoapNotes.pair. rewrite Hfacts. cbn [Py.bind Py.Ok].
    rewrite Hload. reflexivity. }
  split; [exact Hload|]. split; [exact Hpair|].
  rewrite Hpair. reflexivity.
Qed.

Lemma extraction_failure_ends_the_stage_witness :
  GenerateSoapNotes.load_facts [request_of "A"; request_of "B"; request_of "C"] PyDict.empty
  = Py.Ok [("A", sample_facts); ("B", sample_facts); ("C", sample_facts)]
  /\ Forall (fun l => loadable l = true) [good_line "A"]
  /\ Batch.status_code (noisy_line "B") = 200%Z
  /\ Re.re_match GenerateSoapNotes.grab_tx (Batch.content (noisy_line "B")) = None
  /\ GenerateSoapNotes.pair show_tx [request_of "A"; request_of "B"; request_of "C"]
       ([good_line "A"] ++ noisy_line "B" :: [good_line "C"])
     = Py.Raise (Py.ValueError "Bad JSON in transcription for B").
Proof.
  assert (H1 : GenerateSoapNotes.load_facts
                 [request_of "A"; request_of "B"; request_of "C"] PyDict.empty
               = Py.Ok [("A", sample_facts); ("B", sample_facts); ("C", sample_facts)])
    by (vm_compute; reflexivity).
  assert (H2 : Forall (fun l => loadable l = true) [good_line "A"])
    by (apply Forall_cons; split; [vm_compute; reflexivity | apply Forall_nil_2]).
  assert (H3 : Batch.status_code (noisy_line "B") = 200%Z) by reflexivity.
  assert (H4 : Re.re_match GenerateSoapNotes.grab_tx (Batch.content (noisy_line "B")) = None)
    by (vm_compute; reflexivity).
  split; [exact H1|]. split; [exact H2|]. split; [exact H3|]. split; [exact H4|].
  exact (proj1 (proj2 (extraction_failure_ends_the_stage show_tx _ _
                         [good_line "A"] [good_line "C"] (noisy_line "B") H1 H2 H3 H4))).
Defined.

(** C4 as stated fails: with the answers for A and C in order and a noisy
    answer for B between them, no transcription map comes out at all, not
    the reduced one for A and C: the run ends with the ValueError for B
    and exit status 1. *)
Lemma extraction_failure_is_not_accumulated :
  GenerateSoapNotes.load_transcriptions
    [good_line "A"; noisy_line "B"; good_line "C"] PyDict.empty
  = Py.Raise (Py.ValueError "Bad JSON in transcription for B")
  /\ GenerateSoapNotes.load_transcriptions
       [good_line "A"; noisy_line "B"; good_line "C"] PyDict.empty
     <> Py.Ok [("A", "Good morning."); ("C", "Good morning.")]
  /\ Py.exit_status
       (GenerateSoapNotes.pair show_tx [request_of "A"; request_of "B"; request_of "C"]
          [good_line "A"; noisy_line "B"; good_line "C"]) = 1%Z.
Proof.
  split; [vm_compute; reflexivity|].
  split; [vm_compute; discriminate | vm_compute; reflexivity].
Qed.

Lemma load_transcriptions_sample :
  GenerateSoapNotes.load_transcriptions [good_line "A"; good_line "C"] PyDict.empty
  = Py.Ok [("A", "Good morning."); ("C", "Good morning.")].
Proof. vm_compute. reflexivity. Qed.

(** ** The join of merge_soap_clean.py *)

Lemma objects_get soap_map cid v :
  objects soap_map -> PyDict.get soap_map cid = Some v -> is_object v = true.
Proof.
  unfold objects. induction soap_map as [|[k0 v0] d IH]; simpl; [discriminate|].
  intros H. apply Forall_cons in H as [H0 H].
  destruct (String.eqb k0 cid); [intros [= <-]; exact H0 | apply IH, H].
Qed.

(** The loop on any list of items: it never raises on object payloads,
    keeps the items that have a payload, in order, and merges each with
    its own payload. *)
Lemma merge_write_spec soap_map : forall items,
  objects soap_map ->
  exists merged,
    MergeSoapClean.merge_write items soap_map = (merged, None)
    /\ merged.*1 = List.filter (PyDict.contains soap_map) items.*1
    /\ Forall (fun cr => exists base soap,
                 (cr.1, base) ∈ items
                 /\ PyDict.get soap_map cr.1 = Some (Py.JDict soap)
                 /\ cr.2 = MergeSoapClean.merge_record base soap) merged.
Proof.
  intros items Hobj. induction items as [|[cid base] items IH].
  - exists []. repeat split. apply Forall_nil_2.
  - destruct IH as (merged & Hrun & Hids & Hrec).
    assert (Hrec' : Forall (fun cr => exists base0 soap,
                 (cr.1, base0) ∈ (cid, base) :: items
                 /\ PyDict.get soap_map cr.1 = Some (Py.JDict soap)
                 /\ cr.2 = MergeSoapClean.merge_record base0 soap) merged).
    { eapply Forall_impl; [exact Hrec|]. intros cr (b & s & Hin & Hg & He).
      exists b, s. split; [apply elem_of_cons; right; exact Hin | auto]. }
    cbn [MergeSoapClean.merge_write fmap list_fmap List.filter fst].
    unfold PyDict.contains at 1.
    destruct (PyDict.get soap_map cid) as [v|] eqn:Hget.
    + pose proof (objects_get _ _ _ Hobj Hget) as Hv.
      destruct v as [| | | | |soap]; try discriminate Hv.
      rewrite Hrun. exists ((cid, MergeSoapClean.merge_record base soap) :: merged).
      split; [reflexivity|]. split.
      * cbn. f_equal. exact Hids.
      * apply Forall_cons. split; [|exact Hrec'].
        exists base, soap. split; [apply elem_of_cons; left; reflexivity | auto].
    + exists merged. split; [exact Hrun|]. split; [exact Hids | exact Hrec'].
Qed.

Lemma elem_of_filter_contains {B} (d : PyDict.dict B) (l : list string) cid :
  cid ∈ List.filter (PyDict.contains d) l <-> cid ∈ l /\ cid ∈ PyDict.keys d.
Proof.
  rewrite !list_elem_of_In, List.filter_In, <- !list_elem_of_In.
  rewrite dict_contains_keys. reflexivity.
Qed.

Lemma NoDup_filter_bool {A} (f : A -> bool) (l : list A) :
  NoDup l -> NoDup (List.filter f l).
Proof.
  induction 1 as [|x l Hx Hl IH]; simpl; [apply NoDup_nil_2|].
  destruct (f x); [|exact IH].
  apply NoDup_cons. split; [|exact IH].
  rewrite list_elem_of_In, List.filter_In, <- list_elem_of_In. tauto.
Qed.

(** C1, as the code has it. Given [req_facts] and a [soap_map] of object
    payloads, the merge of merge_soap_clean.py writes exactly one merged
    record for every correlation id present in both, in the order of
    [req_facts], and none for an id without payload; each record is the
    request's facts merged with that id's own payload, never a partial
    one. The run ends normally and its only report is the number of lines
    written: the unmatched ids are not reported. *)
Theorem merge_soap_clean_joins
    (req_facts : PyDict.dict (PyDict.dict Py.json)) (soap_map : PyDict.dict Py.json) :
  PyDict.wf req_facts ->
  objects soap_map ->
  exists merged : list (string * PyDict.dict Py.json),
    MergeSoapClean.merge_and_report req_facts soap_map
    = {| MergeSoapClean.outfile := merged.*2;
         MergeSoapClean.stdout := [MergeSoapClean.wrote_message (length merged)];
         MergeSoapClean.ended := None |}
    /\ merged.*1 = List.filter (PyDict.contains soap_map) (PyDict.keys req_facts)
    /\ NoDup merged.*1
    /\ (forall cid, cid ∈ merged.*1 <->
                    cid ∈ PyDict.keys req_facts /\ cid ∈ PyDict.keys soap_map)
    /\ (forall cid record, (cid, record) ∈ merged ->
          exists base soap,
            PyDict.get req_facts cid = Some base
            /\ PyDict.get soap_map cid = Some (Py.JDict soap)
            /\ record = MergeSoapClean.merge_record base soap).
Proof.
  intros Hwf Hobj.
  destruct (merge_write_spec soap_map req_facts Hobj) as (merged & Hrun & Hids & Hrec).
  exists merged. split; [|split; [|split; [|split]]].
  - unfold MergeSoapClean.merge_and_report. rewrite Hrun. reflexivity.
  - exact Hids.
  - rewrite Hids. apply NoDup_filter_bool, Hwf.
  - intros cid. rewrite Hids. apply elem_of_filter_contains.
  - intros cid record Hin.
    rewrite Forall_forall in Hrec. destruct (Hrec _ Hin) as (base & soap & Hb & Hs & He).
    exists base, soap. split; [|split; [exact Hs | exact He]].
    apply dict_elem_get; [exact Hwf | exact Hb].
Qed.

Lemma wf_facts_ABC : PyDict.wf (facts_of_ids ["A"; "B"; "C"]).
Proof.
  unfold PyDict.wf. apply (bool_decide_unpack _). vm_compute. reflexivity.
Qed.

Lemma objects_soap_AC : objects (soap_of_ids ["A"; "C"]).
Proof. repeat (apply Forall_cons; split; [reflexivity|]). apply Forall_nil_2. Qed.

Lemma merge_soap_clean_joins_witness :
  PyDict.wf (facts_of_ids ["A"; "B"; "C"])
  /\ objects (soap_of_ids ["A"; "C"])
  /\ exists merged : list (string * PyDict.dict Py.json),
       MergeSoapClean.outfile
         (MergeSoapClean.merge_and_report (facts_of_ids ["A"; "B"; "C"]) (soap_of_ids ["A"; "C"]))
       = merged.*2
       /\ merged.*1 = ["A"; "C"].
Proof.
  split; [exact wf_facts_ABC|]. split; [exact objects_soap_AC|].
  destruct (merge_soap_clean_joins _ _ wf_facts_ABC objects_soap_AC)
    as (merged & Hrun & Hids & _).
  exists merged. split; [rewrite Hrun; reflexivity | exact Hids].
Defined.

(** C1 as stated fails where it has the merge report missingIds. With
    requests A, B, C and payloads for A and C the run writes the two
    records and prints their number; it leaves exactly what the run on
    requests A and C alone leaves, where nothing is missing. Nothing in the
    output tells that B was unmatched. *)
Lemma merge_soap_clean_reports_no_missing_ids :
  MergeSoapClean.merge_and_report (facts_of_ids ["A"; "B"; "C"]) (soap_of_ids ["A"; "C"])
  = MergeSoapClean.merge_and_report (facts_of_ids ["A"; "C"]) (soap_of_ids ["A"; "C"])
  /\ MergeSoapClean.stdout
       (MergeSoapClean.merge_and_report (facts_of_ids ["A"; "B"; "C"]) (soap_of_ids ["A"; "C"]))
     = [MergeSoapClean.wrote_message 2]
  /\ missingIds (facts_of_ids ["A"; "B"; "C"]) (soap_of_ids ["A"; "C"]) = {["B"]}
  /\ missingIds (facts_of_ids ["A"; "C"]) (soap_of_ids ["A"; "C"]) = ∅.
Proof.
  split; [vm_compute; reflexivity|].
  split; [vm_compute; reflexivity|].
  unfold missingIds, PyDict.keyset. cbn. split; set_solver.
Qed.

(** ** What the stages do about missing ids *)

Lemma check_missing_nonempty facts_map tx_map :
  GenerateSoapNotes.missing facts_map tx_map <> ∅ ->
  GenerateSoapNotes.check_missing facts_map tx_map
  = Py.Raise (Py.SystemExit
                (missing_message (size (GenerateSoapNotes.missing facts_map tx_map)))).
Proof.
  intros H. unfold GenerateSoapNotes.check_missing.
  destruct (decide (GenerateSoapNotes.missing facts_map tx_map = ∅)); [contradiction|].
  reflexivity.
Qed.

Lemma check_missing_empty facts_map tx_map :
  GenerateSoapNotes.missing facts_map tx_map = ∅ ->
  GenerateSoapNotes.check_missing facts_map tx_map = Py.Ok tt.
Proof.
  intros H. unfold GenerateSoapNotes.check_missing.
  destruct (decide (GenerateSoapNotes.missing facts_map tx_map = ∅)); [reflexivity|].
  contradiction.
Qed.

(** C6, as the code has it. In generate_soap_notes.py, when some id of
    [facts_map] has no transcription after the two files are loaded, the
    stage ends through sys.exit with the number of missing ids in its
    message, exit status 1. This is not the rule of every stage:
    merge_soap_clean.py has no such check and, on object payloads, ends
    normally with status 0 whatever ids lack a payload. *)
Theorem missing_ids_abort_the_pairing
    (template_format : string -> PyDict.dict string -> string) :
  (forall input_tx output_tx facts_map tx_map,
     GenerateSoapNotes.load_facts input_tx PyDict.empty = Py.Ok facts_map ->
     GenerateSoapNotes.load_transcriptions output_tx PyDict.empty = Py.Ok tx_map ->
     GenerateSoapNotes.missing facts_map tx_map <> ∅ ->
     GenerateSoapNotes.pair template_format input_tx output_tx
     = Py.Raise (Py.SystemExit
                   (missing_message (size (GenerateSoapNotes.missing facts_map tx_map))))
     /\ Py.exit_status (GenerateSoapNotes.pair template_format input_tx output_tx) = 1%Z)
  /\ (forall req_facts soap_map,
        objects soap_map ->
        MergeSoapClean.ended (MergeSoapClean.merge_and_report req_facts soap_map) = None
        /\ MergeSoapClean.exit_status (MergeSoapClean.merge_and_report req_facts soap_map) = 0%Z).
Proof.
  split.
  - intros input_tx output_tx facts_map tx_map Hfacts Htx Hmiss.
    assert (Hpair : GenerateSoapNotes.pair template_format input_tx output_tx
            = Py.Raise (Py.SystemExit
                (missing_message (size (GenerateSoapNotes.missing facts_map tx_map))))).
    { unfold GenerateSoapNotes.pair. rewrite Hfacts. cbn [Py.bind Py.Ok].
      rewrite Htx. cbn [Py.bind Py.Ok].
      rewrite (check_missing_nonempty _ _ Hmiss). reflexivity. }
    split; [exact Hpair | rewrite Hpair; reflexivity].
  - intros req_facts soap_map Hobj.
    destruct (merge_write_spec soap_map req_facts Hobj) as (merged & Hrun & _).
    unfold MergeSoapClean.exit_status, MergeSoapClean.merge_and_report.
    rewrite Hrun. split; reflexivity.
Qed.

Lemma missing_B :
  GenerateSoapNotes.missing
    [("A", sample_facts); ("B", sample_facts); ("C", sample_facts)]
    [("A", "Good morning."); ("C", "Good morning.")] = {["B"]}.
Proof. unfold GenerateSoapNotes.missing, PyDict.keyset. cbn. set_solver. Qed.

Lemma missing_ids_abort_the_pairing_witness :
  GenerateSoapNotes.load_facts [request_of "A"; request_of "B"; request_of "C"] PyDict.empty
  = Py.Ok [("A", sample_facts); ("B", sample_facts); ("C", sample_facts)]
  /\ GenerateSoapNotes.load_transcriptions [good_line "A"; good_line "C"] PyDict.empty
     = Py.Ok [("A", "Good morning."); ("C", "Good morning.")]
  /\ GenerateSoapNotes.missing
       [("A", sample_facts); ("B", sample_facts); ("C", sample_facts)]
       [("A", "Good morning."); ("C", "Good morning.")] <> ∅
  /\ GenerateSoapNotes.pair show_tx [request_of "A"; request_of "B"; request_of "C"]
       [good_line "A"; good_line "C"]
     = Py.Raise (Py.SystemExit (missing_message 1)).
Proof.
  assert (H1 : GenerateSoapNotes.load_facts
                 [request_of "A"; request_of "B"; request_of "C"] PyDict.empty
               = Py.Ok [("A", sample_facts); ("B", sample_facts); ("C", sample_facts)])
    by (vm_compute; reflexivity).
  assert (H2 : GenerateSoapNotes.load_transcriptions [good_line "A"; good_line "C"] PyDict.empty
               = Py.Ok [("A", "Good morning."); ("C", "Good morning.")])
    by (vm_compute; reflexivity).
  assert (H3 : GenerateSoapNotes.missing
                 [("A", sample_facts); ("B", sample_facts); ("C", sample_facts)]
                 [("A", "Good morning."); ("C", "Good morning.")] <> ∅)
    by (rewrite missing_B; set_solver).
  split; [exact H1|]. split; [exact H2|]. split; [exact H3|].
  pose proof (proj1 (proj1 (missing_ids_abort_the_pairing show_tx) _ _ _ _ H1 H2 H3)) as H.
  rewrite missing_B, size_singleton in H. exact H.
Defined.

(** C6 as stated fails for merge_soap_clean.py: with requests A, B, C and
    payloads for A and C the id B is missing, yet the run ends normally,
    exit status 0, with two lines written and no count of missing ids. *)
Lemma merge_soap_clean_goes_on_with_missing_ids :
  missingIds (facts_of_ids ["A"; "B"; "C"]) (soap_of_ids ["A"; "C"]) = {["B"]}
  /\ MergeSoapClean.exit_status
       (MergeSoapClean.merge_and_report (facts_of_ids ["A"; "B"; "C"]) (soap_of_ids ["A"; "C"]))
     = 0%Z
  /\ MergeSoapClean.stdout
       (MergeSoapClean.merge_and_report (facts_of_ids ["A"; "B"; "C"]) (soap_of_ids ["A"; "C"]))
     = [MergeSoapClean.wrote_message 2]
  /\ length (MergeSoapClean.outfile
       (MergeSoapClean.merge_and_report (facts_of_ids ["A"; "B"; "C"]) (soap_of_ids ["A"; "C"])))
     = 2.
Proof.
  split; [unfold missingIds, PyDict.keyset; cbn; set_solver|].
  split; [vm_compute; reflexivity|].
  split; vm_compute; reflexivity.
Qed.

(** ** The request builder of generate_transcriptions_batch.py *)

Lemma read_decimal_zero s :
  read_decimal (String "0" s) = read_decimal s.
Proof.
  unfold read_decimal. cbn [NilEmpty.uint_of_string].
  destruct (NilEmpty.uint_of_string s) as [d|]; reflexivity.
Qed.

Lemma read_decimal_zeros k s :
  read_decimal (Py.zeros k +:+ s) = read_decimal s.
Proof.
  induction k as [|k IH]; [reflexivity|].
  change (Py.zeros (S k) +:+ s) with (String "0" (Py.zeros k +:+ s)).
  rewrite read_decimal_zero. exact IH.
Qed.

Lemma read_format_0d w i : read_decimal (Py.format_0d w i) = Some i.
Proof.
  unfold Py.format_0d. rewrite read_decimal_zeros.
  unfold read_decimal, Py.str_of_nat. rewrite NilEmpty.usu. simpl.
  f_equal. apply DecimalNat.Unsigned.of_to.
Qed.

Lemma format_0d_inj w i j : Py.format_0d w i = Py.format_0d w j -> i = j.
Proof.
  intros H. pose proof (read_format_0d w i) as Hi.
  rewrite H, read_format_0d in Hi. congruence.
Qed.

Lemma row_id_of_inj i j : row_id_of i = row_id_of j -> i = j.
Proof.
  unfold row_id_of. intros H.
  change ("row" +:+ Py.format_0d 4 i)
    with (String "r" (String "o" (String "w" (Py.format_0d 4 i)))) in H.
  change ("row" +:+ Py.format_0d 4 j)
    with (String "r" (String "o" (String "w" (Py.format_0d 4 j)))) in H.
  injection H as H. exact (format_0d_inj 4 i j H).
Qed.

Lemma NoDup_row_ids n : NoDup (map row_id_of (seq 0 n)).
Proof.
  apply NoDup_fmap_2; [|apply NoDup_seq].
  intros i j. apply row_id_of_inj.
Qed.

Section BuildRows.

Variable rng : Type.
Variable next : rng -> nat * rng.
Variable BASE_CC : list string.

Local Abbreviation choice := (GenerateTranscriptionsBatch.choice rng next).
Local Abbreviation draw_row := (GenerateTranscriptionsBatch.draw_row rng next BASE_CC).
Local Abbreviation rows_loop := (GenerateTranscriptionsBatch.rows_loop rng next BASE_CC).
Local Abbreviation build_rows := (GenerateTranscriptionsBatch.build_rows rng next BASE_CC).

(** A choice among at least one item never raises. *)
Lemma choice_nonempty {A} (seq : list A) g :
  seq <> [] -> exists x g', choice seq g = Py.Ok (x, g') /\ x ∈ seq.
Proof.
  intros Hne. destruct seq as [|a seq]; [contradiction|].
  unfold GenerateTranscriptionsBatch.choice, GenerateTranscriptionsBatch.randbelow.
  destruct (next g) as [r g'].
  assert (Hlt : r mod length (a :: seq) < length (a :: seq))
    by (apply Nat.mod_upper_bound; discriminate).
  destruct (lookup_lt_is_Some_2 _ _ Hlt) as [x Hx].
  rewrite Hx. exists x, g'. split; [reflexivity|].
  eapply list_elem_of_lookup_2, Hx.
Qed.

Lemma draw_row_ok i g :
  BASE_CC <> [] ->
  exists r g', draw_row i g = Py.Ok (r, g')
               /\ GenerateTranscriptionsBatch.row_id r = row_id_of i.
Proof.
  intros Hcc. unfold GenerateTranscriptionsBatch.draw_row.
  unfold GenerateTranscriptionsBatch.rand_gen, GenerateTranscriptionsBatch.rand_yn,
    GenerateTranscriptionsBatch.rand_cc.
  destruct (choice_nonempty ["Male"; "Female"; "Non-binary"] g) as (x1 & g1 & -> & _);
    [discriminate|].
  cbn [Py.bind Py.Ok snd fst].
  destruct (GenerateTranscriptionsBatch.rand_age rng next g1) as [age g2].
  destruct (choice_nonempty ["Yes"; "No"] g2) as (x3 & g3 & -> & _); [discriminate|].
  cbn [Py.bind Py.Ok snd fst].
  destruct (choice_nonempty ["Yes"; "No"] g3) as (x4 & g4 & -> & _); [discriminate|].
  cbn [Py.bind Py.Ok snd fst].
  destruct (GenerateTranscriptionsBatch.rand_bp rng next g4) as [bp g5].
  destruct (choice_nonempty BASE_CC g5 Hcc) as (x6 & g6 & -> & _).
  cbn [Py.bind Py.Ok snd fst].
  eexists _, _. split; reflexivity.
Qed.

Lemma rows_loop_ok indices : forall rows g,
  BASE_CC <> [] ->
  exists news g',
    rows_loop indices rows g = Py.Ok (rows ++ news, g')
    /\ map GenerateTranscriptionsBatch.row_id news = map row_id_of indices.
Proof.
  induction indices as [|i indices IH]; intros rows g Hcc.
  - exists [], g. rewrite app_nil_r. split; reflexivity.
  - cbn [GenerateTranscriptionsBatch.rows_loop].
    destruct (draw_row_ok i g Hcc) as (r & g1 & -> & Hid).
    cbn [Py.bind Py.Ok snd fst].
    destruct (IH (rows ++ [r]) g1 Hcc) as (news & g' & -> & Hids).
    exists (r :: news), g'. split.
    + rewrite <- app_assoc. reflexivity.
    + cbn [map]. rewrite Hid, Hids. reflexivity.
Qed.

(** [build_rows] returns as many rows as CONFIG says, with the ids
    row0000, row0001, ... in order, whatever its argument. *)
Lemma build_rows_ok cfg n g :
  BASE_CC <> [] ->
  exists rows g',
    build_rows cfg n g = Py.Ok (rows, g')
    /\ map GenerateTranscriptionsBatch.row_id rows
       = map row_id_of (seq 0 (GenerateTranscriptionsBatch.TARGET_ROWS cfg)).
Proof.
  intros Hcc. unfold GenerateTranscriptionsBatch.build_rows.
  destruct (rows_loop_ok (seq 0 (GenerateTranscriptionsBatch.TARGET_ROWS cfg)) [] g Hcc)
    as (news & g' & Hrun & Hids).
  exists news, g'. split; [exact Hrun | exact Hids].
Qed.

(** C7, as the code has it. With at least one complaint to choose from,
    [build_rows] returns exactly CONFIG[TARGET_ROWS] rows, whatever count
    it is called with, and their correlation ids are pairwise distinct;
    called with N = CONFIG[TARGET_ROWS], as the script does, it returns
    exactly N rows. *)
Theorem build_rows_count_and_ids cfg n g :
  BASE_CC <> [] ->
  exists rows g',
    build_rows cfg n g = Py.Ok (rows, g')
    /\ length rows = GenerateTranscriptionsBatch.TARGET_ROWS cfg
    /\ (n = GenerateTranscriptionsBatch.TARGET_ROWS cfg -> length rows = n)
    /\ NoDup (map GenerateTranscriptionsBatch.row_id rows).
Proof.
  intros Hcc. destruct (build_rows_ok cfg n g Hcc) as (rows & g' & Hrun & Hids).
  assert (Hlen : length rows = GenerateTranscriptionsBatch.TARGET_ROWS cfg).
  { rewrite <- (length_map GenerateTranscriptionsBatch.row_id), Hids, length_map.
    apply length_seq. }
  exists rows, g'. split; [exact Hrun|]. split; [exact Hlen|].
  split; [intros ->; exact Hlen|].
  rewrite Hids. apply NoDup_row_ids.
Qed.

End BuildRows.

Lemma build_rows_count_and_ids_witness :
  ["cough"; "fatigue"] <> []
  /\ exists rows g',
       GenerateTranscriptionsBatch.build_rows nat counting ["cough"; "fatigue"]
         small_config 3 0 = Py.Ok (rows, g')
       /\ length rows = 3
       /\ NoDup (map GenerateTranscriptionsBatch.row_id rows).
Proof.
  assert (H : ["cough"; "fatigue"] <> []) by discriminate.
  split; [exact H|].
  destruct (build_rows_count_and_ids nat counting ["cough"; "fatigue"] small_config 3 0 H)
    as (rows & g' & Hrun & Hlen & _ & Hnd).
  exists rows, g'. split; [exact Hrun|]. split; [exact Hlen | exact Hnd].
Defined.

Lemma build_rows_small :
  map GenerateTranscriptionsBatch.row_id
    (match GenerateTranscriptionsBatch.build_rows nat counting ["cough"; "fatigue"]
             small_config 3 0 with
     | inr (rows, _) => rows
     | inl _ => []
     end)
  = ["row0000"; "row0001"; "row0002"].
Proof. vm_compute. reflexivity. Qed.

(** C7 as stated fails for N other than CONFIG[TARGET_ROWS]: called with
    5 under the script's CONFIG, [build_rows] returns 1032 rows. *)
Lemma build_rows_ignores_its_argument :
  exists rows g',
    GenerateTranscriptionsBatch.build_rows nat counting ["cough"; "fatigue"]
      GenerateTranscriptionsBatch.CONFIG 5 0 = Py.Ok (rows, g')
    /\ length rows = 1032
    /\ length rows <> 5.
Proof.
  destruct (build_rows_ok nat counting ["cough"; "fatigue"]
              GenerateTranscriptionsBatch.CONFIG 5 0) as (rows & g' & Hrun & Hids);
    [discriminate|].
  assert (Hlen : length rows = 1032).
  { rewrite <- (length_map GenerateTranscriptionsBatch.row_id), Hids, length_map.
    apply length_seq. }
  exists rows, g'. split; [exact Hrun|]. split; [exact Hlen|].
  rewrite Hlen. discriminate.
Qed.

(** ** Submission *)

(** C8, as the code has it. The scripts submit whatever request file they
    wrote: they upload it and launch the batch with no check of their own,
    neither that it holds a line nor that its ids differ. The submission
    succeeds whenever the facility accepts the file and the batch, and
    when it fails the error is the facility's. *)
Theorem submit_checks_nothing (fac : Batch.facility) (input : list Batch.request_line) :
  (forall file_id batch_id,
     Batch.files_create fac input = Py.Ok file_id ->
     Batch.batches_create fac file_id = Py.Ok batch_id ->
     Batch.submit fac input = Py.Ok batch_id)
  /\ (forall e,
        Batch.submit fac input = Py.Raise e ->
        Batch.files_create fac input = Py.Raise e
        \/ exists file_id,
             Batch.files_create fac input = Py.Ok file_id
             /\ Batch.batches_create fac file_id = Py.Raise e).
Proof.
  unfold Batch.submit. split.
  - intros file_id batch_id Hf Hb. rewrite Hf. exact Hb.
  - intros e H. destruct (Batch.files_create fac input) as [e'|file_id] eqn:Hf.
    + left. exact H.
    + right. exists file_id. split; [reflexivity | exact H].
Qed.

Lemma submit_checks_nothing_witness :
  Batch.files_create accepting [request_of "A"; request_of "A"] = Py.Ok "file-1"
  /\ Batch.batches_create accepting "file-1" = Py.Ok "batch-1"
  /\ Batch.submit accepting [request_of "A"; request_of "A"] = Py.Ok "batch-1".
Proof.
  split; [reflexivity|]. split; [reflexivity|].
  exact (proj1 (submit_checks_nothing accepting [request_of "A"; request_of "A"])
           "file-1" "batch-1" eq_refl eq_refl).
Defined.

(** C8 as stated fails: an empty request file and a file with the id A
    twice are both submitted, and the job handle comes back; the scripts
    raise no validation error. *)
Lemma submit_takes_empty_and_repeated_ids :
  Batch.submit accepting [] = Py.Ok "batch-1"
  /\ map Batch.req_id [request_of "A"; request_of "A"] = ["A"; "A"]
  /\ Batch.submit accepting [request_of "A"; request_of "A"] = Py.Ok "batch-1".
Proof. split; [reflexivity|]. split; reflexivity. Qed.

(** ** The loop of generate_transcriptions.py *)

Lemma unique_rows_start : unique_rows GenerateTranscriptions.start.
Proof. split; [apply NoDup_nil_2 | reflexivity]. Qed.

Lemma unique_rows_absorb st r :
  unique_rows st -> unique_rows (GenerateTranscriptions.absorb st r).
Proof.
  intros [Hnd Hseen]. unfold GenerateTranscriptions.absorb.
  destruct (decide (GenerateTranscriptions.unique_key r ∈ GenerateTranscriptions.seen st))
    as [Hin|Hnin]; [split; assumption|].
  split; cbn [GenerateTranscriptions.rows GenerateTranscriptions.seen].
  - rewrite map_app. apply NoDup_app. split; [exact Hnd|]. split.
    + intros k Hk Hk'. apply list_elem_of_singleton in Hk'. subst k.
      apply Hnin. rewrite Hseen. apply elem_of_list_to_set. exact Hk.
    + apply NoDup_singleton.
  - rewrite map_app, list_to_set_app_L, Hseen. cbn. set_solver.
Qed.

Lemma unique_rows_gather gathered : forall st,
  unique_rows st -> unique_rows (fold_left GenerateTranscriptions.absorb gathered st).
Proof.
  induction gathered as [|r gathered IH]; intros st H; [exact H|].
  apply IH, unique_rows_absorb, H.
Qed.

Lemma unique_rows_checkpoint cfg st :
  unique_rows st -> unique_rows (GenerateTranscriptions.checkpoint cfg st).
Proof.
  intros H. unfold GenerateTranscriptions.checkpoint.
  destruct (_ <? _); exact H.
Qed.

Lemma unique_rows_round cfg st gathered :
  unique_rows st -> unique_rows (GenerateTranscriptions.round cfg st gathered).
Proof.
  intros H. apply unique_rows_checkpoint, unique_rows_gather, H.
Qed.

Lemma unique_rows_main_loop cfg rounds : forall st,
  unique_rows st ->
  unique_rows (GenerateTranscriptions.state_of (GenerateTranscriptions.main_loop cfg rounds st))
  /\ forall master st',
       GenerateTranscriptions.main_loop cfg rounds st = GenerateTranscriptions.Written master st' ->
       master = GenerateTranscriptions.rows st'.
Proof.
  induction rounds as [|gathered rounds IH]; intros st H;
    cbn [GenerateTranscriptions.main_loop];
    destruct (length (GenerateTranscriptions.rows st) <? GenerateTranscriptions.TARGET_ROWS cfg).
  - split; [exact H | discriminate].
  - split; [exact H | intros master st' [= <- <-]; reflexivity].
  - apply IH, unique_rows_round, H.
  - split; [exact H | intros master st' [= <- <-]; reflexivity].
Qed.

(** C10. However the rounds of generated records fall, the main loop
    keeps its invariant: no two accumulated rows agree on the full
    seven-field key, and [seen] is exactly the set of the rows' keys; every
    step of the loop preserves it. Hence the records of the final dataset
    are pairwise different under that key. *)
Theorem rows_stay_unique (cfg : GenerateTranscriptions.config)
    (rounds : list (list GenerateTranscriptions.rec)) :
  unique_rows (GenerateTranscriptions.state_of (GenerateTranscriptions.main cfg rounds))
  /\ (forall st r, unique_rows st -> unique_rows (GenerateTranscriptions.absorb st r))
  /\ (forall st, unique_rows st -> unique_rows (GenerateTranscriptions.checkpoint cfg st))
  /\ (forall master st,
        GenerateTranscriptions.main cfg rounds = GenerateTranscriptions.Written master st ->
        NoDup (map GenerateTranscriptions.unique_key master)).
Proof.
  destruct (unique_rows_main_loop cfg rounds GenerateTranscriptions.start unique_rows_start)
    as [Hinv Hmaster].
  split; [exact Hinv|].
  split; [exact unique_rows_absorb|].
  split; [exact (unique_rows_checkpoint cfg)|].
  intros master st Hrun. unfold GenerateTranscriptions.main in *.
  rewrite (Hmaster master st Hrun). rewrite Hrun in Hinv. exact (proj1 Hinv).
Qed.

(** ** Further properties of the loops *)

(** The polling loop in general: it sleeps through every answer that is in
    progress and ends at the first that is not, with one status query per
    answer read; while all answers are in progress it keeps waiting,
    without bound. *)
Theorem poll_loop_ends_at_first_terminal (on_failure : Poller.job -> Py.exn)
    (seconds : nat) (pre rest : list Poller.job) (batch : Poller.job) :
  Forall (fun j => in_progress (Poller.status j)) pre ->
  ~ in_progress (Poller.status batch) ->
  Batch.polls (Poller.poll_loop on_failure seconds (pre ++ batch :: rest)).1 = S (length pre)
  /\ (Poller.poll_loop on_failure seconds (pre ++ batch :: rest)).2
     = (if String.eqb (Poller.status batch) "completed" then Batch.Completed
        else Batch.Stopped (on_failure batch))
  /\ (Poller.poll_loop on_failure seconds pre).2 = Batch.Waiting.
Proof.
  intros Hpre Hb. induction pre as [|j pre IH].
  - cbn [app length Poller.poll_loop].
    destruct (String.eqb_spec (Poller.status batch) "failed") as [Hf|Hf];
      [rewrite Hf; repeat split|].
    destruct (String.eqb_spec (Poller.status batch) "expired") as [He|He];
      [rewrite He; repeat split|].
    destruct (String.eqb_spec (Poller.status batch) "completed") as [Hc|Hc];
      [repeat split|].
    exfalso. apply Hb. repeat split; assumption.
  - apply Forall_cons in Hpre as [Hj Hpre]. destruct (IH Hpre) as (H1 & H2 & H3).
    cbn [app length]. rewrite !(poll_loop_in_progress _ _ j) by exact Hj.
    cbn [fst snd]. split; [|split; assumption].
    unfold Batch.polls in *. cbn. rewrite H1. reflexivity.
Qed.

Lemma poll_loop_ends_at_first_terminal_witness :
  Forall (fun j => in_progress (Poller.status j)) [job_validating; job_in_progress]
  /\ ~ in_progress (Poller.status job_failed)
  /\ Batch.polls (GenerateSoapSections.poll
                    ([job_validating; job_in_progress] ++ job_failed :: [job_completed])).1 = 3.
Proof.
  assert (H1 : Forall (fun j => in_progress (Poller.status j)) [job_validating; job_in_progress]).
  { apply Forall_cons. split; [exact in_progress_validating|].
    apply Forall_cons. split; [exact in_progress_in_progress | apply Forall_nil_2]. }
  assert (H2 : ~ in_progress (Poller.status job_failed)).
  { intros (H & _). apply H. reflexivity. }
  split; [exact H1|]. split; [exact H2|].
  exact (proj1 (poll_loop_ends_at_first_terminal _ 30 _ [job_completed] job_failed H1 H2)).
Defined.


(** ** The size of the dataset of generate_transcriptions.py *)

Lemma absorb_length st r :
  length (GenerateTranscriptions.rows st)
  <= length (GenerateTranscriptions.rows (GenerateTranscriptions.absorb st r))
  <= S (length (GenerateTranscriptions.rows st)).
Proof.
  unfold GenerateTranscriptions.absorb.
  destruct (decide _); cbn [GenerateTranscriptions.rows];
    [lia | rewrite length_app; simpl; lia].
Qed.

Lemma gather_length gathered : forall st,
  length (GenerateTranscriptions.rows st)
  <= length (GenerateTranscriptions.rows (fold_left GenerateTranscriptions.absorb gathered st))
  <= length (GenerateTranscriptions.rows st) + length gathered.
Proof.
  induction gathered as [|r gathered IH]; intros st; cbn [fold_left length]; [lia|].
  pose proof (absorb_length st r). specialize (IH (GenerateTranscriptions.absorb st r)). lia.
Qed.

Lemma checkpoint_rows cfg st :
  GenerateTranscriptions.rows (GenerateTranscriptions.checkpoint cfg st)
  = GenerateTranscriptions.rows st.
Proof. unfold GenerateTranscriptions.checkpoint. destruct (_ <? _); reflexivity. Qed.

Lemma main_loop_target cfg rounds : forall st,
  length (GenerateTranscriptions.rows st) <= GenerateTranscriptions.TARGET_ROWS cfg ->
  well_sized cfg st rounds ->
  forall master st',
    GenerateTranscriptions.main_loop cfg rounds st = GenerateTranscriptions.Written master st' ->
    length master = GenerateTranscriptions.TARGET_ROWS cfg.
Proof.
  induction rounds as [|gathered rounds IH]; intros st Hle Hsized master st';
    cbn [GenerateTranscriptions.main_loop];
    destruct (Nat.ltb_spec (length (GenerateTranscriptions.rows st))
                (GenerateTranscriptions.TARGET_ROWS cfg)) as [Hlt|Hge].
  - discriminate.
  - intros [= <- <-]. lia.
  - destruct Hsized as [Hlen Hsized]. apply IH; [|exact Hsized].
    unfold GenerateTranscriptions.round. rewrite checkpoint_rows.
    pose proof (gather_length gathered st) as Hg.
    unfold GenerateTranscriptions.batch_size in Hlen. lia.
  - intros [= <- <-]. lia.
Qed.

(** When every round gathers as many records as the script asked for, a
    duplicate only makes the loop ask again: the dataset written at the end
    holds exactly CONFIG[TARGET_ROWS] records. *)
Theorem main_writes_target_rows (cfg : GenerateTranscriptions.config)
    (rounds : list (list GenerateTranscriptions.rec))
    (master : list GenerateTranscriptions.rec) (st : GenerateTranscriptions.state) :
  well_sized cfg GenerateTranscriptions.start rounds ->
  GenerateTranscriptions.main cfg rounds = GenerateTranscriptions.Written master st ->
  length master = GenerateTranscriptions.TARGET_ROWS cfg.
Proof.
  intros Hsized Hrun.
  eapply (main_loop_target cfg rounds GenerateTranscriptions.start); [|exact Hsized|exact Hrun].
  cbn. lia.
Qed.

Lemma tiny_rounds_well_sized :
  well_sized tiny_config GenerateTranscriptions.start tiny_rounds.
Proof. vm_compute. repeat split. Qed.

Lemma tiny_rounds_run :
  GenerateTranscriptions.main tiny_config tiny_rounds
  = GenerateTranscriptions.Written [rec_of "a"; rec_of "b"; rec_of "c"]
      (GenerateTranscriptions.state_of (GenerateTranscriptions.main tiny_config tiny_rounds)).
Proof. vm_compute. reflexivity. Qed.

Lemma main_writes_target_rows_witness :
  well_sized tiny_config GenerateTranscriptions.start tiny_rounds
  /\ GenerateTranscriptions.main tiny_config tiny_rounds
     = GenerateTranscriptions.Written [rec_of "a"; rec_of "b"; rec_of "c"]
         (GenerateTranscriptions.state_of (GenerateTranscriptions.main tiny_config tiny_rounds))
  /\ length [rec_of "a"; rec_of "b"; rec_of "c"] = 3.
Proof.
  split; [exact tiny_rounds_well_sized|]. split; [exact tiny_rounds_run|].
  exact (main_writes_target_rows tiny_config tiny_rounds _ _
           tiny_rounds_well_sized tiny_rounds_run).
Defined.

(** ** The final merge of generate_soap_notes.py *)

Section MasterMerge.

Variable json_loads : string -> Py.result Py.json.

(** The final merge goes by the response lines: it writes one record for
    every successful line, in the file's order, each built from that id's
    facts, transcription and SOAP object and carrying the id under row_id;
    a failed line gives no record. It reports no missing id either. *)
Theorem merge_master_joins (lines : list Batch.response_line)
    (facts_map : PyDict.dict (PyDict.dict string)) (tx_map : PyDict.dict string) :
  Forall (answered json_loads facts_map tx_map) lines ->
  exists merged : list (string * PyDict.dict Py.json),
    GenerateSoapNotes.merge_master json_loads lines facts_map tx_map = (merged, None)
    /\ merged.*1 = map Batch.custom_id (List.filter succeeded lines)
    /\ Forall (fun cr => exists facts tx soap,
                 PyDict.get facts_map cr.1 = Some facts
                 /\ PyDict.get tx_map cr.1 = Some tx
                 /\ cr.2 = GenerateSoapNotes.master_record cr.1 facts tx soap
                 /\ PyDict.get cr.2 "row_id" = Some (Py.JStr cr.1)) merged.
Proof.
  induction lines as [|j lines IH]; intros Hall.
  - exists []. repeat split. apply Forall_nil_2.
  - apply Forall_cons in Hall as [Hj Hall]. destruct (IH Hall) as (merged & Hrun & Hids & Hrec).
    cbn [GenerateSoapNotes.merge_master List.filter]. unfold answered in Hj.
    unfold succeeded at 1.
    destruct (Z.eqb_spec (Batch.status_code j) 200) as [Hs|Hs].
    + destruct (Hj Hs) as (facts & tx & soap & Hf & Ht & Hl).
      unfold GenerateSoapNotes.master_line, PyDict.getitem.
      rewrite Hl, Hf, Ht. cbn [Py.bind Py.Ok]. rewrite Hrun.
      exists ((Batch.custom_id j, GenerateSoapNotes.master_record (Batch.custom_id j) facts tx soap)
                :: merged).
      split; [reflexivity|]. split; [cbn; f_equal; exact Hids|].
      apply Forall_cons. split; [|exact Hrec].
      exists facts, tx, soap. cbn [fst snd].
      split; [exact Hf|]. split; [exact Ht|]. split; [reflexivity|].
      apply master_record_row_id.
    + exists merged. split; [exact Hrun|]. split; [exact Hids | exact Hrec].
Qed.

End MasterMerge.

Lemma merge_master_joins_witness :
  Forall (answered loads_soap_answer
            [("A", sample_facts); ("B", sample_facts)]
            [("A", "Good morning."); ("B", "Good morning.")])
    [soap_line "A" 200; soap_line "B" 500]
  /\ exists merged : list (string * PyDict.dict Py.json),
       GenerateSoapNotes.merge_master loads_soap_answer
         [soap_line "A" 200; soap_line "B" 500]
         [("A", sample_facts); ("B", sample_facts)]
         [("A", "Good morning."); ("B", "Good morning.")] = (merged, None)
       /\ merged.*1 = ["A"].
Proof.
  assert (H : Forall (answered loads_soap_answer
            [("A", sample_facts); ("B", sample_facts)]
            [("A", "Good morning."); ("B", "Good morning.")])
    [soap_line "A" 200; soap_line "B" 500]).
  { apply Forall_cons. split.
    - intros _. exists sample_facts, "Good morning.", [("plan", Py.JStr "Rest.")].
      repeat split.
    - apply Forall_cons. split; [intros Hs; discriminate Hs | apply Forall_nil_2]. }
  split; [exact H|].
  destruct (merge_master_joins loads_soap_answer _ _ _ H) as (merged & Hrun & Hids & _).
  exists merged. split; [exact Hrun | exact Hids].
Defined.

(** ** Every request id of the augmentation stage decodes *)

Section AugmentIds.

Variable prompt_of : string -> Py.json -> string -> string.



End AugmentIds.

Lemma sample_sections_plain : plain_sections sample_sections.
Proof.
  apply Forall_cons. split; [|apply Forall_nil_2].
  split; [reflexivity|]. intros d [= <-].
  repeat (apply Forall_cons; split; [reflexivity|]). apply Forall_nil_2.
Qed.


(** ** Runs on the sample inputs *)

Lemma rows_stay_unique_witness :
  GenerateTranscriptions.main tiny_config tiny_rounds
  = GenerateTranscriptions.Written [rec_of "a"; rec_of "b"; rec_of "c"]
      (GenerateTranscriptions.state_of (GenerateTranscriptions.main tiny_config tiny_rounds))
  /\ NoDup (map GenerateTranscriptions.unique_key [rec_of "a"; rec_of "b"; rec_of "c"])
  /\ unique_rows (GenerateTranscriptions.state_of
                    (GenerateTranscriptions.main tiny_config tiny_rounds)).
Proof.
  split; [exact tiny_rounds_run|].
  destruct (rows_stay_unique tiny_config tiny_rounds) as (Hinv & _ & _ & Hmaster).
  split; [exact (Hmaster _ _ tiny_rounds_run) | exact Hinv].
Defined.


(** ** What the loaders build *)

Lemma dict_elem_keys_set {V} (d : PyDict.dict V) k v cid :
  cid ∈ PyDict.keys (PyDict.set d k v) <-> cid ∈ PyDict.keys d \/ cid = k.
Proof.
  rewrite dict_keys_set. destruct (PyDict.contains d k) eqn:E.
  - apply dict_contains_keys in E. split; [auto|]. intros [H| ->]; assumption.
  - rewrite elem_of_app, list_elem_of_singleton. reflexivity.
Qed.










(** ** The fields of the demographic rows *)

Section RowFields.

Variable rng : Type.
Variable next : rng -> nat * rng.
Variable BASE_CC : list string.

Local Abbreviation randint := (GenerateTranscriptionsBatch.randint rng next).
Local Abbreviation choice := (GenerateTranscriptionsBatch.choice rng next).
Local Abbreviation draw_row := (GenerateTranscriptionsBatch.draw_row rng next BASE_CC).
Local Abbreviation rows_loop := (GenerateTranscriptionsBatch.rows_loop rng next BASE_CC).
Local Abbreviation build_rows := (GenerateTranscriptionsBatch.build_rows rng next BASE_CC).

Lemma randint_range a b g : (a <= b)%Z -> (a <= (randint a b g).1 <= b)%Z.
Proof.
  intros Hab. unfold GenerateTranscriptionsBatch.randint,
    GenerateTranscriptionsBatch.randbelow.
  destruct (next g) as [r g']. cbn [fst].
  assert (Hlt : r mod Z.to_nat (b - a + 1) < Z.to_nat (b - a + 1))
    by (apply Nat.mod_upper_bound; lia).
  lia.
Qed.

Lemma choice_elem {A} (seq : list A) g x g' :
  choice seq g = Py.Ok (x, g') -> x ∈ seq.
Proof.
  destruct seq as [|a seq]; [discriminate|].
  unfold GenerateTranscriptionsBatch.choice, GenerateTranscriptionsBatch.randbelow.
  destruct (next g) as [r g1].
  destruct ((a :: seq) !! (r mod length (a :: seq))) as [y|] eqn:Hy; [|discriminate].
  intros H. injection H as <- <-. eapply list_elem_of_lookup_2, Hy.
Qed.

Lemma draw_row_range i g r g' :
  draw_row i g = Py.Ok (r, g') -> row_in_range BASE_CC r.
Proof.
  unfold GenerateTranscriptionsBatch.draw_row.
  unfold GenerateTranscriptionsBatch.rand_gen, GenerateTranscriptionsBatch.rand_yn,
    GenerateTranscriptionsBatch.rand_cc, GenerateTranscriptionsBatch.rand_age,
    GenerateTranscriptionsBatch.rand_bp.
  destruct (choice ["Male"; "Female"; "Non-binary"] g) as [e|[x1 g1]] eqn:H1;
    [discriminate|].
  cbn [Py.bind Py.Ok snd fst].
  pose proof (randint_range 18 90 g1 ltac:(lia)) as Hage.
  destruct (randint 18 90 g1) as [age g2]. cbn [fst] in Hage.
  destruct (choice ["Yes"; "No"] g2) as [e|[x3 g3]] eqn:H3; [discriminate|].
  cbn [Py.bind Py.Ok snd fst].
  destruct (choice ["Yes"; "No"] g3) as [e|[x4 g4]] eqn:H4; [discriminate|].
  cbn [Py.bind Py.Ok snd fst].
  pose proof (randint_range 100 180 g4 ltac:(lia)) as Hs.
  destruct (randint 100 180 g4) as [systolic g5]. cbn [fst] in Hs.
  pose proof (randint_range 60 110 g5 ltac:(lia)) as Hd.
  destruct (randint 60 110 g5) as [diastolic g6]. cbn [fst] in Hd.
  destruct (choice BASE_CC g6) as [e|[x6 g7]] eqn:H6; [discriminate|].
  cbn [Py.bind Py.Ok snd fst]. intros H. injection H as <- <-.
  unfold row_in_range. cbn.
  split; [exact (choice_elem _ _ _ _ H1)|]. split; [exact Hage|].
  split; [exact (choice_elem _ _ _ _ H3)|]. split; [exact (choice_elem _ _ _ _ H4)|].
  split; [exact (choice_elem _ _ _ _ H6)|].
  exists systolic, diastolic. split; [exact Hs|]. split; [exact Hd | reflexivity].
Qed.

Lemma rows_loop_range indices : forall rows g rows' g',
  rows_loop indices rows g = Py.Ok (rows', g') ->
  Forall (row_in_range BASE_CC) rows -> Forall (row_in_range BASE_CC) rows'.
Proof.
  induction indices as [|i indices IH]; intros rows g rows' g' Hrun Hall.
  - injection Hrun as <- <-. exact Hall.
  - cbn [GenerateTranscriptionsBatch.rows_loop] in Hrun.
    destruct (draw_row i g) as [e|[r g1]] eqn:Hr; [discriminate Hrun|].
    cbn [Py.bind Py.Ok snd fst] in Hrun.
    apply (IH _ _ _ _ Hrun). apply Forall_app. split; [exact Hall|].
    apply Forall_cons. split; [exact (draw_row_range _ _ _ _ Hr) | apply Forall_nil_2].
Qed.

(** With at least one complaint to choose from, [build_rows] returns rows
    whose every field is in the range the random helpers draw from: one of
    the three genders, an age from 18 to 90, Yes or No for smoker and
    drinker, a complaint of the list, and a blood pressure written
    systolic/diastolic with 100..180 over 60..110, whatever the generator
    returns. *)
Theorem build_rows_fields_in_range cfg n g :
  BASE_CC <> [] ->
  exists rows g',
    build_rows cfg n g = Py.Ok (rows, g')
    /\ Forall (row_in_range BASE_CC) rows.
Proof.
  intros Hcc.
  destruct (build_rows_ok rng next BASE_CC cfg n g Hcc) as (rows & g' & Hrun & _).
  exists rows, g'. split; [exact Hrun|].
  unfold GenerateTranscriptionsBatch.build_rows in Hrun.
  exact (rows_loop_range _ _ _ _ _ Hrun (Forall_nil_2 _)).
Qed.

(** Without any complaint to choose from, [build_rows] raises IndexError
    on its first row (the gender, age, smoker, drinker and blood pressure
    of that row are drawn first), as soon as CONFIG asks for a row. *)
Theorem build_rows_without_complaints cfg n g :
  0 < GenerateTranscriptionsBatch.TARGET_ROWS cfg ->
  GenerateTranscriptionsBatch.build_rows rng next [] cfg n g = Py.Raise Py.IndexError.
Proof.
  intros Hpos. unfold GenerateTranscriptionsBatch.build_rows.
  destruct (GenerateTranscriptionsBatch.TARGET_ROWS cfg) as [|k]; [lia|].
  cbn [seq GenerateTranscriptionsBatch.rows_loop].
  unfold GenerateTranscriptionsBatch.draw_row.
  unfold GenerateTranscriptionsBatch.rand_gen, GenerateTranscriptionsBatch.rand_yn,
    GenerateTranscriptionsBatch.rand_cc.
  destruct (choice_nonempty rng next ["Male"; "Female"; "Non-binary"] g)
    as (x1 & g1 & -> & _); [discriminate|].
  cbn [Py.bind Py.Ok snd fst].
  destruct (GenerateTranscriptionsBatch.rand_age rng next g1) as [age g2].
  destruct (choice_nonempty rng next ["Yes"; "No"] g2) as (x3 & g3 & -> & _);
    [discriminate|].
  cbn [Py.bind Py.Ok snd fst].
  destruct (choice_nonempty rng next ["Yes"; "No"] g3) as (x4 & g4 & -> & _);
    [discriminate|].
  cbn [Py.bind Py.Ok snd fst].
  destruct (GenerateTranscriptionsBatch.rand_bp rng next g4) as [bp g5].
  reflexivity.
Qed.

End RowFields.

Lemma build_rows_fields_in_range_witness :
  ["cough"; "fatigue"] <> []
  /\ exists rows g',
       GenerateTranscriptionsBatch.build_rows nat counting ["cough"; "fatigue"]
         small_config 3 0 = Py.Ok (rows, g')
       /\ Forall (row_in_range ["cough"; "fatigue"]) rows.
Proof.
  assert (H : ["cough"; "fatigue"] <> []) by discriminate.
  split; [exact H|].
  exact (build_rows_fields_in_range nat counting ["cough"; "fatigue"] small_config 3 0 H).
Defined.

Lemma build_rows_without_complaints_witness :
  0 < GenerateTranscriptionsBatch.TARGET_ROWS small_config
  /\ GenerateTranscriptionsBatch.build_rows nat counting [] small_config 3 0
     = Py.Raise Py.IndexError.
Proof.
  assert (H : 0 < GenerateTranscriptionsBatch.TARGET_ROWS small_config) by (cbn; lia).
  split; [exact H|].
  exact (build_rows_without_complaints nat counting small_config 3 0 H).
Defined.

(** ** The merge of generate_transcriptions_batch.py *)

Lemma load_tx_map_spec json_loads lines : forall tx_map tx_map',
  GenerateTranscriptionsBatch.load_tx_map json_loads lines tx_map = Py.Ok tx_map' ->
  PyDict.wf tx_map ->
  PyDict.wf tx_map'
  /\ forall cid, cid ∈ PyDict.keys tx_map' <->
                 cid ∈ PyDict.keys tx_map
                 \/ cid ∈ map Batch.custom_id (List.filter succeeded lines).
Proof.
  induction lines as [|j lines IH]; intros m m' Hrun Hwf.
  - injection Hrun as <-. split; [exact Hwf|]. intros cid. cbn.
    rewrite elem_of_nil. tauto.
  - cbn [GenerateTranscriptionsBatch.load_tx_map List.filter] in *.
    unfold succeeded at 1.
    destruct (Batch.status_code j =? 200)%Z.
    + destruct (GenerateTranscriptionsBatch.transcription_of json_loads (Batch.content j))
        as [e|tx]; [discriminate Hrun|].
      cbn [Py.bind] in Hrun.
      destruct (IH _ _ Hrun (dict_wf_set _ _ _ Hwf)) as [Hwf' Hkeys].
      split; [exact Hwf'|]. intros cid. rewrite Hkeys, dict_elem_keys_set.
      cbn [map]. rewrite elem_of_cons. tauto.
    + exact (IH _ _ Hrun Hwf).
Qed.

(** Two duplicate-free lists of the same length hold the same items as
    soon as one holds the items of the other. *)
Lemma NoDup_same_length_incl {A} (l k : list A) :
  NoDup l -> length k <= length l -> (forall x, x ∈ l -> x ∈ k) ->
  forall x, x ∈ k -> x ∈ l.
Proof.
  intros Hnd Hlen Hincl x Hx.
  pose proof (NoDup_submseteq l k Hnd Hincl) as Hsub.
  pose proof (submseteq_length_Permutation l k Hsub Hlen) as Hperm.
  rewrite Hperm. exact Hx.
Qed.

(** The merge of generate_transcriptions_batch.py checks a count only.
    When it gets past the check, the output keeps the rows in order, and
    every row has a transcription exactly when every successful response
    carries the id of a row: one successful response with a foreign id
    leaves a row without a transcription although the count is right. *)
Theorem merge_output_fills_rows
    (json_loads : string -> Py.result Py.json)
    (cfg : GenerateTranscriptionsBatch.config)
    (df : list GenerateTranscriptionsBatch.row) (lines : list Batch.response_line)
    (out : list (GenerateTranscriptionsBatch.row * option Py.json)) :
  NoDup (map GenerateTranscriptionsBatch.row_id df) ->
  length df = GenerateTranscriptionsBatch.TARGET_ROWS cfg ->
  GenerateTranscriptionsBatch.merge_output json_loads cfg df lines = Py.Ok out ->
  out.*1 = df
  /\ ((forall cid, cid ∈ map Batch.custom_id (List.filter succeeded lines) ->
                   cid ∈ map GenerateTranscriptionsBatch.row_id df)
      <-> Forall (fun rt => is_Some rt.2) out).
Proof.
  intros Hnd Hlen. unfold GenerateTranscriptionsBatch.merge_output.
  destruct (GenerateTranscriptionsBatch.load_tx_map json_loads lines PyDict.empty)
    as [e|tx_map] eqn:Hload; [discriminate|].
  cbn [Py.bind]. unfold GenerateTranscriptionsBatch.check_rows.
  destruct (length tx_map =? GenerateTranscriptionsBatch.TARGET_ROWS cfg) eqn:Hcount;
    [|discriminate].
  cbn [Py.bind Py.Ok]. intros H. injection H as <-.
  apply Nat.eqb_eq in Hcount.
  destruct (load_tx_map_spec _ _ _ _ Hload dict_wf_empty) as [Hwf Hkeys].
  assert (Hkeys' : forall cid, cid ∈ PyDict.keys tx_map <->
                     cid ∈ map Batch.custom_id (List.filter succeeded lines)).
  { intros cid. rewrite Hkeys. cbn. rewrite elem_of_nil. tauto. }
  assert (Hklen : length (PyDict.keys tx_map) = length tx_map)
    by apply length_map.
  assert (Hdlen : length (map GenerateTranscriptionsBatch.row_id df) = length df)
    by apply length_map.
  unfold GenerateTranscriptionsBatch.with_transcriptions. split.
  - rewrite <- list_fmap_compose. apply list_fmap_id.
  - rewrite Forall_fmap. cbn [snd compose]. rewrite Forall_forall. split.
    + intros Hincl r Hr. cbn.
      destruct (PyDict.get tx_map (GenerateTranscriptionsBatch.row_id r)) eqn:E;
        [eexists; reflexivity|].
      exfalso. apply dict_get_None in E. apply E.
      apply (NoDup_same_length_incl (PyDict.keys tx_map)
               (map GenerateTranscriptionsBatch.row_id df)); [exact Hwf | lia | |].
      * intros cid Hcid. apply Hincl, Hkeys', Hcid.
      * apply list_elem_of_fmap. exists r. split; [reflexivity | exact Hr].
    + intros Hall cid Hcid. apply Hkeys' in Hcid.
      apply (NoDup_same_length_incl (map GenerateTranscriptionsBatch.row_id df)
               (PyDict.keys tx_map)); [exact Hnd | lia | | exact Hcid].
      intros x Hx. apply list_elem_of_fmap in Hx as (r & -> & Hr).
      destruct (Hall r Hr) as [tx Htx]. cbn in Htx.
      eapply dict_get_Some_key, Htx.
Qed.

Lemma merge_output_fills_rows_witness :
  NoDup (map GenerateTranscriptionsBatch.row_id
           [row_of "row0000"; row_of "row0001"; row_of "row0002"])
  /\ length [row_of "row0000"; row_of "row0001"; row_of "row0002"]
     = GenerateTranscriptionsBatch.TARGET_ROWS small_config
  /\ GenerateTranscriptionsBatch.merge_output loads_transcription small_config
       [row_of "row0000"; row_of "row0001"; row_of "row0002"]
       [good_line "row0001"; good_line "row0000"; good_line "stray"]
     = Py.Ok [(row_of "row0000", Some (Py.JStr "Good morning."));
              (row_of "row0001", Some (Py.JStr "Good morning."));
              (row_of "row0002", None)]
  /\ ~ (forall cid,
          cid ∈ map Batch.custom_id
                  (List.filter succeeded
                     [good_line "row0001"; good_line "row0000"; good_line "stray"]) ->
          cid ∈ map GenerateTranscriptionsBatch.row_id
                  [row_of "row0000"; row_of "row0001"; row_of "row0002"]).
Proof.
  assert (H1 : NoDup (map GenerateTranscriptionsBatch.row_id
                        [row_of "row0000"; row_of "row0001"; row_of "row0002"]))
    by (apply (bool_decide_unpack _); vm_compute; reflexivity).
  assert (H2 : length [row_of "row0000"; row_of "row0001"; row_of "row0002"]
               = GenerateTranscriptionsBatch.TARGET_ROWS small_config) by reflexivity.
  assert (H3 : GenerateTranscriptionsBatch.merge_output loads_transcription small_config
                 [row_of "row0000"; row_of "row0001"; row_of "row0002"]
                 [good_line "row0001"; good_line "row0000"; good_line "stray"]
               = Py.Ok [(row_of "row0000", Some (Py.JStr "Good morning."));
                        (row_of "row0001", Some (Py.JStr "Good morning."));
                        (row_of "row0002", None)]) by (vm_compute; reflexivity).
  split; [exact H1|]. split; [exact H2|]. split; [exact H3|].
  intros Hincl.
  apply (proj1 (proj2 (merge_output_fills_rows _ _ _ _ _ H1 H2 H3))) in Hincl.
  apply Forall_cons in Hincl as [_ Hincl]. apply Forall_cons in Hincl as [_ Hincl].
  apply Forall_cons in Hincl as [[tx Htx] _]. discriminate Htx.
Defined.

(** ** Searching a prompt for its facts *)

Lemma string_app_cons x (a b : string) : String x a +:+ b = String x (a +:+ b).
Proof. reflexivity. Qed.

Lemma string_app_assoc (a b c : string) : (a +:+ b) +:+ c = a +:+ b +:+ c.
Proof.
  induction a as [|x a IH]; [reflexivity|].
  rewrite !string_app_cons, IH. reflexivity.
Qed.

Lemma string_app_length (a b : string) :
  String.length (a +:+ b) = String.length a + String.length b.
Proof.
  induction a as [|x a IH]; [reflexivity|].
  rewrite string_app_cons. cbn [String.length]. rewrite IH. reflexivity.
Qed.

Lemma substring_skip a : forall t o n,
  String.substring (String.length a + o) n (a +:+ t) = String.substring o n t.
Proof.
  induction a as [|x a IH]; intros t o n; [reflexivity|].
  rewrite string_app_cons. cbn [String.length Nat.add String.substring]. apply IH.
Qed.

Lemma substring_prefix a : forall t,
  String.substring 0 (String.length a) (a +:+ t) = a.
Proof.
  induction a as [|x a IH]; intros t.
  - destruct t; reflexivity.
  - rewrite string_app_cons. cbn [String.length String.substring]. rewrite IH. reflexivity.
Qed.

Lemma ascii_forall (p : ascii -> bool) :
  forallb p all_ascii = true -> forall c, p c = true.
Proof.
  intros H c. rewrite forallb_forall in H. apply H.
  rewrite <- (ascii_nat_embedding c). apply in_map, in_seq.
  pose proof (nat_ascii_bounded c). lia.
Qed.

(** The equations of the matcher, atom by atom. *)
Lemma exec_star_cons p rest pos c s g :
  Re.exec (Re.Star p :: rest) pos (String c s) g =
  if p c then
    match Re.exec (Re.Star p :: rest) (S pos) s g with
    | Some r => Some r
    | None => Re.exec rest pos (String c s) g
    end
  else Re.exec rest pos (String c s) g.
Proof. reflexivity. Qed.

Lemma exec_star_nil p rest pos g :
  Re.exec (Re.Star p :: rest) pos EmptyString g = Re.exec rest pos EmptyString g.
Proof. reflexivity. Qed.

Lemma exec_group_open rest pos s g :
  Re.exec (Re.GroupOpen :: rest) pos s g =
  Re.exec rest pos s {| Re.g_open := Some pos; Re.g_span := Re.g_span g |}.
Proof. reflexivity. Qed.

Lemma exec_group_close rest pos s g :
  Re.exec (Re.GroupClose :: rest) pos s g =
  Re.exec rest pos s
    {| Re.g_open := Re.g_open g;
       Re.g_span := match Re.g_open g with
                    | Some o => Some (o, pos)
                    | None => Re.g_span g
                    end |}.
Proof. reflexivity. Qed.

Lemma exec_alt_cons a alts rest pos s g :
  Re.exec (Re.AltNoCase (a :: alts) :: rest) pos s g =
  match Re.after_nocase a s with
  | Some s' =>
      match Re.exec rest (pos + String.length a) s' g with
      | Some r => Some r
      | None => Re.exec (Re.AltNoCase alts :: rest) pos s g
      end
  | None => Re.exec (Re.AltNoCase alts :: rest) pos s g
  end.
Proof. reflexivity. Qed.

(** A pattern without [^] matches the same way wherever the text starts:
    only the positions move. *)
Lemma exec_shift k pat : caret_free pat = true -> forall pos s g,
  Re.exec pat (k + pos) s (shift_caps k g)
  = (fun r => (k + r.1, shift_caps k r.2)) <$> Re.exec pat pos s g.
Proof.
  induction pat as [|a rest IH]; intros Hfree pos s g; [reflexivity|].
  cbn [caret_free forallb] in Hfree. apply andb_true_iff in Hfree as [Ha Hfree].
  specialize (IH Hfree).
  destruct a as [p|p| | | | |alts].
  - destruct s as [|c s]; [reflexivity|]. rewrite !exec_chr.
    destruct (p c); [|reflexivity].
    rewrite <- IH. f_equal. lia.
  - revert pos. induction s as [|c s IHs]; intros pos.
    + rewrite !exec_star_nil. apply IH.
    + rewrite !exec_star_cons. destruct (p c); [|apply IH].
      replace (S (k + pos)) with (k + S pos) by lia. rewrite IHs.
      destruct (Re.exec (Re.Star p :: rest) (S pos) s g) as [r|]; [reflexivity | apply IH].
  - discriminate Ha.
  - change (Re.exec (Re.Dollar :: rest) (k + pos) s (shift_caps k g))
      with (if Re.at_dollar s then Re.exec rest (k + pos) s (shift_caps k g) else None).
    change (Re.exec (Re.Dollar :: rest) pos s g)
      with (if Re.at_dollar s then Re.exec rest pos s g else None).
    destruct (Re.at_dollar s); [apply IH | reflexivity].
  - rewrite !exec_group_open. rewrite <- IH. reflexivity.
  - rewrite !exec_group_close. rewrite <- IH. f_equal.
    destruct g as [[o|] sp]; reflexivity.
  - induction alts as [|a alts IHa]; [reflexivity|].
    rewrite !exec_alt_cons. destruct (Re.after_nocase a s) as [s'|]; [|exact IHa].
    replace (k + pos + String.length a) with (k + (pos + String.length a)) by lia.
    rewrite IH. destruct (Re.exec rest (pos + String.length a) s' g); [reflexivity | exact IHa].
Qed.

Lemma search_shift k pat : caret_free pat = true -> forall s pos,
  Re.search_from pat (k + pos) s = shift_match k <$> Re.search_from pat pos s.
Proof.
  intros Hfree. induction s as [|c s IH]; intros pos; cbn [Re.search_from].
  - pose proof (exec_shift k pat Hfree pos EmptyString Re.no_caps) as E.
    change (shift_caps k Re.no_caps) with Re.no_caps in E. rewrite E.
    destruct (Re.exec pat pos EmptyString Re.no_caps) as [[e g]|]; reflexivity.
  - pose proof (exec_shift k pat Hfree pos (String c s) Re.no_caps) as E.
    change (shift_caps k Re.no_caps) with Re.no_caps in E. rewrite E.
    destruct (Re.exec pat pos (String c s) Re.no_caps) as [[e g]|]; [reflexivity|].
    cbn [fmap option_fmap option_map].
    replace (S (k + pos)) with (k + S pos) by lia. apply IH.
Qed.

Lemma caret_free_lit_nocase L rest :
  caret_free rest = true -> caret_free (Re.lit_nocase L ++ rest) = true.
Proof.
  intros H. unfold caret_free, Re.lit_nocase. rewrite forallb_app.
  apply andb_true_iff. split; [|exact H].
  induction (list_ascii_of_string L) as [|c l IH]; [reflexivity | exact IH].
Qed.

Lemma lit_nocase_cons x L rest :
  Re.lit_nocase (String x L) ++ rest
  = Re.Chr (Py.eqb_nocase x) :: (Re.lit_nocase L ++ rest).
Proof. reflexivity. Qed.

Lemma eqb_nocase_refl c : Py.eqb_nocase c c = true.
Proof. apply Ascii.eqb_refl. Qed.

(** A literal that fails inside [s] fails whatever follows [s]. *)
Lemma clash_exec L rest : forall s t pos g,
  clash L s = true -> Re.exec (Re.lit_nocase L ++ rest) pos (s +:+ t) g = None.
Proof.
  induction L as [|x L IH]; intros s t pos g H; destruct s as [|c s];
    try discriminate H.
  cbn [clash] in H. rewrite lit_nocase_cons, string_app_cons, exec_chr.
  destruct (Py.eqb_nocase x c); [apply IH, H | reflexivity].
Qed.

Lemma free_search L rest a : forall t pos,
  free L a = true ->
  Re.search_from (Re.lit_nocase L ++ rest) pos (a +:+ t)
  = Re.search_from (Re.lit_nocase L ++ rest) (String.length a + pos) t.
Proof.
  induction a as [|c a IH]; intros t pos H; [reflexivity|].
  cbn [free] in H. apply andb_true_iff in H as [Hc H].
  pose proof (clash_exec L rest (String c a) t pos Re.no_caps Hc) as E.
  rewrite string_app_cons in *. cbn [Re.search_from]. rewrite E.
  rewrite IH by exact H. f_equal. cbn [String.length]. lia.
Qed.

(** The search goes over a text where the literal that opens the pattern
    does not stand: the captured text is that of the search in what
    follows. *)
Lemma search_group1_skip L rest a t :
  caret_free rest = true -> free L a = true ->
  Facts.search_group1 (Re.lit_nocase L ++ rest) (a +:+ t)
  = Facts.search_group1 (Re.lit_nocase L ++ rest) t.
Proof.
  intros Hrest Hfree. unfold Facts.search_group1, Re.re_search.
  rewrite free_search by exact Hfree.
  rewrite search_shift by (apply caret_free_lit_nocase, Hrest).
  destruct (Re.search_from (Re.lit_nocase L ++ rest) 0 t) as [m|]; [|reflexivity].
  cbn [fmap option_fmap option_map]. f_equal.
  unfold Re.group1, shift_match. cbn [Re.m_group1].
  destruct (Re.m_group1 m) as [[o e]|]; [|reflexivity].
  cbn [fmap option_fmap option_map]. unfold Re.slice, shift_span. cbn [fst snd default].
  replace (String.length a + e - (String.length a + o)) with (e - o) by lia.
  apply substring_skip.
Qed.

Lemma after_nocase_clash q L : forall s,
  string_forall (fun x => negb (Py.eqb_nocase x q)) L = true ->
  Re.after_nocase L s = None -> clash L (s +:+ String q EmptyString) = true.
Proof.
  induction L as [|x L IH]; intros s HL H; [discriminate H|].
  cbn [string_forall] in HL. apply andb_true_iff in HL as [Hx HL].
  apply negb_true_iff in Hx. destruct s as [|c s].
  - change (EmptyString +:+ String q EmptyString) with (String q EmptyString).
    cbn [clash]. rewrite Hx. reflexivity.
  - rewrite string_app_cons. cbn [clash]. cbn [Re.after_nocase] in H.
    destruct (Py.eqb_nocase x c); [apply IH; assumption | reflexivity].
Qed.

Lemma mentions_free q L : forall s,
  string_forall (fun x => negb (Py.eqb_nocase x q)) L = true ->
  mentions L s = false -> free L (s +:+ String q EmptyString) = true.
Proof.
  induction s as [|c s IH]; intros HL H; cbn [mentions] in H.
  - destruct (Re.after_nocase L EmptyString) eqn:E; [discriminate H|].
    pose proof (after_nocase_clash q L EmptyString HL E) as Hc.
    change (EmptyString +:+ String q EmptyString) with (String q EmptyString) in *.
    cbn [free]. rewrite Hc. reflexivity.
  - destruct (Re.after_nocase L (String c s)) eqn:E; [discriminate H|].
    pose proof (after_nocase_clash q L (String c s) HL E) as Hc.
    rewrite string_app_cons in *. cbn [free]. rewrite Hc. apply IH; assumption.
Qed.

(** The same over a text [cc] that does not mention the literal, closed by
    a character [q] the literal does not hold. *)
Lemma search_group1_skip_guarded L rest cc q t :
  caret_free rest = true ->
  string_forall (fun x => negb (Py.eqb_nocase x q)) L = true ->
  mentions L cc = false ->
  Facts.search_group1 (Re.lit_nocase L ++ rest) (cc +:+ String q t)
  = Facts.search_group1 (Re.lit_nocase L ++ rest) t.
Proof.
  intros Hrest HL Hcc. change (String q t) with (String q EmptyString +:+ t).
  rewrite <- string_app_assoc.
  apply search_group1_skip; [exact Hrest | apply mentions_free; assumption].
Qed.

Lemma free_first_char x L a :
  string_forall (fun c => negb (Py.eqb_nocase x c)) a = true ->
  free (String x L) a = true.
Proof.
  induction a as [|c a IH]; intros H; [reflexivity|].
  cbn [string_forall] in H. apply andb_true_iff in H as [Hc H].
  apply negb_true_iff in Hc. cbn [free clash]. rewrite Hc. apply IH, H.
Qed.

Lemma string_forall_impl (p q : ascii -> bool) s :
  (forall c, p c = true -> q c = true) ->
  string_forall p s = true -> string_forall q s = true.
Proof.
  intros Hpq. induction s as [|c s IH]; intros H; [reflexivity|].
  cbn [string_forall] in *. apply andb_true_iff in H as [Hc H].
  rewrite (Hpq c Hc). apply IH, H.
Qed.

Lemma exec_lit_nocase L rest : forall s pos g,
  Re.exec (Re.lit_nocase L ++ rest) pos (L +:+ s) g
  = Re.exec rest (String.length L + pos) s g.
Proof.
  induction L as [|x L IH]; intros s pos g; [reflexivity|].
  rewrite lit_nocase_cons, string_app_cons, exec_chr, eqb_nocase_refl, IH.
  f_equal. cbn [String.length]. lia.
Qed.

(** A greedy class takes a run of its characters whole when the text
    after the run starts outside the class and the rest of the pattern
    matches there. *)
Lemma exec_star_run p rest a : forall t pos g r,
  string_forall p a = true -> stops p t = true ->
  Re.exec rest (String.length a + pos) t g = Some r ->
  Re.exec (Re.Star p :: rest) pos (a +:+ t) g = Some r.
Proof.
  induction a as [|c a IH]; intros t pos g r Ha Ht Hr.
  - change (EmptyString +:+ t) with t. change (String.length EmptyString + pos) with pos in Hr.
    destruct t as [|c t]; [rewrite exec_star_nil; exact Hr|].
    rewrite exec_star_cons. cbn [stops] in Ht. apply negb_true_iff in Ht.
    rewrite Ht. exact Hr.
  - cbn [string_forall] in Ha. apply andb_true_iff in Ha as [Hc Ha].
    rewrite string_app_cons, exec_star_cons, Hc.
    rewrite (IH t (S pos) g r); [reflexivity | exact Ha | exact Ht |].
    replace (String.length a + S pos) with (String.length (String c a) + pos)
      by (cbn [String.length]; lia).
    exact Hr.
Qed.

Lemma search_hit pat pos s e g :
  Re.exec pat pos s Re.no_caps = Some (e, g) ->
  Re.search_from pat pos s
  = Some {| Re.m_start := pos; Re.m_end := e; Re.m_group1 := Re.g_span g |}.
Proof. intros H. destruct s; cbn [Re.search_from]; rewrite H; reflexivity. Qed.

(** Label, blanks, then a run of one class: the run is what group 1
    holds. *)
Lemma capture_run L p a t :
  a <> EmptyString -> string_forall p a = true ->
  stops Py.isspace a = true -> stops p t = true ->
  Facts.search_group1
    (Re.lit_nocase L ++ [Re.Star Py.isspace; Re.GroupOpen]
     ++ Facts.one_or_more p ++ [Re.GroupClose])
    (L +:+ " " +:+ a +:+ t)
  = Py.Ok a.
Proof.
  intros Hne Ha Hsp Ht. destruct a as [|d a]; [contradiction|].
  cbn [string_forall] in Ha. apply andb_true_iff in Ha as [Hd Ha].
  unfold Facts.search_group1, Re.re_search. cbn [app Facts.one_or_more].
  erewrite search_hit.
  2:{ rewrite exec_lit_nocase.
      apply (exec_star_run Py.isspace _ " "); [reflexivity | exact Hsp |].
      rewrite exec_group_open, string_app_cons, exec_chr, Hd.
      apply exec_star_run; [exact Ha | exact Ht |].
      rewrite exec_group_close. reflexivity. }
  unfold Re.group1. cbn [Re.m_group1 Re.g_span Re.g_open fmap option_fmap option_map default id].
  f_equal. unfold Re.slice. cbn [fst snd].
  rewrite <- (string_app_assoc L " ").
  replace (String.length " " + (String.length L + 0))
    with (String.length (L +:+ " ") + 0) by (rewrite string_app_length; cbn; lia).
  rewrite substring_skip.
  replace (_ - _) with (String.length (String d a))
    by (rewrite string_app_length; cbn [String.length]; lia).
  apply substring_prefix.
Qed.

Lemma has_char_forall q s :
  Py.has_char q s = false ->
  string_forall (fun c => negb (Ascii.eqb c q)) s = true.
Proof.
  induction s as [|c s IH]; intros H; [reflexivity|].
  cbn [Py.has_char] in H. apply orb_false_iff in H as [Hc H].
  cbn [string_forall]. rewrite Hc. apply IH, H.
Qed.

(** Label, blanks, then a text between double quotes: the text is what
    group 1 holds. *)
Lemma capture_quoted L cc t :
  cc <> EmptyString -> Py.has_char Py.dquote cc = false ->
  Facts.search_group1
    (Re.lit_nocase L ++ [Re.Star Py.isspace; Re.Chr (Ascii.eqb Py.dquote); Re.GroupOpen]
     ++ Facts.one_or_more (fun c => negb (Ascii.eqb c Py.dquote))
     ++ [Re.GroupClose; Re.Chr (Ascii.eqb Py.dquote)])
    (L +:+ " " +:+ String Py.dquote (cc +:+ String Py.dquote t))
  = Py.Ok cc.
Proof.
  intros Hne Hq. apply has_char_forall in Hq. destruct cc as [|d cc]; [contradiction|].
  cbn [string_forall] in Hq. apply andb_true_iff in Hq as [Hd Hq].
  unfold Facts.search_group1, Re.re_search. cbn [app Facts.one_or_more].
  erewrite search_hit.
  2:{ rewrite exec_lit_nocase.
      apply (exec_star_run Py.isspace _ " "); [reflexivity | reflexivity |].
      rewrite exec_chr. change (Ascii.eqb Py.dquote Py.dquote) with true. cbv iota.
      rewrite exec_group_open, string_app_cons, exec_chr, Hd.
      apply exec_star_run; [exact Hq | reflexivity |].
      rewrite exec_group_close, exec_chr.
      change (Ascii.eqb Py.dquote Py.dquote) with true. reflexivity. }
  unfold Re.group1. cbn [Re.m_group1 Re.g_span Re.g_open fmap option_fmap option_map default id].
  f_equal. unfold Re.slice. cbn [fst snd].
  change (L +:+ " " +:+ String Py.dquote (String d cc +:+ String Py.dquote t))
    with (L +:+ (" " +:+ String Py.dquote EmptyString)
            +:+ String d cc +:+ String Py.dquote t).
  rewrite <- (string_app_assoc L).
  replace (S (String.length " " + (String.length L + 0)))
    with (String.length (L +:+ " " +:+ String Py.dquote EmptyString) + 0)
    by (rewrite !string_app_length; cbn [String.length]; lia).
  rewrite substring_skip.
  replace (_ - _) with (String.length (String d cc))
    by (rewrite string_app_length; cbn [String.length]; lia).
  apply substring_prefix.
Qed.

(** ** The digits of a number *)

Lemma string_of_uint_digits d :
  string_forall Py.is_digit (NilEmpty.string_of_uint d) = true.
Proof.
  induction d; [reflexivity | cbn [NilEmpty.string_of_uint string_forall]; rewrite IHd; reflexivity ..].
Qed.

Lemma string_of_uint_nonempty d : d <> Nil -> NilEmpty.string_of_uint d <> EmptyString.
Proof. destruct d; [contradiction | discriminate ..]. Qed.

Lemma str_of_int_digits z :
  (0 <= z)%Z ->
  Py.str_of_int z <> EmptyString /\ string_forall Py.is_digit (Py.str_of_int z) = true.
Proof.
  intros Hz. unfold Py.str_of_int. destruct z as [|p|p]; [split; [discriminate | reflexivity] | | lia].
  cbn [Z.to_int NilEmpty.string_of_int]. split.
  - apply string_of_uint_nonempty, DecimalPos.Unsigned.to_uint_nonnil.
  - apply string_of_uint_digits.
Qed.

Lemma int_of_str_of_int z : (0 <= z)%Z -> Py.int_of_digits (Py.str_of_int z) = Py.Ok z.
Proof.
  intros Hz. destruct (str_of_int_digits z Hz) as [Hne _].
  unfold Py.int_of_digits. destruct (Py.str_of_int z) as [|c s] eqn:E; [contradiction|].
  rewrite <- E. unfold Py.str_of_int. destruct z as [|p|p]; [reflexivity | | lia].
  cbn [Z.to_int NilEmpty.string_of_int]. rewrite NilEmpty.usu.
  unfold Z.of_uint. rewrite DecimalPos.Unsigned.of_to. reflexivity.
Qed.

Lemma digit_classes c :
  Py.is_digit c = true ->
  Py.isspace c = false
  /\ Py.eqb_nocase "s" c = false /\ Py.eqb_nocase "d" c = false
  /\ Py.eqb_nocase "B" c = false /\ Py.eqb_nocase "c" c = false
  /\ Py.eqb_nocase "a" c = false /\ Py.eqb_nocase "g" c = false.
Proof.
  revert c.
  assert (H : forall c,
    implb (Py.is_digit c)
      (negb (Py.isspace c) && negb (Py.eqb_nocase "s" c) && negb (Py.eqb_nocase "d" c)
       && negb (Py.eqb_nocase "B" c) && negb (Py.eqb_nocase "c" c)
       && negb (Py.eqb_nocase "a" c) && negb (Py.eqb_nocase "g" c)) = true).
  { apply ascii_forall. vm_compute. reflexivity. }
  intros c Hc. specialize (H c). rewrite Hc in H. cbn [implb] in H.
  repeat (apply andb_true_iff in H as [H ?]).
  repeat split; apply negb_true_iff; assumption.
Qed.

Lemma prompt_tx_pieces cfg r :
  GenerateTranscriptionsBatch.prompt_tx cfg r
  = GenerateTranscriptionsBatch.PROMPT_HEAD cfg
    +:+ facts_text (GenerateTranscriptionsBatch.gender r)
          (Py.str_of_int (GenerateTranscriptionsBatch.age r))
          (GenerateTranscriptionsBatch.chief_complaint r)
          (GenerateTranscriptionsBatch.smoker r)
          (GenerateTranscriptionsBatch.drinker r)
          (GenerateTranscriptionsBatch.blood_pressure r)
          GenerateTranscriptionsBatch.PROMPT_TAIL.
Proof.
  unfold GenerateTranscriptionsBatch.prompt_tx, GenerateTranscriptionsBatch.facts_lines,
    Py.join_lines, facts_text, nl.
  f_equal. cbn [String.concat].
  rewrite !string_app_assoc, !string_app_cons, !string_app_assoc. reflexivity.
Qed.

Ltac split_elem H :=
  repeat (apply elem_of_cons in H as [->|H]); [.. | apply elem_of_nil in H; contradiction].

Lemma digits_free x L N :
  (forall c, Py.is_digit c = true -> Py.eqb_nocase x c = false) ->
  string_forall Py.is_digit N = true -> free (String x L) N = true.
Proof.
  intros Hx HN. apply free_first_char.
  eapply string_forall_impl; [|exact HN].
  intros c Hc. rewrite (Hx c Hc). reflexivity.
Qed.

Lemma digits_stop_space N :
  string_forall Py.is_digit N = true -> stops Py.isspace N = true.
Proof.
  destruct N as [|d N]; [reflexivity|]. cbn [string_forall stops]. intros H.
  apply andb_true_iff in H as [Hd _]. apply digit_classes in Hd as [-> _]. reflexivity.
Qed.

Lemma str_of_nat_digits n : string_forall Py.is_digit (Py.str_of_nat n) = true.
Proof. apply string_of_uint_digits. Qed.

Ltac skip_digits HN :=
  rewrite search_group1_skip
    by first [reflexivity | apply digits_free; [intros c Hc; apply digit_classes, Hc | exact HN]].
Ltac skip_text := rewrite search_group1_skip by (vm_compute; reflexivity).

(** None of the six labels stands in the text before the facts, whatever
    the word counts of the configuration. *)
Lemma skip_head L rest cfg t :
  L ∈ labels -> caret_free rest = true ->
  Facts.search_group1 (Re.lit_nocase L ++ rest)
    (GenerateTranscriptionsBatch.PROMPT_HEAD cfg +:+ t)
  = Facts.search_group1 (Re.lit_nocase L ++ rest) t.
Proof.
  intros HL Hrest. unfold GenerateTranscriptionsBatch.PROMPT_HEAD, Py.join_lines.
  cbn [String.concat]. rewrite !string_app_assoc.
  pose proof (str_of_nat_digits (GenerateTranscriptionsBatch.TX_MIN_WORDS cfg)) as Hmin.
  pose proof (str_of_nat_digits (GenerateTranscriptionsBatch.TX_MAX_WORDS cfg)) as Hmax.
  unfold labels in HL. split_elem HL.
  all: repeat first
         [ rewrite search_group1_skip by first [exact Hrest | vm_compute; reflexivity]
         | rewrite search_group1_skip
             by first [exact Hrest
                      | apply digits_free; [intros c Hc; apply digit_classes, Hc | assumption]] ].
  all: reflexivity.
Qed.

Lemma field_gender G N cc S D bp t :
  G ∈ ["Male"; "Female"; "Non-binary"] ->
  Facts.search_group1 Facts.re_gender (facts_text G N cc S D bp t)
  = Py.Ok (word_prefix G).
Proof. intros HG. split_elem HG; vm_compute; reflexivity. Qed.

Lemma field_age G N cc S D bp t :
  G ∈ ["Male"; "Female"; "Non-binary"] ->
  N <> EmptyString -> string_forall Py.is_digit N = true ->
  Facts.search_group1 Facts.re_age (facts_text G N cc S D bp t) = Py.Ok N.
Proof.
  intros HG Hne HN. unfold Facts.re_age.
  split_elem HG.
  all: match goal with
       | |- context [facts_text ?G _ _ _ _ _ _] =>
           change (facts_text G N cc S D bp t)
             with (("- gender: " +:+ G +:+ nl +:+ "- ")
                   +:+ "age:" +:+ " " +:+ N +:+ nl
                   +:+ "- chief complaint: " +:+ String Py.dquote (cc +:+ String Py.dquote (nl
                   +:+ "- smoker: " +:+ S +:+ ", drinker: " +:+ D +:+ ", BP: " +:+ bp +:+ t)))
       end.
  all: skip_text.
  all: apply capture_run; [exact Hne | exact HN | exact (digits_stop_space N HN) | reflexivity].
Qed.

Lemma field_cc G N cc S D bp t :
  G ∈ ["Male"; "Female"; "Non-binary"] ->
  string_forall Py.is_digit N = true ->
  cc <> EmptyString -> Py.has_char Py.dquote cc = false ->
  Facts.search_group1 Facts.re_cc (facts_text G N cc S D bp t) = Py.Ok cc.
Proof.
  intros HG HN Hne Hq. unfold Facts.re_cc.
  split_elem HG.
  all: match goal with
       | |- context [facts_text ?G _ _ _ _ _ _] =>
           change (facts_text G N cc S D bp t)
             with (("- gender: " +:+ G +:+ nl +:+ "- age: ")
                   +:+ N +:+ (nl +:+ "- ")
                   +:+ "chief complaint:" +:+ " " +:+ String Py.dquote (cc +:+ String Py.dquote (nl
                   +:+ "- smoker: " +:+ S +:+ ", drinker: " +:+ D +:+ ", BP: " +:+ bp +:+ t)))
       end.
  all: skip_text; skip_digits HN; skip_text.
  all: apply capture_quoted; assumption.
Qed.

Lemma field_smoker G N cc S D bp t :
  G ∈ ["Male"; "Female"; "Non-binary"] ->
  string_forall Py.is_digit N = true ->
  mentions "smoker:" cc = false ->
  S ∈ ["Yes"; "No"] ->
  Facts.search_group1 Facts.re_smoker (facts_text G N cc S D bp t) = Py.Ok S.
Proof.
  intros HG HN Hcc HS. unfold Facts.re_smoker.
  split_elem HG.
  all: match goal with
       | |- context [facts_text ?G _ _ _ _ _ _] =>
           change (facts_text G N cc S D bp t)
             with (("- gender: " +:+ G +:+ nl +:+ "- age: ")
                   +:+ N +:+ (nl +:+ "- chief complaint: " +:+ String Py.dquote EmptyString)
                   +:+ cc +:+ String Py.dquote ((nl +:+ "- ")
                   +:+ "smoker: " +:+ S +:+ ", drinker: " +:+ D +:+ ", BP: " +:+ bp +:+ t))
       end.
  all: skip_text; skip_digits HN; skip_text.
  all: rewrite search_group1_skip_guarded by first [exact Hcc | vm_compute; reflexivity].
  all: skip_text.
  all: split_elem HS; vm_compute; reflexivity.
Qed.

Lemma field_drinker G N cc S D bp t :
  G ∈ ["Male"; "Female"; "Non-binary"] ->
  string_forall Py.is_digit N = true ->
  mentions "drinker:" cc = false ->
  S ∈ ["Yes"; "No"] -> D ∈ ["Yes"; "No"] ->
  Facts.search_group1 Facts.re_drinker (facts_text G N cc S D bp t) = Py.Ok D.
Proof.
  intros HG HN Hcc HS HD. unfold Facts.re_drinker.
  split_elem HG; split_elem HS.
  all: match goal with
       | |- context [facts_text ?G _ _ ?S _ _ _] =>
           change (facts_text G N cc S D bp t)
             with (("- gender: " +:+ G +:+ nl +:+ "- age: ")
                   +:+ N +:+ (nl +:+ "- chief complaint: " +:+ String Py.dquote EmptyString)
                   +:+ cc +:+ String Py.dquote ((nl +:+ "- smoker: " +:+ S +:+ ", ")
                   +:+ "drinker: " +:+ D +:+ ", BP: " +:+ bp +:+ t))
       end.
  all: skip_text; skip_digits HN; skip_text.
  all: rewrite search_group1_skip_guarded by first [exact Hcc | vm_compute; reflexivity].
  all: skip_text.
  all: split_elem HD; vm_compute; reflexivity.
Qed.

Lemma field_bp G N cc S D bp t :
  G ∈ ["Male"; "Female"; "Non-binary"] ->
  string_forall Py.is_digit N = true ->
  mentions "BP:" cc = false ->
  S ∈ ["Yes"; "No"] -> D ∈ ["Yes"; "No"] ->
  bp <> EmptyString ->
  string_forall (fun c => Py.is_digit c || Ascii.eqb c "/") bp = true ->
  stops Py.isspace bp = true ->
  stops (fun c => Py.is_digit c || Ascii.eqb c "/") t = true ->
  Facts.search_group1 Facts.re_bp (facts_text G N cc S D bp t) = Py.Ok bp.
Proof.
  intros HG HN Hcc HS HD Hne Hbp Hsp Ht. unfold Facts.re_bp.
  split_elem HG; split_elem HS; split_elem HD.
  all: match goal with
       | |- context [facts_text ?G _ _ ?S ?D _ _] =>
           change (facts_text G N cc S D bp t)
             with (("- gender: " +:+ G +:+ nl +:+ "- age: ")
                   +:+ N +:+ (nl +:+ "- chief complaint: " +:+ String Py.dquote EmptyString)
                   +:+ cc +:+ String Py.dquote
                         ((nl +:+ "- smoker: " +:+ S +:+ ", drinker: " +:+ D +:+ ", ")
                   +:+ "BP:" +:+ " " +:+ bp +:+ t))
       end.
  all: skip_text; skip_digits HN; skip_text.
  all: rewrite search_group1_skip_guarded by first [exact Hcc | vm_compute; reflexivity].
  all: skip_text.
  all: apply capture_run; assumption.
Qed.

Lemma string_forall_app p a b :
  string_forall p (a +:+ b) = string_forall p a && string_forall p b.
Proof.
  induction a as [|c a IH]; [reflexivity|].
  rewrite string_app_cons. cbn [string_forall]. rewrite IH, andb_assoc. reflexivity.
Qed.

Lemma blood_pressure_text systolic diastolic :
  (0 <= systolic)%Z -> (0 <= diastolic)%Z ->
  let bp := Py.str_of_int systolic +:+ "/" +:+ Py.str_of_int diastolic in
  bp <> EmptyString
  /\ string_forall (fun c => Py.is_digit c || Ascii.eqb c "/") bp = true
  /\ stops Py.isspace bp = true.
Proof.
  intros Hs Hd bp. subst bp.
  destruct (str_of_int_digits systolic Hs) as [Hne Hds].
  destruct (str_of_int_digits diastolic Hd) as [_ Hdd].
  assert (Hcls : forall s, string_forall Py.is_digit s = true ->
            string_forall (fun c => Py.is_digit c || Ascii.eqb c "/") s = true).
  { intros s. apply string_forall_impl. intros c ->. reflexivity. }
  destruct (Py.str_of_int systolic) as [|c s]; [contradiction|].
  split; [discriminate|]. split.
  - rewrite !string_forall_app, (Hcls _ Hds), (Hcls _ Hdd). reflexivity.
  - apply (digits_stop_space (String c s)) in Hds. exact Hds.
Qed.

Lemma facts_of_prompt_tx cfg cc r :
  row_in_range cc r -> plain_complaint (GenerateTranscriptionsBatch.chief_complaint r) ->
  Facts.facts_of (GenerateTranscriptionsBatch.prompt_tx cfg r) = Py.Ok (facts_of_row r).
Proof.
  intros (HG & Hage & HS & HD & _ & systolic & diastolic & Hs & Hd & Hbp)
         (Hne & Hq & Hms & Hmd & Hmb).
  destruct (str_of_int_digits (GenerateTranscriptionsBatch.age r)) as [HNne HN]; [lia|].
  destruct (blood_pressure_text systolic diastolic) as (Hbne & Hbcls & Hbsp); [lia | lia |].
  rewrite <- Hbp in Hbne, Hbcls, Hbsp.
  rewrite prompt_tx_pieces. unfold Facts.facts_of.
  unfold Facts.re_gender at 1, Facts.re_age at 1, Facts.re_smoker at 1,
    Facts.re_drinker at 1, Facts.re_bp at 1, Facts.re_cc at 1.
  rewrite !skip_head by first [reflexivity | apply (bool_decide_unpack _); vm_compute; reflexivity].
  fold Facts.re_gender Facts.re_age Facts.re_smoker Facts.re_drinker Facts.re_bp Facts.re_cc.
  rewrite field_gender by exact HG. cbn [Py.bind Py.Ok].
  rewrite field_age by assumption. cbn [Py.bind Py.Ok].
  rewrite field_smoker by assumption. cbn [Py.bind Py.Ok].
  rewrite field_drinker by assumption. cbn [Py.bind Py.Ok].
  rewrite field_bp by (try assumption; reflexivity). cbn [Py.bind Py.Ok].
  rewrite field_cc by assumption. reflexivity.
Qed.

Lemma dict_set_new {V} (d : PyDict.dict V) k v :
  k ∉ PyDict.keys d -> PyDict.set d k v = d ++ [(k, v)].
Proof.
  induction d as [|[k0 v0] d IH]; intros Hk; [reflexivity|].
  cbn [PyDict.keys map fst] in Hk. apply not_elem_of_cons in Hk as [Hne Hk].
  cbn [PyDict.set]. destruct (String.eqb_spec k0 k) as [->|_]; [contradiction|].
  rewrite IH by exact Hk. reflexivity.
Qed.

Lemma load_facts_rows cfg cc df : forall facts_map,
  Forall (readable cc) df ->
  NoDup (map GenerateTranscriptionsBatch.row_id df) ->
  (forall r, r ∈ df -> GenerateTranscriptionsBatch.row_id r ∉ PyDict.keys facts_map) ->
  GenerateSoapNotes.load_facts
    (GenerateTranscriptionsBatch.batch_input (GenerateTranscriptionsBatch.prompt_tx cfg) df)
    facts_map
  = Py.Ok (facts_map
           ++ map (fun r => (GenerateTranscriptionsBatch.row_id r, facts_of_row r)) df).
Proof.
  induction df as [|r df IH]; intros facts_map Hall Hnd Hnew.
  - cbn. rewrite app_nil_r. reflexivity.
  - apply Forall_cons in Hall as [[Hr Hcc] Hall].
    cbn [map] in Hnd. apply NoDup_cons in Hnd as [Hr' Hnd].
    cbn [GenerateTranscriptionsBatch.batch_input map GenerateSoapNotes.load_facts
         Batch.req_id Batch.req_prompt].
    unfold GenerateSoapNotes.parse_facts.
    rewrite (facts_of_prompt_tx cfg cc r Hr Hcc). cbn [Py.bind Py.Ok].
    rewrite dict_set_new by (apply Hnew, elem_of_cons; left; reflexivity).
    change (GenerateSoapNotes.load_facts
              (GenerateTranscriptionsBatch.batch_input
                 (GenerateTranscriptionsBatch.prompt_tx cfg) df)
              (facts_map ++ [(GenerateTranscriptionsBatch.row_id r, facts_of_row r)])
            = Py.Ok (facts_map ++ (GenerateTranscriptionsBatch.row_id r, facts_of_row r)
                       :: map (fun r => (GenerateTranscriptionsBatch.row_id r, facts_of_row r)) df)).
    rewrite IH; [rewrite <- app_assoc; reflexivity | exact Hall | exact Hnd |].
    intros r0 Hr0. unfold PyDict.keys. rewrite fmap_app, not_elem_of_app. split.
    + apply Hnew, elem_of_cons. right. exact Hr0.
    + cbn. rewrite list_elem_of_singleton. intros E. apply Hr'. rewrite <- E.
      apply list_elem_of_fmap. exists r0. split; [reflexivity | exact Hr0].
Qed.

Lemma request_record_of_row cid cc r :
  row_in_range cc r ->
  MergeSoapClean.request_record cid (facts_of_row r)
  = Py.Ok (PyDict.set (record_of_row r) "row_id" (Py.JStr cid)).
Proof.
  intros (_ & Hage & _). unfold MergeSoapClean.request_record, facts_of_row.
  unfold PyDict.getitem. cbn [PyDict.get String.eqb Ascii.eqb Bool.eqb Py.bind Py.Ok].
  rewrite int_of_str_of_int by lia. reflexivity.
Qed.

Lemma load_requests_rows cfg cc df : forall req_facts,
  Forall (readable cc) df ->
  NoDup (map GenerateTranscriptionsBatch.row_id df) ->
  (forall r, r ∈ df -> GenerateTranscriptionsBatch.row_id r ∉ PyDict.keys req_facts) ->
  MergeSoapClean.load_requests
    (GenerateTranscriptionsBatch.batch_input (GenerateTranscriptionsBatch.prompt_tx cfg) df)
    req_facts
  = Py.Ok (req_facts
           ++ map (fun r => (GenerateTranscriptionsBatch.row_id r, record_of_row r)) df).
Proof.
  induction df as [|r df IH]; intros req_facts Hall Hnd Hnew.
  - cbn. rewrite app_nil_r. reflexivity.
  - apply Forall_cons in Hall as [[Hr Hcc] Hall].
    cbn [map] in Hnd. apply NoDup_cons in Hnd as [Hr' Hnd].
    cbn [GenerateTranscriptionsBatch.batch_input map MergeSoapClean.load_requests
         Batch.req_id Batch.req_prompt].
    unfold MergeSoapClean.extract_facts.
    rewrite (facts_of_prompt_tx cfg cc r Hr Hcc). cbn [Py.bind Py.Ok].
    rewrite (request_record_of_row _ cc r Hr). cbn [Py.bind Py.Ok].
    change (PyDict.set (record_of_row r) "row_id"
              (Py.JStr (GenerateTranscriptionsBatch.row_id r)))
      with (record_of_row r).
    rewrite dict_set_new by (apply Hnew, elem_of_cons; left; reflexivity).
    change (MergeSoapClean.load_requests
              (GenerateTranscriptionsBatch.batch_input
                 (GenerateTranscriptionsBatch.prompt_tx cfg) df)
              (req_facts ++ [(GenerateTranscriptionsBatch.row_id r, record_of_row r)])
            = Py.Ok (req_facts ++ (GenerateTranscriptionsBatch.row_id r, record_of_row r)
                       :: map (fun r => (GenerateTranscriptionsBatch.row_id r, record_of_row r)) df)).
    rewrite IH; [rewrite <- app_assoc; reflexivity | exact Hall | exact Hnd |].
    intros r0 Hr0. unfold PyDict.keys. rewrite fmap_app, not_elem_of_app. split.
    + apply Hnew, elem_of_cons. right. exact Hr0.
    + cbn. rewrite list_elem_of_singleton. intros E. apply Hr'. rewrite <- E.
      apply list_elem_of_fmap. exists r0. split; [reflexivity | exact Hr0].
Qed.

(** ** From the rows to the prompts and back *)

Section FactsRoundTrip.

Variable rng : Type.
Variable next : rng -> nat * rng.
Variable BASE_CC : list string.

Local Abbreviation build_rows := (GenerateTranscriptionsBatch.build_rows rng next BASE_CC).

Lemma build_rows_readable cfg n g :
  BASE_CC <> [] -> Forall plain_complaint BASE_CC ->
  exists rows g',
    build_rows cfg n g = Py.Ok (rows, g')
    /\ Forall (readable BASE_CC) rows
    /\ NoDup (map GenerateTranscriptionsBatch.row_id rows).
Proof.
  intros Hcc Hplain.
  destruct (build_rows_ok rng next BASE_CC cfg n g Hcc) as (rows & g' & Hrun & Hids).
  exists rows, g'. split; [exact Hrun|]. split.
  - unfold GenerateTranscriptionsBatch.build_rows in Hrun.
    pose proof (rows_loop_range rng next BASE_CC _ _ _ _ _ Hrun (Forall_nil_2 _)) as Hall.
    eapply Forall_impl; [exact Hall|]. intros r Hr. split; [exact Hr|].
    destruct Hr as (_ & _ & _ & _ & Hin & _).
    rewrite Forall_forall in Hplain. apply Hplain, Hin.
  - rewrite Hids. apply NoDup_row_ids.
Qed.

(** The facts that generate_transcriptions_batch.py writes into its
    prompts are the facts generate_soap_notes.py reads back from
    batch_input.jsonl, save for one: when no complaint of
    chief_complaints.json is empty or holds a double quote or one of the
    labels smoker:, drinker:, BP:, the loader raises nothing and gives every
    row id the age, smoker, drinker, blood pressure and complaint of its
    row; the gender it gives is the row's up to its first character that is
    no word character, so a Non-binary row is read back as Non. *)
Theorem soap_stage_reads_the_rows_back cfg n g :
  BASE_CC <> [] -> Forall plain_complaint BASE_CC ->
  exists rows g',
    build_rows cfg n g = Py.Ok (rows, g')
    /\ GenerateSoapNotes.load_facts
         (GenerateTranscriptionsBatch.batch_input
            (GenerateTranscriptionsBatch.prompt_tx cfg) rows) PyDict.empty
       = Py.Ok (map (fun r => (GenerateTranscriptionsBatch.row_id r, facts_of_row r)) rows)
    /\ (forall r, r ∈ rows ->
          GenerateTranscriptionsBatch.gender r = "Non-binary" ->
          PyDict.get (facts_of_row r) "gender" = Some "Non").
Proof.
  intros Hcc Hplain.
  destruct (build_rows_readable cfg n g Hcc Hplain) as (rows & g' & Hrun & Hall & Hnd).
  exists rows, g'. split; [exact Hrun|]. split.
  - apply (load_facts_rows cfg BASE_CC rows PyDict.empty Hall Hnd).
    intros r _. apply not_elem_of_nil.
  - intros r _ E. unfold facts_of_row. rewrite E. reflexivity.
Qed.

(** The same for merge_soap_clean.py, which also turns the age back into
    a number: its table of requests holds, for every row and in the order
    of the rows, the row itself with the gender cut at its first character
    that is no word character. The demographic columns of the merged
    dataset are those generated, but Non-binary has become Non. *)
Theorem merge_stage_reads_the_rows_back cfg n g :
  BASE_CC <> [] -> Forall plain_complaint BASE_CC ->
  exists rows g',
    build_rows cfg n g = Py.Ok (rows, g')
    /\ MergeSoapClean.load_requests
         (GenerateTranscriptionsBatch.batch_input
            (GenerateTranscriptionsBatch.prompt_tx cfg) rows) PyDict.empty
       = Py.Ok (map (fun r => (GenerateTranscriptionsBatch.row_id r, record_of_row r)) rows)
    /\ (forall r, r ∈ rows ->
          GenerateTranscriptionsBatch.gender r = "Non-binary" ->
          PyDict.get (record_of_row r) "gender" = Some (Py.JStr "Non")).
Proof.
  intros Hcc Hplain.
  destruct (build_rows_readable cfg n g Hcc Hplain) as (rows & g' & Hrun & Hall & Hnd).
  exists rows, g'. split; [exact Hrun|]. split.
  - apply (load_requests_rows cfg BASE_CC rows PyDict.empty Hall Hnd).
    intros r _. apply not_elem_of_nil.
  - intros r _ E. unfold record_of_row. cbn [PyDict.get String.eqb Ascii.eqb Bool.eqb].
    rewrite E. reflexivity.
Qed.

End FactsRoundTrip.

Lemma sample_complaints_plain : Forall plain_complaint ["cough"; "lower back pain"].
Proof.
  apply Forall_cons. split; [|apply Forall_cons; split; [|apply Forall_nil_2]].
  all: split; [discriminate | repeat split; vm_compute; reflexivity].
Qed.

Lemma soap_stage_reads_the_rows_back_witness :
  ["cough"; "lower back pain"] <> []
  /\ Forall plain_complaint ["cough"; "lower back pain"]
  /\ exists rows g',
       GenerateTranscriptionsBatch.build_rows nat counting ["cough"; "lower back pain"]
         small_config 3 0 = Py.Ok (rows, g')
       /\ GenerateSoapNotes.load_facts
            (GenerateTranscriptionsBatch.batch_input
               (GenerateTranscriptionsBatch.prompt_tx small_config) rows) PyDict.empty
          = Py.Ok (map (fun r => (GenerateTranscriptionsBatch.row_id r, facts_of_row r)) rows).
Proof.
  assert (H : ["cough"; "lower back pain"] <> []) by discriminate.
  split; [exact H|]. split; [exact sample_complaints_plain|].
  destruct (soap_stage_reads_the_rows_back nat counting ["cough"; "lower back pain"]
              small_config 3 0 H sample_complaints_plain)
    as (rows & g' & Hrun & Hload & _).
  exists rows, g'. split; [exact Hrun | exact Hload].
Defined.

Lemma merge_stage_reads_the_rows_back_witness :
  ["cough"; "lower back pain"] <> []
  /\ Forall plain_complaint ["cough"; "lower back pain"]
  /\ exists rows g',
       GenerateTranscriptionsBatch.build_rows nat counting ["cough"; "lower back pain"]
         small_config 3 0 = Py.Ok (rows, g')
       /\ MergeSoapClean.load_requests
            (GenerateTranscriptionsBatch.batch_input
               (GenerateTranscriptionsBatch.prompt_tx small_config) rows) PyDict.empty
          = Py.Ok (map (fun r => (GenerateTranscriptionsBatch.row_id r, record_of_row r)) rows).
Proof.
  assert (H : ["cough"; "lower back pain"] <> []) by discriminate.
  split; [exact H|]. split; [exact sample_complaints_plain|].
  destruct (merge_stage_reads_the_rows_back nat counting ["cough"; "lower back pain"]
              small_config 3 0 H sample_complaints_plain)
    as (rows & g' & Hrun & Hload & _).
  exists rows, g'. split; [exact Hrun | exact Hload].
Defined.

(** ** The span [clean_json] returns *)

Lemma lstrip_app_stop a x t :
  Py.isspace x = false -> Py.lstrip (a +:+ String x t) = Py.lstrip a +:+ String x t.
Proof.
  intros Hx. induction a as [|c a IH].
  - change (EmptyString +:+ String x t) with (String x t). cbn [Py.lstrip]. rewrite Hx. reflexivity.
  - rewrite string_app_cons. cbn [Py.lstrip]. destruct (Py.isspace c); [exact IH | reflexivity].
Qed.

Lemma rstrip_cons_stop x c :
  Py.isspace x = false -> Py.rstrip (String x c) = String x (Py.rstrip c).
Proof. intros Hx. cbn [Py.rstrip]. destruct (Py.rstrip c); [rewrite Hx|]; reflexivity. Qed.

Lemma rstrip_app_stop s x c :
  Py.isspace x = false -> Py.rstrip (s +:+ String x c) = s +:+ String x (Py.rstrip c).
Proof.
  intros Hx. induction s as [|c0 s IH].
  - apply rstrip_cons_stop, Hx.
  - rewrite !string_app_cons. cbn [Py.rstrip]. rewrite IH.
    destruct s; reflexivity.
Qed.

Lemma first_array_cons :
  GenerateComplaints.first_array
  = Re.Chr (Ascii.eqb "[") :: Re.Star Re.any :: Re.lit "]".
Proof. reflexivity. Qed.

Lemma search_skip_no_bracket a : forall t pos,
  Py.has_char "[" a = false ->
  Re.search_from GenerateComplaints.first_array pos (a +:+ t)
  = Re.search_from GenerateComplaints.first_array (String.length a + pos) t.
Proof.
  induction a as [|c a IH]; intros t pos H; [reflexivity|].
  cbn [Py.has_char] in H. apply orb_false_iff in H as [Hc H].
  rewrite string_app_cons. cbn [Re.search_from].
  rewrite first_array_cons at 1. rewrite exec_chr, Ascii.eqb_sym, Hc.
  rewrite IH by exact H. f_equal. cbn [String.length]. lia.
Qed.

Lemma star_any_no_close c : forall pos g,
  Py.has_char "]" c = false ->
  Re.exec (Re.Star Re.any :: Re.lit "]") pos c g = None.
Proof.
  induction c as [|x c IH]; intros pos g H; [reflexivity|].
  cbn [Py.has_char] in H. apply orb_false_iff in H as [Hx H].
  rewrite exec_star_cons. cbn [Re.any]. rewrite IH by exact H.
  change (Re.lit "]") with [Re.Chr (Ascii.eqb "]")].
  rewrite exec_chr, Ascii.eqb_sym, Hx. reflexivity.
Qed.

Lemma star_any_last_close b c : forall pos g,
  Py.has_char "]" c = false ->
  Re.exec (Re.Star Re.any :: Re.lit "]") pos (b +:+ String "]" c) g
  = Some (S (String.length b + pos), g).
Proof.
  intros pos g Hc. revert pos. induction b as [|x b IH]; intros pos.
  - change (EmptyString +:+ String "]" c) with (String "]" c).
    rewrite exec_star_cons. cbn [Re.any]. rewrite star_any_no_close by exact Hc.
    reflexivity.
  - rewrite string_app_cons, exec_star_cons. cbn [Re.any]. rewrite IH.
    f_equal. f_equal. cbn [String.length]. lia.
Qed.

(** [clean_json] does not keep the first bracketed array it finds: on a
    content without fence it returns the text from the first opening
    bracket to the last closing bracket, whatever stands between them, so
    two arrays with prose between come back as one text. *)
Theorem clean_json_first_open_to_last_close a b c :
  Py.has_char "[" a = false -> Py.has_char "]" c = false ->
  Py.startswith (Py.strip (a +:+ "[" +:+ b +:+ "]" +:+ c)) "```" = false ->
  GenerateComplaints.clean_json (a +:+ "[" +:+ b +:+ "]" +:+ c) = "[" +:+ b +:+ "]".
Proof.
  change (a +:+ "[" +:+ b +:+ "]" +:+ c) with (a +:+ String "[" (b +:+ String "]" c)).
  change ("[" +:+ b +:+ "]") with (String "[" (b +:+ "]")).
  intros Ha Hc Hfence. unfold GenerateComplaints.clean_json. cbv zeta. rewrite Hfence.
  unfold Py.strip in *. rewrite lstrip_app_stop by reflexivity.
  change (Py.lstrip a +:+ String "[" (b +:+ String "]" c))
    with (Py.lstrip a +:+ (String "[" b) +:+ String "]" c).
  rewrite <- string_app_assoc, rstrip_app_stop by reflexivity.
  rewrite string_app_assoc.
  unfold Re.re_search.
  rewrite search_skip_no_bracket by (apply lstrip_has_char, Ha).
  erewrite search_hit.
  2:{ rewrite first_array_cons, string_app_cons, exec_chr. cbn [Ascii.eqb Bool.eqb].
      apply star_any_last_close, rstrip_has_char, Hc. }
  unfold Re.group0, Re.slice. cbn [Re.m_start Re.m_end fst snd].
  rewrite substring_skip.
  replace (_ - _) with (String.length (String "[" b +:+ "]"))
    by (rewrite string_app_length; cbn [String.length]; lia).
  change (String "[" b +:+ String "]" (Py.rstrip c))
    with (String "[" b +:+ "]" +:+ Py.rstrip c).
  rewrite <- string_app_assoc. apply substring_prefix.
Qed.

Lemma clean_json_first_open_to_last_close_witness :
  GenerateComplaints.clean_json "Either [1, 2] or [3, 4], as you like." = "[1, 2] or [3, 4]".
Proof.
  apply (clean_json_first_open_to_last_close "Either " "1, 2] or [3, 4" ", as you like.");
    reflexivity.
Defined.

(** ** The text the transcript loader keeps *)

Lemma exec_lit L rest : forall s pos g,
  Re.exec (Re.lit L ++ rest) pos (L +:+ s) g = Re.exec rest (String.length L + pos) s g.
Proof.
  induction L as [|x L IH]; intros s pos g; [reflexivity|].
  change (Re.lit (String x L) ++ rest) with (Re.Chr (Ascii.eqb x) :: (Re.lit L ++ rest)).
  rewrite string_app_cons, exec_chr, Ascii.eqb_refl, IH.
  f_equal. cbn [String.length]. lia.
Qed.

Lemma star_any_no_brace c : forall pos g,
  Py.has_char "}" c = false ->
  Re.exec (Re.Star Re.any :: tx_close) pos c g = None.
Proof.
  induction c as [|x c IH]; intros pos g H; [reflexivity|].
  cbn [Py.has_char] in H. apply orb_false_iff in H as [Hx H].
  rewrite exec_star_cons. cbn [Re.any]. rewrite IH by exact H.
  unfold tx_close. rewrite exec_group_close, exec_chr.
  destruct (Ascii.eqb Py.dquote x); [|reflexivity].
  destruct c as [|y c]; [reflexivity|].
  cbn [Py.has_char] in H. apply orb_false_iff in H as [Hy _].
  rewrite exec_chr, Ascii.eqb_sym, Hy. reflexivity.
Qed.

Lemma star_any_last_quote tx c : forall pos g,
  Py.has_char "}" c = false ->
  Re.exec (Re.Star Re.any :: tx_close) pos (tx +:+ String Py.dquote (String "}" c)) g
  = Some (S (S (String.length tx + pos)),
          {| Re.g_open := Re.g_open g;
             Re.g_span := match Re.g_open g with
                          | Some o => Some (o, String.length tx + pos)
                          | None => Re.g_span g
                          end |}).
Proof.
  intros pos g Hc. revert pos. induction tx as [|x tx IH]; intros pos.
  - change (EmptyString +:+ String Py.dquote (String "}" c))
      with (String Py.dquote (String "}" c)).
    rewrite exec_star_cons. cbn [Re.any]. rewrite exec_star_cons. cbn [Re.any].
    rewrite star_any_no_brace by exact Hc. reflexivity.
  - rewrite string_app_cons, exec_star_cons. cbn [Re.any]. rewrite IH.
    replace (String.length tx + S pos) with (String.length (String x tx) + pos)
      by (cbn [String.length]; lia).
    reflexivity.
Qed.

Lemma grab_tx_raw ws1 ws2 tx c :
  string_forall Py.isspace ws1 = true -> string_forall Py.isspace ws2 = true ->
  Py.has_char "}" c = false ->
  exists m, Re.re_match GenerateSoapNotes.grab_tx (tx_answer ws1 ws2 tx c) = Some m
            /\ Re.group1 (tx_answer ws1 ws2 tx c) m = Some tx.
Proof.
  intros H1 H2 Hc. unfold Re.re_match, tx_answer.
  change GenerateSoapNotes.grab_tx
    with (Re.lit tx_open ++ Re.Star Py.isspace :: (Re.lit ":" ++ Re.Star Py.isspace
          :: Re.Chr (Ascii.eqb Py.dquote) :: Re.GroupOpen :: Re.Star Re.any :: tx_close)).
  rewrite exec_lit.
  erewrite (exec_star_run Py.isspace _ ws1); [| exact H1 | reflexivity |].
  2:{ rewrite exec_lit.
      apply (exec_star_run Py.isspace _ ws2); [exact H2 | reflexivity |].
      rewrite exec_chr. change (Ascii.eqb Py.dquote Py.dquote) with true. cbv iota.
      rewrite exec_group_open. apply star_any_last_quote, Hc. }
  eexists. split; [reflexivity|].
  unfold Re.group1. cbn [Re.m_group1 Re.g_span Re.g_open fmap option_fmap option_map].
  f_equal. unfold Re.slice. cbn [fst snd].
  change (tx_open +:+ ws1 +:+ ":" +:+ ws2 +:+ String Py.dquote (tx +:+ String Py.dquote (String "}" c)))
    with (tx_open +:+ ws1 +:+ ":" +:+ ws2 +:+ String Py.dquote EmptyString +:+ tx +:+ String Py.dquote (String "}" c)).
  rewrite <- !string_app_assoc. rewrite (string_app_assoc _ tx).
  match goal with
  | |- String.substring ?o _ (?pre +:+ _) = _ =>
      replace o with (String.length pre + 0)
        by (rewrite !string_app_length; cbn [String.length]; lia)
  end.
  rewrite substring_skip.
  replace (_ - _) with (String.length tx) by lia.
  apply substring_prefix.
Qed.

(** The transcript loader does not decode the answer: from an answer
    that is the object alone it stores the text between the quote after the
    colon and the last quote that a closing brace follows, as it stands.
    Escaped quotes and escaped line breaks keep their backslashes, and a
    quote before a brace inside the text does not end it. *)
Theorem load_transcriptions_keeps_raw_text
    (j : Batch.response_line) (lines : list Batch.response_line)
    (tx_map : PyDict.dict string) (ws1 ws2 tx c : string) :
  Batch.status_code j = 200%Z ->
  Batch.content j = tx_answer ws1 ws2 tx c ->
  string_forall Py.isspace ws1 = true -> string_forall Py.isspace ws2 = true ->
  Py.has_char "}" c = false ->
  GenerateSoapNotes.load_transcriptions (j :: lines) tx_map
  = GenerateSoapNotes.load_transcriptions lines (PyDict.set tx_map (Batch.custom_id j) tx).
Proof.
  intros Hs Hcontent H1 H2 Hc. cbn [GenerateSoapNotes.load_transcriptions].
  rewrite Hs, Hcontent. change (200 =? 200)%Z with true. cbv iota.
  destruct (grab_tx_raw ws1 ws2 tx c H1 H2 Hc) as (m & -> & ->). reflexivity.
Qed.

Lemma load_transcriptions_keeps_raw_text_witness :
  GenerateSoapNotes.load_transcriptions
    [{| Batch.custom_id := "row0001"; Batch.status_code := 200;
        Batch.content := tx_answer "" " " escaped_text (String Py.newline EmptyString) |}]
    PyDict.empty
  = Py.Ok [("row0001", escaped_text)].
Proof.
  rewrite (load_transcriptions_keeps_raw_text _ [] PyDict.empty "" " " escaped_text
             (String Py.newline EmptyString)); reflexivity.
Defined.

(** ** A SOAP answer the final merge cannot use *)

Section MasterMergeStops.

Variable json_loads : string -> Py.result Py.json.

(** The final merge of generate_soap_notes.py stops at the first
    successful line whose record it cannot build, with that line's
    exception: KeyError with the id when the id has no facts. The records
    of the lines before are already in the output file, and no line after
    is read. *)
Theorem merge_master_stops_at_first_failure
    (pre post : list Batch.response_line) (j : Batch.response_line)
    (facts_map : PyDict.dict (PyDict.dict string)) (tx_map : PyDict.dict string)
    (e : Py.exn) :
  Forall (answered json_loads facts_map tx_map) pre ->
  Batch.status_code j = 200%Z ->
  GenerateSoapNotes.master_line json_loads facts_map tx_map j = Py.Raise e ->
  exists merged : list (string * PyDict.dict Py.json),
    GenerateSoapNotes.merge_master json_loads (pre ++ j :: post) facts_map tx_map
    = (merged, Some e)
    /\ merged.*1 = map Batch.custom_id (List.filter succeeded pre)
    /\ (forall soap, json_loads (Batch.content j) = Py.Ok soap ->
          PyDict.get facts_map (Batch.custom_id j) = None ->
          e = Py.KeyError (Batch.custom_id j)).
Proof.
  intros Hpre Hs Hj. induction pre as [|p pre IH].
  - exists []. cbn [app GenerateSoapNotes.merge_master].
    rewrite Hs. change (200 =? 200)%Z with true. cbv iota.
    unfold Py.Raise in Hj. rewrite Hj. split; [reflexivity|]. split; [reflexivity|].
    intros soap Hsoap Hnone. unfold GenerateSoapNotes.master_line, PyDict.getitem in Hj.
    rewrite Hsoap, Hnone in Hj. cbn [Py.bind Py.Ok Py.Raise] in Hj. congruence.
  - apply Forall_cons in Hpre as [Hp Hpre].
    destruct (IH Hpre) as (merged & Hrun & Hids & Hkey).
    cbn [app GenerateSoapNotes.merge_master List.filter]. unfold succeeded at 1.
    destruct (Z.eqb_spec (Batch.status_code p) 200) as [Hps|Hps].
    + destruct (Hp Hps) as (facts & tx & soap & Hf & Ht & Hl).
      unfold GenerateSoapNotes.master_line at 1. unfold PyDict.getitem.
      rewrite Hl, Hf, Ht. cbn [Py.bind Py.Ok]. rewrite Hrun.
      eexists. split; [reflexivity|]. split; [|exact Hkey].
      cbn [fmap list_fmap map fst]. f_equal. exact Hids.
    + exists merged. split; [exact Hrun|]. split; [exact Hids | exact Hkey].
Qed.

End MasterMergeStops.

Lemma merge_master_stops_at_first_failure_witness :
  exists merged : list (string * PyDict.dict Py.json),
    GenerateSoapNotes.merge_master loads_soap_answer
      [soap_line "A" 200; soap_line "Z" 200; soap_line "B" 200]
      [("A", sample_facts); ("B", sample_facts)]
      [("A", "Good morning."); ("B", "Good morning.")]
    = (merged, Some (Py.KeyError "Z"))
    /\ merged.*1 = ["A"].
Proof.
  assert (H : Forall (answered loads_soap_answer
            [("A", sample_facts); ("B", sample_facts)]
            [("A", "Good morning."); ("B", "Good morning.")])
    [soap_line "A" 200]).
  { apply Forall_cons. split; [|apply Forall_nil_2].
    intros _. exists sample_facts, "Good morning.", [("plan", Py.JStr "Rest.")].
    repeat split. }
  destruct (merge_master_stops_at_first_failure loads_soap_answer
              [soap_line "A" 200] [soap_line "B" 200] (soap_line "Z" 200)
              [("A", sample_facts); ("B", sample_facts)]
              [("A", "Good morning."); ("B", "Good morning.")]
              (Py.KeyError "Z") H eq_refl eq_refl)
    as (merged & Hrun & Hids & _).
  exists merged. split; [exact Hrun | exact Hids].
Defined.

(** ** The request ids of the augmentation stage are distinct *)

Section AugmentIdsDistinct.

Variable prompt_of : string -> Py.json -> string -> string.

Lemma requests_of_section_split cid label text :
  Py.has_char "_" cid = false -> Py.has_char "_" label = false ->
  map (fun r => GenerateSoapSections.split_custom_id (Batch.req_id r))
    (GenerateSoapSections.requests_of_section prompt_of cid label text)
  = map Py.Ok (triples_of [(cid, label)]).
Proof.
  intros Hcid Hlabel.
  unfold GenerateSoapSections.requests_of_section, triples_of,
    GenerateSoapSections.FORMAT_VARIANTS, GenerateSoapSections.split_custom_id.
  cbn [map flat_map fmap list_fmap fst snd app Batch.req_id].
  rewrite !split_composite_id by assumption. reflexivity.
Qed.

Lemma triples_of_app a b : triples_of (a ++ b) = triples_of a ++ triples_of b.
Proof. unfold triples_of. apply flat_map_app. Qed.

Lemma build_input_split sections : forall requests,
  plain_sections sections ->
  GenerateSoapSections.build_input prompt_of sections = Py.Ok requests ->
  map (fun r => GenerateSoapSections.split_custom_id (Batch.req_id r)) requests
  = map Py.Ok (triples_of (all_sections sections)).
Proof.
  induction sections as [|[cid soap] sections IH]; intros requests Hplain Hrun.
  - injection Hrun as <-. reflexivity.
  - apply Forall_cons in Hplain as [[Hcid Hlabels] Hplain].
    cbn [GenerateSoapSections.build_input] in Hrun.
    destruct soap as [| | | | |d]; try discriminate Hrun.
    cbn [GenerateSoapSections.requests_of_note Py.bind Py.Ok] in Hrun.
    destruct (GenerateSoapSections.build_input prompt_of sections) as [e|more] eqn:Hmore;
      [discriminate Hrun|].
    cbn [Py.bind Py.Ok] in Hrun. injection Hrun as <-.
    unfold all_sections. cbn [flat_map fst snd]. fold (all_sections sections).
    rewrite triples_of_app, !map_app, (IH more Hplain eq_refl). f_equal.
    specialize (Hlabels d eq_refl). cbn [fst snd] in *.
    clear -Hcid Hlabels. induction d as [|[label text] d IHd]; [reflexivity|].
    apply Forall_cons in Hlabels as [Hl Hlabels].
    cbn [flat_map map fst snd].
    change ((cid, label) :: map (fun lt => (cid, lt.1)) d)
      with ([(cid, label)] ++ map (fun lt => (cid, lt.1)) d).
    rewrite triples_of_app, !map_app, (IHd Hlabels).
    rewrite (requests_of_section_split cid label text Hcid Hl). reflexivity.
Qed.

Lemma triples_of_elem cid label slug pairs :
  (cid, label, slug) ∈ triples_of pairs -> (cid, label) ∈ pairs.
Proof.
  unfold triples_of. rewrite list_elem_of_In, in_flat_map.
  intros ([c l] & Hin & Hslug). apply in_map_iff in Hslug as (s & E & _).
  cbn [fst snd] in E. injection E as -> -> _. apply list_elem_of_In, Hin.
Qed.

Lemma triples_of_NoDup pairs : NoDup pairs -> NoDup (triples_of pairs).
Proof.
  induction pairs as [|[cid label] pairs IH]; intros Hnd; [apply NoDup_nil_2|].
  apply NoDup_cons in Hnd as [Hnew Hnd].
  change ((cid, label) :: pairs) with ([(cid, label)] ++ pairs).
  rewrite triples_of_app. apply NoDup_app. split; [|split; [|exact (IH Hnd)]].
  - unfold triples_of. cbn [flat_map fst snd]. rewrite app_nil_r.
    apply (NoDup_fmap_2_strong (fun slug => (cid, label, slug))).
    + intros x y _ _ E. injection E as ->. reflexivity.
    + apply (bool_decide_unpack _). vm_compute. reflexivity.
  - intros [[c l] s] Hin Hin'. apply triples_of_elem in Hin, Hin'.
    apply list_elem_of_singleton in Hin. injection Hin as -> ->. contradiction.
Qed.

Lemma all_sections_elem cid label sections :
  (cid, label) ∈ all_sections sections -> cid ∈ PyDict.keys sections.
Proof.
  unfold all_sections. rewrite list_elem_of_In, in_flat_map.
  intros ([c soap] & Hin & Hl). cbn [fst snd] in Hl.
  destruct soap as [| | | | |d]; try contradiction.
  apply in_map_iff in Hl as (lt & E & _). injection E as <- _.
  apply list_elem_of_fmap. exists (c, Py.JDict d). split; [reflexivity|].
  apply list_elem_of_In, Hin.
Qed.

Lemma all_sections_NoDup sections :
  PyDict.wf sections -> distinct_labels sections -> NoDup (all_sections sections).
Proof.
  unfold PyDict.wf. induction sections as [|[cid soap] sections IH]; intros Hwf Hlab;
    [apply NoDup_nil_2|].
  cbn [PyDict.keys map fst] in Hwf. apply NoDup_cons in Hwf as [Hnew Hwf].
  apply Forall_cons in Hlab as [Hd Hlab].
  unfold all_sections. cbn [flat_map fst snd]. fold (all_sections sections).
  apply NoDup_app. split; [|split; [|exact (IH Hwf Hlab)]].
  - destruct soap as [| | | | |d]; try apply NoDup_nil_2.
    specialize (Hd d eq_refl). cbn [snd] in Hd.
    rewrite <- (map_map fst (fun l => (cid, l))).
    apply (NoDup_fmap_2_strong (fun l => (cid, l))); [|exact Hd].
    intros x y _ _ E. injection E as ->. reflexivity.
  - intros [c l] Hin Hin'. apply all_sections_elem in Hin'.
    destruct soap as [| | | | |d]; try (apply elem_of_nil in Hin; contradiction).
    apply list_elem_of_fmap in Hin as (lt & E & _). injection E as -> _.
    contradiction.
Qed.

Lemma triples_of_length pairs : length (triples_of pairs) = 5 * length pairs.
Proof.
  induction pairs as [|cl pairs IH]; [reflexivity|].
  change (cl :: pairs) with ([cl] ++ pairs).
  rewrite triples_of_app, length_app, IH. cbn [length app]. unfold triples_of.
  cbn. lia.
Qed.

(** The augmentation stage writes five requests for every section of
    every loaded note, and no two of them carry the same correlation id,
    provided note ids and section labels hold no underscore and no note
    holds a label twice. *)
Theorem request_ids_distinct (sections : PyDict.dict Py.json)
    (requests : list Batch.request_line) :
  PyDict.wf sections -> distinct_labels sections -> plain_sections sections ->
  GenerateSoapSections.build_input prompt_of sections = Py.Ok requests ->
  NoDup (map Batch.req_id requests)
  /\ length requests = 5 * length (all_sections sections).
Proof.
  intros Hwf Hlab Hplain Hrun.
  pose proof (build_input_split sections requests Hplain Hrun) as Hsplit.
  split.
  - apply (NoDup_fmap_1 GenerateSoapSections.split_custom_id).
    change (NoDup (map GenerateSoapSections.split_custom_id (map Batch.req_id requests))).
    rewrite map_map, Hsplit.
    apply (NoDup_fmap_2_strong Py.Ok).
    + intros x y _ _ E. injection E as ->. reflexivity.
    + apply triples_of_NoDup, all_sections_NoDup; assumption.
  - transitivity (length (map Py.Ok (triples_of (all_sections sections)))).
    + rewrite <- Hsplit, length_map. reflexivity.
    + rewrite length_map. apply triples_of_length.
Qed.

End AugmentIdsDistinct.

Lemma request_ids_distinct_witness :
  PyDict.wf sample_sections /\ distinct_labels sample_sections
  /\ plain_sections sample_sections
  /\ exists requests,
       GenerateSoapSections.build_input plain_prompt sample_sections = Py.Ok requests
       /\ NoDup (map Batch.req_id requests)
       /\ length requests = 10.
Proof.
  assert (H1 : PyDict.wf sample_sections)
    by (apply (bool_decide_unpack _); vm_compute; reflexivity).
  assert (H2 : distinct_labels sample_sections).
  { apply Forall_cons. split; [|apply Forall_nil_2]. intros d [= <-].
    apply (bool_decide_unpack _). vm_compute. reflexivity. }
  split; [exact H1|]. split; [exact H2|]. split; [exact sample_sections_plain|].
  eexists. split; [vm_compute; reflexivity|].
  exact (request_ids_distinct plain_prompt sample_sections _ H1 H2
           sample_sections_plain eq_refl).
Defined.

(** ** The checkpoint files *)

Lemma checkpoints_ok_absorb cfg st r :
  checkpoints_ok cfg st -> checkpoints_ok cfg (GenerateTranscriptions.absorb st r).
Proof.
  intros (Hidx & Hle & Hfiles). unfold GenerateTranscriptions.absorb.
  destruct (decide _); [repeat split; assumption|].
  unfold checkpoints_ok. cbn [GenerateTranscriptions.rows GenerateTranscriptions.chunk_idx
    GenerateTranscriptions.checkpoints].
  split; [exact Hidx|]. split; [rewrite length_app; lia|].
  eapply Forall_impl; [exact Hfiles|]. intros f (Hlen & pre & post & E).
  split; [exact Hlen|]. exists pre, (post ++ [r]).
  rewrite E, <- !app_assoc. reflexivity.
Qed.

Lemma checkpoints_ok_gather cfg gathered : forall st,
  checkpoints_ok cfg st ->
  checkpoints_ok cfg (fold_left GenerateTranscriptions.absorb gathered st).
Proof.
  induction gathered as [|r gathered IH]; intros st H; [exact H|].
  cbn [fold_left]. apply IH, checkpoints_ok_absorb, H.
Qed.

Lemma checkpoints_ok_checkpoint cfg st :
  0 < GenerateTranscriptions.CHECKPOINT_ROWS cfg ->
  checkpoints_ok cfg st -> checkpoints_ok cfg (GenerateTranscriptions.checkpoint cfg st).
Proof.
  intros Hpos (Hidx & Hle & Hfiles). unfold GenerateTranscriptions.checkpoint.
  destruct (Nat.ltb_spec (GenerateTranscriptions.chunk_idx st)
              (length (GenerateTranscriptions.rows st)
               / GenerateTranscriptions.CHECKPOINT_ROWS cfg)) as [Hlt|_];
    [|repeat split; assumption].
  set (C := GenerateTranscriptions.CHECKPOINT_ROWS cfg) in *.
  set (l := GenerateTranscriptions.rows st) in *.
  assert (Hfull : S (GenerateTranscriptions.chunk_idx st) * C <= length l).
  { pose proof (Nat.Div0.mul_div_le (length l) C) as Hdiv. nia. }
  assert (HC : C <= length l) by nia.
  unfold checkpoints_ok. cbn [GenerateTranscriptions.rows GenerateTranscriptions.chunk_idx
    GenerateTranscriptions.checkpoints]. fold l C.
  split; [|split; [exact Hfull|]].
  - rewrite map_app, Hidx, seq_S. reflexivity.
  - apply Forall_app. split; [exact Hfiles|].
    apply Forall_cons. split; [|apply Forall_nil_2]. cbn [snd].
    unfold GenerateTranscriptions.last_rows.
    destruct (Nat.eqb_spec C 0) as [E|_]; [lia|]. split.
    + rewrite length_drop. lia.
    + exists (take (length l - C) l), []. rewrite app_nil_r, take_drop. reflexivity.
Qed.

Lemma checkpoints_ok_main_loop cfg rounds : forall st,
  0 < GenerateTranscriptions.CHECKPOINT_ROWS cfg ->
  checkpoints_ok cfg st ->
  checkpoints_ok cfg
    (GenerateTranscriptions.state_of (GenerateTranscriptions.main_loop cfg rounds st)).
Proof.
  induction rounds as [|gathered rounds IH]; intros st Hpos H;
    cbn [GenerateTranscriptions.main_loop];
    destruct (_ <? _); cbn [GenerateTranscriptions.state_of]; try exact H.
  apply IH; [exact Hpos|]. unfold GenerateTranscriptions.round.
  apply checkpoints_ok_checkpoint; [exact Hpos|]. apply checkpoints_ok_gather, H.
Qed.

(** Whatever the rounds return, the checkpoint files of
    generate_transcriptions.py are numbered 1, 2, ... without a gap, each
    holds exactly CHECKPOINT_ROWS rows, and these rows stand side by side,
    in the same order, in the rows the master file is written from; there
    are never more files than full chunks of rows. *)
Theorem checkpoint_files_are_full_chunks cfg rounds :
  0 < GenerateTranscriptions.CHECKPOINT_ROWS cfg ->
  checkpoints_ok cfg (GenerateTranscriptions.state_of (GenerateTranscriptions.main cfg rounds)).
Proof.
  intros Hpos. apply checkpoints_ok_main_loop; [exact Hpos|].
  split; [reflexivity|]. split; [cbn; lia | apply Forall_nil_2].
Qed.

Lemma checkpoint_files_are_full_chunks_witness :
  0 < GenerateTranscriptions.CHECKPOINT_ROWS tiny_config
  /\ checkpoints_ok tiny_config
       (GenerateTranscriptions.state_of (GenerateTranscriptions.main tiny_config tiny_rounds)).
Proof.
  assert (H : 0 < GenerateTranscriptions.CHECKPOINT_ROWS tiny_config) by (cbn; lia).
  split; [exact H | exact (checkpoint_files_are_full_chunks tiny_config tiny_rounds H)].
Defined.

(** ** Repeated ids in the SOAP answers *)

Section LastAnswerWins.

Variable json_loads : string -> Py.result Py.json.

Local Abbreviation load_responses := (MergeSoapClean.load_responses json_loads).

Lemma load_responses_app pre : forall rest soap_map soap_map',
  load_responses (pre ++ rest) soap_map = Py.Ok soap_map' ->
  exists mid, load_responses pre soap_map = Py.Ok mid
              /\ load_responses rest mid = Py.Ok soap_map'.
Proof.
  induction pre as [|p pre IH]; intros rest m m' Hrun.
  - exists m. split; [reflexivity | exact Hrun].
  - cbn [app MergeSoapClean.load_responses] in *.
    destruct (Batch.status_code p =? 200)%Z; [|exact (IH _ _ _ Hrun)].
    destruct (json_loads (Batch.content p)) as [e|soap]; [discriminate Hrun|].
    cbn [Py.bind] in *. exact (IH _ _ _ Hrun).
Qed.

Lemma load_responses_keeps cid post : forall soap_map soap_map',
  load_responses post soap_map = Py.Ok soap_map' ->
  Forall (fun j => succeeded j = true -> Batch.custom_id j <> cid) post ->
  PyDict.get soap_map' cid = PyDict.get soap_map cid.
Proof.
  induction post as [|p post IH]; intros m m' Hrun Hother.
  - injection Hrun as <-. reflexivity.
  - apply Forall_cons in Hother as [Hp Hother].
    cbn [MergeSoapClean.load_responses] in Hrun. unfold succeeded in Hp.
    destruct (Batch.status_code p =? 200)%Z; [|exact (IH _ _ Hrun Hother)].
    destruct (json_loads (Batch.content p)) as [e|soap]; [discriminate Hrun|].
    cbn [Py.bind] in Hrun. rewrite (IH _ _ Hrun Hother), dict_get_set.
    destruct (String.eqb_spec (Batch.custom_id p) cid) as [E|_]; [|reflexivity].
    exfalso. exact (Hp eq_refl E).
Qed.

(** When an id has several successful lines in soap_output.jsonl,
    merge_soap_clean.py keeps the payload of the last one: a successful
    line that no later successful line repeats the id of is the one whose
    decoded text the table holds for that id. *)
Theorem last_successful_answer_wins
    (pre post : list Batch.response_line) (j : Batch.response_line)
    (soap_map : PyDict.dict Py.json) :
  load_responses (pre ++ j :: post) PyDict.empty = Py.Ok soap_map ->
  succeeded j = true ->
  Forall (fun j' => succeeded j' = true -> Batch.custom_id j' <> Batch.custom_id j) post ->
  exists soap, json_loads (Batch.content j) = Py.Ok soap
               /\ PyDict.get soap_map (Batch.custom_id j) = Some soap.
Proof.
  intros Hrun Hj Hpost.
  destruct (load_responses_app pre _ _ _ Hrun) as (mid & _ & Hrest).
  cbn [MergeSoapClean.load_responses] in Hrest. unfold succeeded in Hj.
  rewrite Hj in Hrest.
  destruct (json_loads (Batch.content j)) as [e|soap]; [discriminate Hrest|].
  cbn [Py.bind] in Hrest. exists soap. split; [reflexivity|].
  rewrite (load_responses_keeps _ _ _ _ Hrest Hpost), dict_get_set, String.eqb_refl.
  reflexivity.
Qed.

End LastAnswerWins.

Lemma last_successful_answer_wins_witness :
  MergeSoapClean.load_responses loads_soap_answer
    ([soap_line "A" 200; soap_line "B" 200] ++ soap_line "A" 200 :: [soap_line "B" 500])
    PyDict.empty
  = Py.Ok [("A", Py.JDict [("plan", Py.JStr "Rest.")]);
           ("B", Py.JDict [("plan", Py.JStr "Rest.")])]
  /\ exists soap,
       loads_soap_answer (Batch.content (soap_line "A" 200)) = Py.Ok soap
       /\ PyDict.get [("A", Py.JDict [("plan", Py.JStr "Rest.")]);
                      ("B", Py.JDict [("plan", Py.JStr "Rest.")])] "A" = Some soap.
Proof.
  assert (H : MergeSoapClean.load_responses loads_soap_answer
                ([soap_line "A" 200; soap_line "B" 200]
                 ++ soap_line "A" 200 :: [soap_line "B" 500]) PyDict.empty
              = Py.Ok [("A", Py.JDict [("plan", Py.JStr "Rest.")]);
                       ("B", Py.JDict [("plan", Py.JStr "Rest.")])])
    by (vm_compute; reflexivity).
  split; [exact H|].
  apply (last_successful_answer_wins loads_soap_answer _ _ _ _ H); [reflexivity|].
  apply Forall_cons. split; [intros Hs; discriminate Hs | apply Forall_nil_2].
Defined.

(** ** The key shown at start-up *)

Lemma substring_all s : forall n, String.length s <= n -> String.substring 0 n s = s.
Proof.
  induction s as [|c s IH]; intros n Hn; [destruct n; reflexivity|].
  cbn [String.length] in Hn. destruct n as [|n]; [lia|].
  cbn [String.substring]. rewrite IH by lia. reflexivity.
Qed.

Lemma string_app_nil_r s : s +:+ EmptyString = s.
Proof. induction s as [|c s IH]; [reflexivity|]. rewrite string_app_cons, IH. reflexivity. Qed.

(** The key generate_transcriptions_batch.py prints at start-up: of a key
    of ten characters or more exactly the first six and the last four are
    shown, whatever stands between; a key of at most four characters is
    shown whole, twice. *)
Theorem masked_shows_six_and_four :
  (forall a mid b, String.length a = 6 -> String.length b = 4 ->
     GenerateTranscriptionsBatch.masked (a +:+ mid +:+ b) = a +:+ Py.ellipsis +:+ b)
  /\ (forall key, String.length key <= 4 ->
        GenerateTranscriptionsBatch.masked key = key +:+ Py.ellipsis +:+ key).
Proof.
  unfold GenerateTranscriptionsBatch.masked, Py.slice_to, Py.slice_last. split.
  - intros a mid b Ha Hb. f_equal; [|f_equal].
    + rewrite <- Ha. apply substring_prefix.
    + rewrite <- string_app_assoc, string_app_length, Hb.
      replace (String.length (a +:+ mid) + 4 - 4) with (String.length (a +:+ mid) + 0) by lia.
      rewrite substring_skip. apply substring_all. lia.
  - intros key Hkey. f_equal; [|f_equal].
    + apply substring_all. lia.
    + replace (String.length key - 4) with 0 by lia. apply substring_all. lia.
Qed.
